(** * Validator status aggregation: transport, fetchers, calculators, aggregator

    A shallow embedding of [core/fetch_data.py] (with the getters of
    [core/config.py] it calls) and the properties of its data-aggregation
    pipeline.

    Conventions of the embedding.
    - A decoded JSON document is a [Json] tree.  [JObj] is the Python [dict]
      the decoder built: an ordered association list in which the first
      binding of a key is the one in force.  JSON numbers are integers, as
      in every response the program reads.
    - Network and subprocess effects go through a [World]: a deterministic
      environment that answers each request from the history of the events
      that happened before it.  Every effectful function passes the [Trace]
      of events explicitly and returns it extended.
    - A Python exception is a value of [Exn]; a call returns [Res A].
    - A Python [float] is an IEEE binary64 value ([spec_float] at precision
      53), with the rounding, the special values and the [OverflowError]s
      of the interpreter.
    - The aggregator reads the responses through typed views that follow
      the shapes documented in the source's comments.  A response outside
      them raises [Unmodelled], which no handler takes and which ends the
      run as [OutOfModel]: the embedding says nothing about such a run.
    - Logging is not modelled: it changes neither a result nor the trace.
    - The notification ([core/discord.py], [report_validator_status] and
      [main.py]) keeps the posts made to the webhook in an [Outbox], beside
      the trace; text is a string of bytes, UTF-8 for what is not ASCII. *)

From Stdlib Require Import ZArith List String Ascii Bool Lia.
From Stdlib Require Import Sorting.Sorted Sorting.Permutation.
From Stdlib Require Import Floats.SpecFloat.
From Stdlib Require Import DecimalString.
Import ListNotations.

Set Warnings "-register-all".
Local Open Scope string_scope.
Local Open Scope list_scope.
Local Open Scope Z_scope.

(** ** Decoded JSON values *)

Inductive Json : Type :=
| JNull
| JBool (b : bool)
| JInt (z : Z)
| JStr (s : string)
| JArr (l : list Json)
| JObj (kvs : list (string * Json)).

(** [d.get(k)], and [k in d], on the association list of a dict. *)
Fixpoint dict_get {A : Type} (k : string) (d : list (string * A)) : option A :=
  match d with
  | [] => None
  | (k', v) :: rest => if String.eqb k k' then Some v else dict_get k rest
  end.

(** [d[k] = v]: an existing key keeps its position, a new key goes last. *)
Fixpoint dict_set {A : Type} (k : string) (v : A) (d : list (string * A))
  : list (string * A) :=
  match d with
  | [] => [(k, v)]
  | (k', v') :: rest =>
      if String.eqb k k' then (k, v) :: rest else (k', v') :: dict_set k v rest
  end.

(** [sub in s] for two Python strings. *)
Fixpoint str_contains (sub s : string) : bool :=
  if String.prefix sub s then true
  else match s with
       | EmptyString => false
       | String _ s' => str_contains sub s'
       end.

Definition is_jstr (t : string) (j : Json) : bool :=
  match j with JStr s => String.eqb s t | _ => false end.

(** ** Exceptions and results *)

(** What one endpoint's failure leaves in [last_exception_per_url]: the
    exception object, with the text Python's [str] gives for it. *)
Inductive Failure : Type :=
| FRpcError (method url : string) (err : Json)
| FTimeout (text : string)
| FHTTPError (text : string)
| FRequestException (text : string)
| FJSONDecodeError (text : string).

(** The messages of the [RuntimeError]s the module raises, held as the
    values their f-strings interpolate. *)
Inductive Message : Type :=
| MsgRpcFailedAll (method : string) (max_attempts : Z)
                  (error_summary : list (string * Failure))
| MsgCliFailedAll (command_args : list string)
| MsgUnexpectedType (method : string) (result : Json)
| MsgValidatorInfoParse.

Inductive Exn : Type :=
| RuntimeError (m : Message)
| TypeError
| AttributeError
| ValueError
| OverflowError
| ZeroDivisionError
| Unmodelled.      (* not a Python exception: a response outside the views *)

Inductive Res (A : Type) : Type :=
| Ok (a : A)
| Raise (e : Exn).
Arguments Ok {A} a.
Arguments Raise {A} e.

(** ** The environment *)

Inductive Event : Type :=
| EvPost (url method : string) (params : list Json)
| EvSleep (seconds : Z)
| EvCli (url : string) (command_args : list string).

Definition Trace := list Event.

(** The outcome of [requests.post] .. [response.json()] on one endpoint. *)
Inductive Response : Type :=
| RTimeout (text : string)
| RHTTPError (text : string)
| RRequestException (text : string)
| RJSONDecodeError (text : string)
| RBody (result_json : Json).

(** The outcome of one [subprocess.run]: the standard output with what
    [json.loads] makes of it ([None] when it is not JSON), or any of the
    failures the CLI wrapper catches. *)
Inductive CliResult : Type :=
| CliStdout (decoded : option Json)
| CliFailed.

Record World : Type := {
  http : Trace -> string -> string -> list Json -> Response;
  cli : Trace -> string -> list string -> CliResult
}.

(** A computation with effects: from the trace so far to a result and the
    trace extended. *)
Definition M (A : Type) : Type := Trace -> Res A * Trace.

Definition ret {A} (a : A) : M A := fun tr => (Ok a, tr).
Definition throw {A} (e : Exn) : M A := fun tr => (Raise e, tr).
Definition bind {A B} (c : M A) (k : A -> M B) : M B :=
  fun tr => match c tr with
            | (Ok a, tr') => k a tr'
            | (Raise e, tr') => (Raise e, tr')
            end.
Definition lift {A} (r : Res A) : M A := fun tr => (r, tr).

Notation "x <- c ;; k" := (bind c (fun x => k))
  (at level 61, c at next level, right associativity).

(** [try: c except RuntimeError: h] *)
Definition catch_runtime {A} (c : M A) (h : Message -> M A) : M A :=
  fun tr => match c tr with
            | (Raise (RuntimeError m), tr') => h m tr'
            | other => other
            end.

(** [try: c except Exception: h] *)
Definition catch_all {A} (c : M A) (h : Exn -> M A) : M A :=
  fun tr => match c tr with
            | (Raise Unmodelled, tr') => (Raise Unmodelled, tr')
            | (Raise e, tr') => h e tr'
            | other => other
            end.

(** ** Configuration ([core/config.py], after loading) *)

Record Config : Type := {
  validator_identities : list (string * string);  (* [validator].identity_<c> *)
  rpc_urls_table : list (string * list string);   (* [rpc_urls].urls_<c> *)
  rpc_max_retries : Z;                            (* default 1 *)
  rpc_retry_delay_seconds : Z                     (* default 5 *)
}.

Definition get_validator_identity (cfg : Config) (cluster : string) : option string :=
  dict_get cluster (validator_identities cfg).
Definition get_rpc_urls (cfg : Config) (cluster : string) : option (list string) :=
  dict_get cluster (rpc_urls_table cfg).
Definition get_rpc_max_retries (cfg : Config) : Z := rpc_max_retries cfg.
Definition get_rpc_retry_delay (cfg : Config) : Z := rpc_retry_delay_seconds cfg.

(** ** Transport: [_make_rpc_request] *)

(** What the body of the [try] does with one endpoint's response. *)
Inductive Attempt : Type :=
| AttemptReturn (result : Json)      (* [return result_json.get("result")] *)
| AttemptFailed (f : Failure)        (* recorded, next endpoint *)
| AttemptRaise (e : Exn).            (* an exception no [except] clause takes *)

Definition rpc_attempt (method rpc_url : string) (r : Response) : Attempt :=
  match r with
  | RTimeout t => AttemptFailed (FTimeout t)
  | RHTTPError t => AttemptFailed (FHTTPError t)
  | RRequestException t => AttemptFailed (FRequestException t)
  | RJSONDecodeError t => AttemptFailed (FJSONDecodeError t)
  | RBody (JObj kvs) =>
      match dict_get "error" kvs with
      | Some err => AttemptFailed (FRpcError method rpc_url err)
      | None => AttemptReturn (match dict_get "result" kvs with
                               | Some v => v
                               | None => JNull
                               end)
      end
  | RBody (JArr l) =>
      (* ["error" in l], then [l['error']] or [l.get] *)
      if existsb (is_jstr "error") l then AttemptRaise TypeError
      else AttemptRaise AttributeError
  | RBody (JStr s) =>
      if str_contains "error" s then AttemptRaise TypeError
      else AttemptRaise AttributeError
  | RBody _ => AttemptRaise TypeError   (* ["error" in 5]: not iterable *)
  end.

(** One pass of [for rpc_url in cluster_rpc_urls].  [None]: every endpoint
    failed and the pass fell through. *)
Fixpoint try_urls (w : World) (method : string) (params : list Json)
    (urls : list string) (last : list (string * Failure)) (tr : Trace)
  : option (Res Json) * list (string * Failure) * Trace :=
  match urls with
  | [] => (None, last, tr)
  | rpc_url :: rest =>
      let tr1 := tr ++ [EvPost rpc_url method params] in
      match rpc_attempt method rpc_url (http w tr rpc_url method params) with
      | AttemptReturn result => (Some (Ok result), last, tr1)
      | AttemptRaise e => (Some (Raise e), last, tr1)
      | AttemptFailed f => try_urls w method params rest (dict_set rpc_url f last) tr1
      end
  end.

(** [time.sleep(d)] refuses a negative length. *)
Definition sleep (d : Z) : M unit :=
  fun tr => if d <? 0 then (Raise ValueError, tr) else (Ok tt, tr ++ [EvSleep d]).

(** [for attempt in range(max_attempts)], over the attempt numbers left. *)
Fixpoint attempt_loop (w : World) (method : string) (params : list Json)
    (urls : list string) (max_attempts delay_seconds : Z)
    (attempts : list nat) (last : list (string * Failure)) (tr : Trace)
  : Res Json * Trace :=
  match attempts with
  | [] => (Raise (RuntimeError (MsgRpcFailedAll method max_attempts last)), tr)
  | attempt :: rest =>
      match try_urls w method params urls last tr with
      | (Some r, _, tr1) => (r, tr1)
      | (None, last1, tr1) =>
          if Z.of_nat attempt <? max_attempts - 1 then
            match sleep delay_seconds tr1 with
            | (Ok _, tr2) =>
                attempt_loop w method params urls max_attempts delay_seconds
                             rest last1 tr2
            | (Raise e, tr2) => (Raise e, tr2)
            end
          else
            attempt_loop w method params urls max_attempts delay_seconds
                         rest last1 tr1
      end
  end.

Definition _make_rpc_request (cfg : Config) (w : World)
    (cluster_rpc_urls : list string) (method : string) (params : list Json)
    (max_retries_override retry_delay_override : option Z) : M Json :=
  fun tr =>
    let max_attempts :=
      (match max_retries_override with
       | Some r => r
       | None => get_rpc_max_retries cfg
       end) + 1 in
    let delay_seconds :=
      match retry_delay_override with
      | Some d => d
      | None => get_rpc_retry_delay cfg
      end in
    attempt_loop w method params cluster_rpc_urls max_attempts delay_seconds
                 (seq 0 (Z.to_nat max_attempts)) [] tr.

(** ** Transport: [_execute_solana_cli_command] *)

(** One pass over the endpoints, no retry.  The standard output is returned
    with its [json.loads] decoding. *)
Fixpoint _execute_solana_cli_command (w : World) (command_args : list string)
    (cluster_rpc_urls : list string) : M (option Json) :=
  fun tr =>
    match cluster_rpc_urls with
    | [] => (Raise (RuntimeError (MsgCliFailedAll command_args)), tr)
    | rpc_url :: rest =>
        let tr1 := tr ++ [EvCli rpc_url command_args] in
        match cli w tr rpc_url command_args with
        | CliStdout out => (Ok out, tr1)
        | CliFailed => _execute_solana_cli_command w command_args rest tr1
        end
    end.

(** ** Fetchers *)

Definition get_vote_accounts_rpc (cfg : Config) (w : World)
    (cluster_rpc_urls : list string) : M Json :=
  _make_rpc_request cfg w cluster_rpc_urls "getVoteAccounts" [] None None.

Definition get_epoch_info_rpc (cfg : Config) (w : World)
    (cluster_rpc_urls : list string) : M Json :=
  _make_rpc_request cfg w cluster_rpc_urls "getEpochInfo" [] None None.

Definition get_cluster_nodes_rpc (cfg : Config) (w : World)
    (cluster_rpc_urls : list string) : M (list Json) :=
  result <- _make_rpc_request cfg w cluster_rpc_urls "getClusterNodes" [] None None ;;
  match result with
  | JArr l => ret l
  | _ => throw (RuntimeError (MsgUnexpectedType "getClusterNodes" result))
  end.

Definition get_leader_schedule_rpc (cfg : Config) (w : World)
    (cluster_rpc_urls : list string) : M (list (string * Json)) :=
  result <- _make_rpc_request cfg w cluster_rpc_urls "getLeaderSchedule" [] None None ;;
  match result with
  | JObj d => ret d
  | _ => throw (RuntimeError (MsgUnexpectedType "getLeaderSchedule" result))
  end.

Definition get_block_production_rpc (cfg : Config) (w : World)
    (cluster_rpc_urls : list string) (identity_pubkey : string)
    (first_slot last_slot : Z) : M (list (string * Json)) :=
  let params :=
    [JObj [("identity", JStr identity_pubkey);
           ("range", JObj [("firstSlot", JInt first_slot);
                           ("lastSlot", JInt last_slot)])]] in
  result <- _make_rpc_request cfg w cluster_rpc_urls "getBlockProduction" params None None ;;
  match result with
  | JObj d => ret d
  | _ => throw (RuntimeError (MsgUnexpectedType "getBlockProduction" result))
  end.

Definition get_recent_performance_samples_rpc (cfg : Config) (w : World)
    (cluster_rpc_urls : list string) (limit : Z) : M (list Json) :=
  result <- _make_rpc_request cfg w cluster_rpc_urls "getRecentPerformanceSamples"
                              [JInt limit] None None ;;
  match result with
  | JArr l => ret l
  | _ => ret []
  end.

(** [isinstance(v, int)] holds for a [bool] too; the value returned then
    counts as 1 or 0 in the arithmetic that follows. *)
Definition get_balance_rpc (cfg : Config) (w : World)
    (cluster_rpc_urls : list string) (pubkey : string) : M (option Z) :=
  if String.eqb pubkey "" then ret None
  else
    catch_runtime
      (result <- _make_rpc_request cfg w cluster_rpc_urls "getBalance"
                                   [JStr pubkey] None None ;;
       match result with
       | JNull => ret None
       | JObj d =>
           match dict_get "value" d with
           | Some (JInt v) => ret (Some v)
           | Some (JBool b) => ret (Some (if b then 1 else 0))
           | _ => ret None
           end
       | _ => throw AttributeError       (* [result.get] on a non-dict *)
       end)
      (fun _ => ret None).

Definition get_validator_info_cli (w : World) (cluster_rpc_urls : list string)
  : M Json :=
  output <- _execute_solana_cli_command w
              ["validator-info"; "get"; "--output"; "json"] cluster_rpc_urls ;;
  match output with
  | Some j => ret j
  | None => throw (RuntimeError MsgValidatorInfoParse)
  end.

Definition _get_validator_stake_info_cli (w : World)
    (cluster_rpc_urls : list string) (validator_pubkey : string) : M Json :=
  catch_all
    (output <- _execute_solana_cli_command w
                 ["stakes"; validator_pubkey; "--output"; "json"] cluster_rpc_urls ;;
     match output with
     | Some j => ret j
     | None => ret (JArr [])             (* [except json.JSONDecodeError] *)
     end)
    (fun _ => ret (JArr [])).

(** ** Python numbers *)

Definition float : Type := spec_float.
Definition prec : Z := 53.
Definition emax : Z := 1024.

Definition fadd : float -> float -> float := SFadd prec emax.
Definition fsub : float -> float -> float := SFsub prec emax.
Definition fmul : float -> float -> float := SFmul prec emax.
Definition fdiv : float -> float -> float := SFdiv prec emax.
Definition flt : float -> float -> bool := SFltb.

Definition f_zero : float := S754_zero false.                         (* 0.0 *)
Definition f_one : float := S754_finite false 4503599627370496 (-52).  (* 1.0 *)
Definition f_half : float := S754_finite false 4503599627370496 (-53). (* 0.5 *)
Definition f_100 : float := S754_finite false 7036874417766400 (-46).  (* 100.0 *)
Definition f_0_4 : float := S754_finite false 7205759403792794 (-54). (* 0.4 *)
Definition f_99_9 : float := S754_finite false 7029837543348634 (-46). (* 99.9 *)

(** [float(z)]: round to nearest even; too large is an [OverflowError]. *)
Definition float_of_int (z : Z) : Res float :=
  match binary_normalize prec emax z 0 false with
  | S754_infinity _ => Raise OverflowError
  | f => Ok f
  end.

(** [a / b] on two [int]s: the quotient correctly rounded. *)
Definition int_truediv (a b : Z) : Res float :=
  if b =? 0 then Raise ZeroDivisionError
  else
    let negate := xorb (a <? 0) (b <? 0) in
    if a =? 0 then Ok (S754_zero negate)
    else
      let '(mz, ez, lz) := SFdiv_core_binary prec emax (Z.abs a) 0 (Z.abs b) 0 in
      match binary_round_aux prec emax negate mz ez lz with
      | S754_infinity _ => Raise OverflowError
      | f => Ok f
      end.

(** C's [fmod]: the remainder of the truncated quotient, exact. *)
Definition fmod (x y : float) : float :=
  match x, y with
  | S754_nan, _ | _, S754_nan | S754_infinity _, _ | _, S754_zero _ => S754_nan
  | _, S754_infinity _ => x
  | S754_zero _, _ => x
  | S754_finite sx mx ex, S754_finite _ my ey =>
      let e := Z.min ex ey in
      let r := Z.rem (Zpos mx * 2 ^ (ex - e)) (Zpos my * 2 ^ (ey - e)) in
      if r =? 0 then S754_zero sx
      else binary_normalize prec emax (cond_Zopp sx r) e false
  end.

Definition ffloor (x : float) : float :=
  match x with
  | S754_finite s m e =>
      if 0 <=? e then x
      else binary_normalize prec emax (cond_Zopp s (Zpos m) / 2 ^ (- e)) 0 false
  | _ => x
  end.

Definition fsign (x : float) : bool :=
  match x with
  | S754_zero s | S754_infinity s | S754_finite s _ _ => s
  | S754_nan => false
  end.

Definition fnonzero (x : float) : bool :=
  match x with S754_zero _ => false | _ => true end.

(** [divmod(vx, wx)] on two [float]s, as the interpreter computes it. *)
Definition float_divmod (vx wx : float) : Res (float * float) :=
  if negb (fnonzero wx) then Raise ZeroDivisionError
  else
    let mod0 := fmod vx wx in
    let div0 := fdiv (fsub vx mod0) wx in
    let '(mod1, div1) :=
      if fnonzero mod0 then
        if negb (Bool.eqb (flt wx f_zero) (flt mod0 f_zero))
        then (fadd mod0 wx, fsub div0 f_one)
        else (mod0, div0)
      else (S754_zero (fsign wx), div0) in
    let floordiv :=
      if fnonzero div1 then
        let fl := ffloor div1 in
        if flt f_half (fsub div1 fl) then fadd fl f_one else fl
      else S754_zero (fsign (fdiv vx wx)) in
    Ok (floordiv, mod1).

(** [divmod(x, n)] with [n] an [int]. *)
Definition divmod_int (x : float) (n : Z) : Res (float * float) :=
  match float_of_int n with
  | Ok wx => float_divmod x wx
  | Raise e => Raise e
  end.

(** [int(x)]: truncation. *)
Definition int_of_float (x : float) : Res Z :=
  match x with
  | S754_zero _ => Ok 0
  | S754_finite s m e =>
      Ok (cond_Zopp s (if 0 <=? e then Zpos m * 2 ^ e else Zpos m / 2 ^ (- e)))
  | S754_infinity _ => Raise OverflowError
  | S754_nan => Raise ValueError
  end.

(** [n * x] and [x * n] with [n] an [int]. *)
Definition int_mul_float (n : Z) (x : float) : Res float :=
  match float_of_int n with
  | Ok fn => Ok (fmul fn x)
  | Raise e => Raise e
  end.

(** [x > 0] *)
Definition fpos (x : float) : bool := flt f_zero x.

(** [str(z)] *)
Definition str_of_int (z : Z) : string := NilZero.string_of_int (Z.to_int z).

(** [s.split(":")[0]] *)
Fixpoint before_colon (s : string) : string :=
  match s with
  | EmptyString => EmptyString
  | String c s' => if Ascii.eqb c ":" then EmptyString else String c (before_colon s')
  end.

(** [", ".join(parts)] *)
Definition join (sep : string) (parts : list string) : string :=
  String.concat sep parts.

Definition LAMPORTS_PER_SOL : Z := 1000000000.

(** A number, or the text "N/A". *)
Inductive IntOrNA : Type := IntVal (z : Z) | IntNA.
Inductive FloatOrNA : Type := FloatVal (x : float) | FloatNA.

Definition is_NA (v : IntOrNA) : bool :=
  match v with IntNA => true | IntVal _ => false end.

(** ** Typed views of the responses *)

Definition as_int (j : Json) : option Z :=
  match j with JInt z => Some z | _ => None end.

Definition as_str (j : Json) : option string :=
  match j with JStr s => Some s | _ => None end.

Fixpoint all_some {A : Type} (l : list (option A)) : option (list A) :=
  match l with
  | [] => Some []
  | None :: _ => None
  | Some a :: rest => option_map (cons a) (all_some rest)
  end.

Definition as_list {A : Type} (view : Json -> option A) (j : Json)
  : option (list A) :=
  match j with JArr l => all_some (map view l) | _ => None end.

(** A key that may be missing: [Some None] when it is. *)
Definition opt_field {A : Type} (view : Json -> option A) (k : string)
    (d : list (string * Json)) : option (option A) :=
  match dict_get k d with
  | None => Some None
  | Some j => option_map Some (view j)
  end.

Definition need {A : Type} (o : option A) : Res A :=
  match o with Some a => Ok a | None => Raise Unmodelled end.

(** One entry of [getVoteAccounts]'s "current" or "delinquent" list, with
    the keys the aggregator attaches to it.  A field is [None] while the
    dict has no such key. *)
Record Validator : Type := {
  nodePubkey : option string;
  votePubkey : option string;
  activatedStake : option Z;
  epochCredits : option (list (list Z));   (* [[epoch, credits, previous], ..] *)
  currentEpochCreditsCumulative : option Z;
  currentEpochCreditsEarned : option Z;
  rank_key : option IntOrNA                (* the key "rank" *)
}.

Record VoteAccounts : Type := {
  current : option (list Validator);
  delinquent : option (list Validator)
}.

Record EpochInfo : Type := {
  epoch : option Z;
  slotIndex : option Z;
  slotsInEpoch : option Z;
  absoluteSlot : option Z
}.

(** [version] and [gossip] may be null in the response. *)
Record ClusterNode : Type := {
  pubkey : option string;
  version : option (option string);   (* missing / null / text *)
  gossip : option string              (* missing or null / text *)
}.

Record ValidatorInfo : Type := {
  identityPubkey : option string;
  info : option (option string)       (* missing / the object's "name" *)
}.

Record StakeAccount : Type := {
  activeStake : option Z;
  delegatedStake : option Z;
  deactivatingStake : option Z
}.

Record PerformanceSample : Type := {
  numSlots : option Z;
  samplePeriodSecs : option Z
}.

Definition opt_bind {A B} (o : option A) (k : A -> option B) : option B :=
  match o with Some a => k a | None => None end.

Definition view_validator (j : Json) : option Validator :=
  match j with
  | JObj d =>
      opt_bind (opt_field as_str "nodePubkey" d) (fun np =>
      opt_bind (opt_field as_str "votePubkey" d) (fun vp =>
      opt_bind (opt_field as_int "activatedStake" d) (fun st =>
      opt_bind (opt_field (as_list (as_list as_int)) "epochCredits" d) (fun ec =>
      Some {| nodePubkey := np; votePubkey := vp; activatedStake := st;
              epochCredits := ec; currentEpochCreditsCumulative := None;
              currentEpochCreditsEarned := None; rank_key := None |}))))
  | _ => None
  end.

Definition view_vote_accounts (j : Json) : option VoteAccounts :=
  match j with
  | JObj d =>
      opt_bind (opt_field (as_list view_validator) "current" d) (fun c =>
      opt_bind (opt_field (as_list view_validator) "delinquent" d) (fun q =>
      Some {| current := c; delinquent := q |}))
  | _ => None
  end.

Definition view_epoch_info (j : Json) : option EpochInfo :=
  match j with
  | JObj d =>
      opt_bind (opt_field as_int "epoch" d) (fun e =>
      opt_bind (opt_field as_int "slotIndex" d) (fun si =>
      opt_bind (opt_field as_int "slotsInEpoch" d) (fun n =>
      opt_bind (opt_field as_int "absoluteSlot" d) (fun a =>
      Some {| epoch := e; slotIndex := si; slotsInEpoch := n;
              absoluteSlot := a |}))))
  | _ => None
  end.

Definition as_str_or_null (j : Json) : option (option string) :=
  match j with
  | JNull => Some None
  | JStr s => Some (Some s)
  | _ => None
  end.

Definition view_cluster_node (j : Json) : option ClusterNode :=
  match j with
  | JObj d =>
      opt_bind (opt_field as_str "pubkey" d) (fun pk =>
      opt_bind (opt_field as_str_or_null "version" d) (fun v =>
      opt_bind (opt_field as_str_or_null "gossip" d) (fun g =>
      Some {| pubkey := pk; version := v;
              gossip := match g with Some (Some s) => Some s | _ => None end |})))
  | _ => None
  end.

Definition view_info_name (j : Json) : option (option string) :=
  match j with
  | JObj d => opt_field as_str "name" d
  | _ => None
  end.

(** [info] is [None] without the key "info", [Some None] for an object
    without "name", [Some (Some n)] for a name. *)
Definition view_validator_info (j : Json) : option ValidatorInfo :=
  match j with
  | JObj d =>
      opt_bind (opt_field as_str "identityPubkey" d) (fun ip =>
      opt_bind (opt_field view_info_name "info" d) (fun i =>
      Some {| identityPubkey := ip; info := i |}))
  | _ => None
  end.

Definition view_stake_account (j : Json) : option StakeAccount :=
  match j with
  | JObj d =>
      opt_bind (opt_field as_int "activeStake" d) (fun a =>
      opt_bind (opt_field as_int "delegatedStake" d) (fun g =>
      opt_bind (opt_field as_int "deactivatingStake" d) (fun x =>
      Some {| activeStake := a; delegatedStake := g; deactivatingStake := x |})))
  | _ => None
  end.

Definition view_performance_sample (j : Json) : option PerformanceSample :=
  match j with
  | JObj d =>
      opt_bind (opt_field as_int "numSlots" d) (fun n =>
      opt_bind (opt_field as_int "samplePeriodSecs" d) (fun p =>
      Some {| numSlots := n; samplePeriodSecs := p |}))
  | _ => None
  end.

(** [leader_schedule_data.get(identity, [])]: the slots of one validator. *)
Definition view_leader_slots (identity : string) (d : list (string * Json))
  : option (list Z) :=
  match dict_get identity d with
  | None => Some []
  | Some j => as_list as_int j
  end.

(** [block_production_info.get("value", {}).get("byIdentity", {}).get(identity)]:
    [Some None] when a key on the way is missing or the entry is null. *)
Definition view_block_production (identity : string) (d : list (string * Json))
  : option (option (list Z)) :=
  match dict_get "value" d with
  | None => Some None
  | Some (JObj dv) =>
      match dict_get "byIdentity" dv with
      | None => Some None
      | Some (JObj di) =>
          match dict_get identity di with
          | None | Some JNull => Some None
          | Some j => option_map Some (as_list as_int j)
          end
      | Some _ => None
      end
  | Some _ => None
  end.

(** ** Calculators *)

Definition rbind {A B} (r : Res A) (k : A -> Res B) : Res B :=
  match r with Ok a => k a | Raise e => Raise e end.

Notation "x <~ c ;; k" := (rbind c (fun x => k))
  (at level 61, c at next level, right associativity).

Definition default {A : Type} (d : A) (o : option A) : A :=
  match o with Some a => a | None => d end.

(** The four running totals of [_calculate_stake_metrics_from_data]. *)
Record StakeLamports : Type := {
  total_active_stake_lamports : Z;
  total_delegated_stake_lamports : Z;
  total_activating_stake_lamports : Z;
  total_deactivating_stake_lamports : Z
}.

Definition net_stake_change_lamports (t : StakeLamports) : Z :=
  total_activating_stake_lamports t - total_deactivating_stake_lamports t.

(** The body of [for account in stake_data]. *)
Definition stake_step (t : StakeLamports) (account : StakeAccount) : StakeLamports :=
  let active_stake := default 0 (activeStake account) in
  let delegated_stake := default 0 (delegatedStake account) in
  let deactivating_stake := default 0 (deactivatingStake account) in
  let activating_for_this_account := delegated_stake - active_stake in
  {| total_active_stake_lamports := total_active_stake_lamports t + active_stake;
     total_delegated_stake_lamports := total_delegated_stake_lamports t + delegated_stake;
     total_activating_stake_lamports :=
       if activating_for_this_account >? 0
       then total_activating_stake_lamports t + activating_for_this_account
       else total_activating_stake_lamports t;
     total_deactivating_stake_lamports :=
       total_deactivating_stake_lamports t + deactivating_stake |}.

Definition stake_lamports (stake_data : list StakeAccount) : StakeLamports :=
  fold_left stake_step stake_data
    {| total_active_stake_lamports := 0; total_delegated_stake_lamports := 0;
       total_activating_stake_lamports := 0; total_deactivating_stake_lamports := 0 |}.

(** The dict [_calculate_stake_metrics_from_data] returns. *)
Record StakeMetrics : Type := {
  total_active_stake_sol : float;
  total_delegated_stake_sol : float;
  stake_activating_sol : float;
  stake_deactivating_sol : float;
  net_stake_change_sol : float
}.

Definition _calculate_stake_metrics_from_data (stake_data : list StakeAccount)
  : Res StakeMetrics :=
  match stake_data with
  | [] =>
      Ok {| total_active_stake_sol := f_zero; total_delegated_stake_sol := f_zero;
            stake_activating_sol := f_zero; stake_deactivating_sol := f_zero;
            net_stake_change_sol := f_zero |}
  | _ =>
      let t := stake_lamports stake_data in
      a <~ int_truediv (total_active_stake_lamports t) LAMPORTS_PER_SOL ;;
      d <~ int_truediv (total_delegated_stake_lamports t) LAMPORTS_PER_SOL ;;
      g <~ int_truediv (total_activating_stake_lamports t) LAMPORTS_PER_SOL ;;
      x <~ int_truediv (total_deactivating_stake_lamports t) LAMPORTS_PER_SOL ;;
      n <~ int_truediv (net_stake_change_lamports t) LAMPORTS_PER_SOL ;;
      Ok {| total_active_stake_sol := a; total_delegated_stake_sol := d;
            stake_activating_sol := g; stake_deactivating_sol := x;
            net_stake_change_sol := n |}
  end.

(** The average slot time of [_calculate_epoch_progress], 0.4 by default. *)
Definition valid_sample (s : PerformanceSample) : bool :=
  (default 0 (numSlots s) >? 0)
  && match samplePeriodSecs s with Some _ => true | None => false end.

Definition sum_Z (l : list Z) : Z := fold_left Z.add l 0.

Definition average_slot_time (performance_samples : list PerformanceSample)
  : Res float :=
  match performance_samples with
  | [] => Ok f_0_4
  | _ =>
      match filter valid_sample performance_samples with
      | [] => Ok f_0_4
      | valid_samples =>
          let total_slots := sum_Z (map (fun s => default 0 (numSlots s)) valid_samples) in
          let total_time_secs :=
            sum_Z (map (fun s => default 0 (samplePeriodSecs s)) valid_samples) in
          if total_slots >? 0 then int_truediv total_time_secs total_slots
          else Ok f_0_4
      end
  end.

(** [f"{int(x)} day{'s' if int(x) != 1 else ''}"] *)
Definition unit_text (x : float) (unit : string) : Res string :=
  n <~ int_of_float x ;;
  Ok (str_of_int n ++ " " ++ unit ++ (if (n =? 1)%Z then "" else "s"))%string.

(** [parts.append(..)] under a condition. *)
Definition append_if (c : bool) (x : float) (unit : string) (parts : list string)
  : Res (list string) :=
  if c then (t <~ unit_text x unit ;; Ok (parts ++ [t])) else Ok parts.

Definition is_empty {A : Type} (l : list A) : bool :=
  match l with [] => true | _ => false end.

(** The four components of the remaining time. *)
Definition split_time (time_remaining_seconds : float)
  : Res (float * float * float * float) :=
  dr <~ divmod_int time_remaining_seconds 86400 ;;
  hr <~ divmod_int (snd dr) 3600 ;;
  ms <~ divmod_int (snd hr) 60 ;;
  Ok (fst dr, fst hr, fst ms, snd ms).

(** The parts of the text, from the components. *)
Definition time_parts (days hours minutes seconds : float) : Res (list string) :=
  p1 <~ append_if (fpos days) days "day" [] ;;
  p2 <~ append_if (fpos hours) hours "hour" p1 ;;
  p3 <~ append_if (fpos minutes) minutes "min" p2 ;;
  append_if (is_empty p3 && fpos seconds) seconds "sec" p3.

(** The text of the remaining time, from [divmod] to [time_left_str]. *)
Definition format_time_left (time_remaining_seconds percent_complete : float)
  : Res string :=
  c <~ split_time time_remaining_seconds ;;
  let '(days, hours, minutes, seconds) := c in
  parts <~ time_parts days hours minutes seconds ;;
  Ok (if is_empty parts
      then (if flt f_99_9 percent_complete then "Nearly complete" else "Calculating...")
      else join ", " parts).

Definition _calculate_epoch_progress (cfg : Config) (w : World)
    (epoch_info : EpochInfo) (cluster_rpc_urls : list string)
  : M (float * string) :=
  match slotIndex epoch_info, slotsInEpoch epoch_info with
  | Some slot_index, Some slots_in_epoch =>
      if slots_in_epoch =? 0 then ret (f_zero, "Unknown")
      else
        percent_complete <-
          lift (q <~ int_truediv slot_index slots_in_epoch ;; int_mul_float 100 q) ;;
        raw <- get_recent_performance_samples_rpc cfg w cluster_rpc_urls 720 ;;
        performance_samples <-
          lift (need (all_some (map view_performance_sample raw))) ;;
        avg_slot_time_seconds <- lift (average_slot_time performance_samples) ;;
        let remaining_slots := slots_in_epoch - slot_index in
        time_remaining_seconds <-
          lift (int_mul_float remaining_slots avg_slot_time_seconds) ;;
        time_left_str <-
          lift (format_time_left time_remaining_seconds percent_complete) ;;
        ret (percent_complete, time_left_str)
  | _, _ => ret (f_zero, "Unknown")
  end.

(** ** Aggregator: the steps of [process_validator_data] *)

(** Step 2, the loop over [epochCredits]: cumulative credits and credits
    earned in the current epoch, [(0, 0)] without a matching tuple. *)
Fixpoint scan_epoch_credits (current_epoch_from_rpc : option Z)
    (epoch_credits : list (list Z)) : Z * Z :=
  match epoch_credits with
  | [] => (0, 0)
  | ep_credits_tuple :: rest =>
      match ep_credits_tuple, current_epoch_from_rpc with
      | [e; current_credits_cumulative; previous_credits_cumulative], Some ce =>
          if e =? ce
          then (current_credits_cumulative,
                current_credits_cumulative - previous_credits_cumulative)
          else scan_epoch_credits current_epoch_from_rpc rest
      | _, _ => scan_epoch_credits current_epoch_from_rpc rest
      end
  end.

Definition process_validator (current_epoch_from_rpc : option Z) (val : Validator)
  : Validator :=
  let '(cumulative, earned) :=
    scan_epoch_credits current_epoch_from_rpc (default [] (epochCredits val)) in
  {| nodePubkey := nodePubkey val; votePubkey := votePubkey val;
     activatedStake := activatedStake val; epochCredits := epochCredits val;
     currentEpochCreditsCumulative := Some cumulative;
     currentEpochCreditsEarned := Some earned;
     rank_key := rank_key val |}.

(** [x.get("currentEpochCreditsEarned", 0)] *)
Definition credits_earned (v : Validator) : Z :=
  default 0 (currentEpochCreditsEarned v).

(** [sorted(.., key=.., reverse=True)]: the stable sort into descending
    order of the key.  An element goes in front of the first one whose key
    is not greater than its own. *)
Fixpoint insert_desc {A : Type} (key : A -> Z) (x : A) (l : list A) : list A :=
  match l with
  | [] => [x]
  | y :: l' => if key y >? key x then y :: insert_desc key x l' else x :: y :: l'
  end.

Fixpoint sorted_desc {A : Type} (key : A -> Z) (l : list A) : list A :=
  match l with
  | [] => []
  | x :: l' => insert_desc key x (sorted_desc key l')
  end.

Definition set_rank (r : IntOrNA) (val : Validator) : Validator :=
  {| nodePubkey := nodePubkey val; votePubkey := votePubkey val;
     activatedStake := activatedStake val; epochCredits := epochCredits val;
     currentEpochCreditsCumulative := currentEpochCreditsCumulative val;
     currentEpochCreditsEarned := currentEpochCreditsEarned val;
     rank_key := Some r |}.

(** [for i, val in enumerate(l): val["rank"] = i + 1], from index [i]. *)
Fixpoint assign_ranks (i : Z) (l : list Validator) : list Validator :=
  match l with
  | [] => []
  | val :: rest => set_rank (IntVal (i + 1)) val :: assign_ranks (i + 1) rest
  end.

Definition rank_validators (processed_validators : list Validator) : list Validator :=
  assign_ranks 0
    (sorted_desc credits_earned
       (filter (fun v => credits_earned v >? 0) processed_validators)).

(** [val.get("nodePubkey") == validator_identity_pubkey] *)
Definition is_node (validator_identity_pubkey : string) (val : Validator) : bool :=
  match nodePubkey val with
  | Some s => String.eqb s validator_identity_pubkey
  | None => false
  end.

Definition placeholder (validator_identity_pubkey : string) : Validator :=
  {| nodePubkey := Some validator_identity_pubkey; votePubkey := Some "N/A";
     activatedStake := Some 0; epochCredits := None;
     currentEpochCreditsCumulative := None;
     currentEpochCreditsEarned := Some 0; rank_key := Some IntNA |}.

(** The search for [our_validator_data]: the ranked list, then every
    processed validator, then the placeholder. *)
Definition locate_validator (ranked_validators processed_validators : list Validator)
    (validator_identity_pubkey : string) : Validator :=
  match (match ranked_validators with
         | [] => None
         | _ => find (is_node validator_identity_pubkey) ranked_validators
         end) with
  | Some val_ranked => val_ranked
  | None =>
      match find (is_node validator_identity_pubkey) processed_validators with
      | Some val_orig => set_rank IntNA val_orig
      | None => placeholder validator_identity_pubkey
      end
  end.

(** Step 3: [epoch_credits_earned] *)
Definition epoch_credits_of (our_validator_data : Validator) (rank : IntOrNA)
  : IntOrNA :=
  match currentEpochCreditsEarned our_validator_data with
  | Some c => IntVal c
  | None => if is_NA rank then IntNA else IntVal 0
  end.

(** Version and IP address from [getClusterNodes].  An empty list has no
    match and takes the same "N/A"s as the source's outer [else]. *)
Definition is_cluster_node (identity : string) (node_info : ClusterNode) : bool :=
  match pubkey node_info with
  | Some s => String.eqb s identity
  | None => false
  end.

Definition node_details (cluster_nodes_data : list ClusterNode) (identity : string)
  : option string * string :=
  match find (is_cluster_node identity) cluster_nodes_data with
  | Some node_info =>
      (default (Some "N/A") (version node_info),
       match gossip node_info with
       | Some gossip_address =>
           if String.eqb gossip_address "" then "N/A"
           else before_colon gossip_address
       | None => "N/A"
       end)
  | None => (Some "N/A", "N/A")
  end.

Definition balance_sol (lamports : option Z) : Res FloatOrNA :=
  match lamports with
  | Some l => x <~ int_truediv l LAMPORTS_PER_SOL ;; Ok (FloatVal x)
  | None => Ok FloatNA
  end.

Definition is_validator_info (identity : string) (vi_entry : ValidatorInfo) : bool :=
  match identityPubkey vi_entry with
  | Some s => String.eqb s identity
  | None => false
  end.

(** The display name from [validator-info get].  An empty list has no
    match and takes the same fallback as the source's outer [else]. *)
Definition resolve_name (validator_infos_list : list ValidatorInfo)
    (identity : string) : string :=
  let fallback := (substring 0 12 identity ++ "...")%string in
  match find (is_validator_info identity) validator_infos_list with
  | Some vi_entry =>
      let validator_name :=
        match info vi_entry with
        | Some (Some n) => n
        | _ => "Unknown"
        end in
      if String.eqb validator_name "null" || String.eqb validator_name ""
      then fallback else validator_name
  | None => fallback
  end.

(** Step 4: missed credits relative to rank 1. *)
Definition credits_earned_rank_1_of (ranked_validators : list Validator) : Z :=
  match ranked_validators with
  | top :: _ => if credits_earned top >? 0 then credits_earned top else 0
  | [] => 0
  end.

Definition missed_credits_of (epoch_credits_earned rank : IntOrNA)
    (credits_earned_rank_1 : Z) : IntOrNA :=
  match epoch_credits_earned with
  | IntVal e =>
      if credits_earned_rank_1 >? 0 then IntVal (credits_earned_rank_1 - e)
      else if (credits_earned_rank_1 =? 0) && (e >=? 0) then IntVal 0
      else if is_NA rank then IntNA
      else IntNA
  | IntNA => IntNA
  end.

(** Step 6: the leader-slot figures. *)
Record LeaderSlots : Type := {
  leader_slots_total : Z;
  leader_slots_completed : Z;
  leader_slots_upcoming : Z;
  leader_slots_skipped : Z;
  leader_skip_rate : float
}.

Definition no_leader_slots : LeaderSlots :=
  {| leader_slots_total := 0; leader_slots_completed := 0;
     leader_slots_upcoming := 0; leader_slots_skipped := 0;
     leader_skip_rate := f_zero |}.

Definition len {A : Type} (l : list A) : Z := Z.of_nat (List.length l).

Definition resolve_leader_slots (cfg : Config) (w : World)
    (rpc_urls : list string) (identity : string) (epoch_info_data : EpochInfo)
  : M LeaderSlots :=
  if String.eqb identity "N/A" then ret no_leader_slots
  else
    catch_runtime
      (leader_schedule_data <- get_leader_schedule_rpc cfg w rpc_urls ;;
       validator_slots_in_epoch <-
         lift (need (view_leader_slots identity leader_schedule_data)) ;;
       let leader_slots_total := len validator_slots_in_epoch in
       if leader_slots_total >? 0 then
         let current_slot_in_epoch := default 0 (slotIndex epoch_info_data) in
         let leader_slots_completed_count :=
           len (filter (fun s => s <=? current_slot_in_epoch)
                       validator_slots_in_epoch) in
         let leader_slots_upcoming_count :=
           leader_slots_total - leader_slots_completed_count in
         let epoch_start_absolute_slot :=
           default 0 (absoluteSlot epoch_info_data) - current_slot_in_epoch in
         let current_absolute_slot := default 0 (absoluteSlot epoch_info_data) in
         let counted skipped rate :=
           {| leader_slots_total := leader_slots_total;
              leader_slots_completed := leader_slots_completed_count;
              leader_slots_upcoming := leader_slots_upcoming_count;
              leader_slots_skipped := skipped; leader_skip_rate := rate |} in
         if (leader_slots_completed_count >? 0)
            && (epoch_start_absolute_slot <? current_absolute_slot)
         then
           catch_runtime
             (block_production_info <-
                get_block_production_rpc cfg w rpc_urls identity
                  epoch_start_absolute_slot current_absolute_slot ;;
              validator_bp_stats <-
                lift (need (view_block_production identity block_production_info)) ;;
              match validator_bp_stats with
              | Some [assigned_slots_in_bp_range; blocks_produced_in_bp_range] =>
                  if assigned_slots_in_bp_range >? 0 then
                    let skipped :=
                      assigned_slots_in_bp_range - blocks_produced_in_bp_range in
                    q <- lift (int_truediv skipped assigned_slots_in_bp_range) ;;
                    ret (counted skipped (fmul q f_100))
                  else ret (counted 0 f_zero)
              | _ => ret (counted 0 f_zero)
              end)
             (fun _ => ret (counted 0 f_zero))
         else ret (counted 0 f_zero)
       else ret no_leader_slots)
      (fun _ => ret no_leader_slots).

(** ** Aggregator: [process_validator_data] *)

Record StatusRecord : Type := {
  cluster_shorthand : string;
  validator_name : string;
  active_stake_sol : float;
  current_epoch : IntOrNA;
  epoch_percent_complete : float;
  time_left_in_epoch : string;
  rank : IntOrNA;
  epoch_credits : IntOrNA;
  missed_credits : IntOrNA;
  identity_pubkey : string;
  vote_account_pubkey : string;
  identity_balance_sol : FloatOrNA;
  vote_account_balance_sol : FloatOrNA;
  validator_version : option string;      (* [None] for a null version *)
  validator_ip : string;
  stake_metrics : StakeMetrics;           (* the five stake entries *)
  leader_slots : LeaderSlots              (* the five leader-slot entries *)
}.

(** Step 1: what the first five fetches bring, read through the views.  A
    view is applied as soon as its response arrives; the source meets a
    response of another shape only later, where it reads it. *)
Record Core : Type := {
  vote_accounts_data : VoteAccounts;
  validator_infos_list : list ValidatorInfo;
  epoch_info_data : EpochInfo;
  stake_metrics_of_core : StakeMetrics;
  cluster_nodes_data : list ClusterNode
}.

Definition fetch_core (cfg : Config) (w : World) (rpc_urls : list string)
    (validator_identity_pubkey : string) : M Core :=
  va_json <- get_vote_accounts_rpc cfg w rpc_urls ;;
  va <- lift (need (view_vote_accounts va_json)) ;;
  vi_json <- get_validator_info_cli w rpc_urls ;;
  vi <- lift (need (as_list view_validator_info vi_json)) ;;
  ei_json <- get_epoch_info_rpc cfg w rpc_urls ;;
  ei <- lift (need (view_epoch_info ei_json)) ;;
  stake_json <- _get_validator_stake_info_cli w rpc_urls validator_identity_pubkey ;;
  stake_raw_data <- lift (need (as_list view_stake_account stake_json)) ;;
  stake_metrics <- lift (_calculate_stake_metrics_from_data stake_raw_data) ;;
  cn_json <- get_cluster_nodes_rpc cfg w rpc_urls ;;
  cn <- lift (need (all_some (map view_cluster_node cn_json))) ;;
  ret {| vote_accounts_data := va; validator_infos_list := vi;
         epoch_info_data := ei; stake_metrics_of_core := stake_metrics;
         cluster_nodes_data := cn |}.

(** Step 2: the union of the two lists, every entry with its credits of
    the current epoch. *)
Definition all_validators_of (vote_accounts_data : VoteAccounts) : list Validator :=
  default [] (current vote_accounts_data)
  ++ default [] (delinquent vote_accounts_data).

Definition processed_validators_of (vote_accounts_data : VoteAccounts)
    (epoch_info_data : EpochInfo) : list Validator :=
  map (process_validator (epoch epoch_info_data))
      (all_validators_of vote_accounts_data).

(** The two balance lookups, each skipped for "N/A". *)
Definition fetch_balances (cfg : Config) (w : World) (rpc_urls : list string)
    (identity vote_account : string) : M (option Z * option Z) :=
  identity_balance_lamports <-
    (if String.eqb identity "N/A" then ret None
     else get_balance_rpc cfg w rpc_urls identity) ;;
  vote_account_balance_lamports <-
    (if String.eqb vote_account "N/A" then ret None
     else get_balance_rpc cfg w rpc_urls vote_account) ;;
  ret (identity_balance_lamports, vote_account_balance_lamports).

(** Steps 1 to 5 and the initial values of step 6: the record with the
    leader-slot figures still at zero, and the epoch info step 6 reads. *)
Definition gather (cfg : Config) (w : World) (cluster : string)
    (rpc_urls : list string) (validator_identity_pubkey : string)
  : M (StatusRecord * EpochInfo) :=
  c <- fetch_core cfg w rpc_urls validator_identity_pubkey ;;
  let processed_validators :=
    processed_validators_of (vote_accounts_data c) (epoch_info_data c) in
  let ranked_validators := rank_validators processed_validators in
  let our_validator_data :=
    locate_validator ranked_validators processed_validators
                     validator_identity_pubkey in
  let rank := default IntNA (rank_key our_validator_data) in
  let identity := default validator_identity_pubkey (nodePubkey our_validator_data) in
  let vote_account := default "N/A" (votePubkey our_validator_data) in
  let epoch_credits_earned := epoch_credits_of our_validator_data rank in
  let '(validator_client_version, validator_ip_address) :=
    node_details (cluster_nodes_data c) identity in
  balances <- fetch_balances cfg w rpc_urls identity vote_account ;;
  identity_balance_sol <- lift (balance_sol (fst balances)) ;;
  vote_account_balance_sol <- lift (balance_sol (snd balances)) ;;
  active_stake_sol <-
    lift (int_truediv (default 0 (activatedStake our_validator_data))
                      LAMPORTS_PER_SOL) ;;
  let validator_name := resolve_name (validator_infos_list c) identity in
  let missed_credits :=
    missed_credits_of epoch_credits_earned rank
                      (credits_earned_rank_1_of ranked_validators) in
  let current_epoch :=
    match epoch (epoch_info_data c) with Some e => IntVal e | None => IntNA end in
  progress <- _calculate_epoch_progress cfg w (epoch_info_data c) rpc_urls ;;
  ret ({| cluster_shorthand := cluster;
          validator_name := validator_name;
          active_stake_sol := active_stake_sol;
          current_epoch := current_epoch;
          epoch_percent_complete := fst progress;
          time_left_in_epoch := snd progress;
          rank := rank;
          epoch_credits := epoch_credits_earned;
          missed_credits := missed_credits;
          identity_pubkey := identity;
          vote_account_pubkey := vote_account;
          identity_balance_sol := identity_balance_sol;
          vote_account_balance_sol := vote_account_balance_sol;
          validator_version := validator_client_version;
          validator_ip := validator_ip_address;
          stake_metrics := stake_metrics_of_core c;
          leader_slots := no_leader_slots |},
       epoch_info_data c).

Definition set_leader_slots (r : StatusRecord) (l : LeaderSlots) : StatusRecord :=
  {| cluster_shorthand := cluster_shorthand r;
     validator_name := validator_name r;
     active_stake_sol := active_stake_sol r;
     current_epoch := current_epoch r;
     epoch_percent_complete := epoch_percent_complete r;
     time_left_in_epoch := time_left_in_epoch r;
     rank := rank r;
     epoch_credits := epoch_credits r;
     missed_credits := missed_credits r;
     identity_pubkey := identity_pubkey r;
     vote_account_pubkey := vote_account_pubkey r;
     identity_balance_sol := identity_balance_sol r;
     vote_account_balance_sol := vote_account_balance_sol r;
     validator_version := validator_version r;
     validator_ip := validator_ip r;
     stake_metrics := stake_metrics r;
     leader_slots := l |}.

(** The body of the [try] of [process_validator_data]. *)
Definition aggregate (cfg : Config) (w : World) (cluster : string)
    (rpc_urls : list string) (validator_identity_pubkey : string)
  : M StatusRecord :=
  p <- gather cfg w cluster rpc_urls validator_identity_pubkey ;;
  leader <- resolve_leader_slots cfg w rpc_urls (identity_pubkey (fst p)) (snd p) ;;
  ret (set_leader_slots (fst p) leader).

(** What a run ends in: the dict, [None], or a run outside the views. *)
Inductive Outcome : Type :=
| Report (r : StatusRecord)
| NoReport
| OutOfModel.

Definition process_validator_data (cfg : Config) (w : World)
    (cluster_shorthand : string) (tr : Trace) : Outcome * Trace :=
  match get_rpc_urls cfg cluster_shorthand,
        get_validator_identity cfg cluster_shorthand with
  | Some rpc_urls, Some validator_identity_pubkey =>
      if is_empty rpc_urls then (NoReport, tr)
      else
        match aggregate cfg w cluster_shorthand rpc_urls
                        validator_identity_pubkey tr with
        | (Ok r, tr') => (Report r, tr')
        | (Raise Unmodelled, tr') => (OutOfModel, tr')
        | (Raise _, tr') => (NoReport, tr')
        end
  | _, _ => (NoReport, tr)
  end.

(** * The notification ([core/discord.py], [report_validator_status], [main.py]) *)

(** ** Format specifications of the f-strings *)

(** Commas between groups of three digits, on the digits in reverse. *)
Fixpoint commas_rev (digits : list ascii) : list ascii :=
  match digits with
  | a :: b :: c :: ((_ :: _) as rest) => a :: b :: c :: ","%char :: commas_rev rest
  | _ => digits
  end.

Definition group_thousands (digits : string) : string :=
  string_of_list_ascii (rev (commas_rev (rev (list_ascii_of_string digits)))).

(** [format(z, ",")] on an [int]. *)
Definition format_int_commas (z : Z) : string :=
  ((if (z <? 0)%Z then "-" else "") ++ group_thousands (str_of_int (Z.abs z)))%string.

(** The nearest integer to [num / den], a tie going to the even one. *)
Definition round_half_even (num den : Z) : Z :=
  let q := num / den in
  let r := num mod den in
  if (2 * r >? den) || ((2 * r =? den) && Z.odd q) then q + 1 else q.

Definition two_digits (n : Z) : string :=
  if n <? 10 then ("0" ++ str_of_int n)%string else str_of_int n.

(** [format(x, ",.2f")] and [format(x, ".2f")] on a [float]: the exact
    value rounded to two decimals, half to even. *)
Definition format_float_2f (grouping : bool) (x : float) : string :=
  match x with
  | S754_nan => "nan"
  | S754_infinity s => if s then "-inf" else "inf"
  | S754_zero s => if s then "-0.00" else "0.00"
  | S754_finite s m e =>
      let hundredths :=
        if 0 <=? e then Zpos m * 2 ^ e * 100
        else round_half_even (Zpos m * 100) (2 ^ (- e)) in
      let whole := str_of_int (hundredths / 100) in
      ((if s then "-" else "")
       ++ (if grouping then group_thousands whole else whole)
       ++ "." ++ two_digits (hundredths mod 100))%string
  end.

(** [f"{v:,.2f}"] on a balance: the text "N/A" has no such format. *)
Definition format_balance (v : FloatOrNA) : Res string :=
  match v with
  | FloatVal x => Ok (format_float_2f true x)
  | FloatNA => Raise ValueError
  end.

(** [f"{v:,}"] on a count: the text "N/A" has no such format either. *)
Definition format_count (v : IntOrNA) : Res string :=
  match v with
  | IntVal z => Ok (format_int_commas z)
  | IntNA => Raise ValueError
  end.

(** [f"{v}"] *)
Definition str_of_int_or_na (v : IntOrNA) : string :=
  match v with IntVal z => str_of_int z | IntNA => "N/A" end.

Definition str_of_version (v : option string) : string :=
  match v with Some s => s | None => "None" end.

(** [str.lower] and [str.capitalize], on ASCII text. *)
Definition is_ascii (s : string) : bool :=
  forallb (fun c => (nat_of_ascii c <? 128)%nat) (list_ascii_of_string s).

Definition lower_char (c : ascii) : ascii :=
  let n := nat_of_ascii c in
  if ((65 <=? n) && (n <=? 90))%nat then ascii_of_nat (n + 32) else c.

Definition upper_char (c : ascii) : ascii :=
  let n := nat_of_ascii c in
  if ((97 <=? n) && (n <=? 122))%nat then ascii_of_nat (n - 32) else c.

Fixpoint lower (s : string) : string :=
  match s with
  | EmptyString => EmptyString
  | String c s' => String (lower_char c) (lower s')
  end.

Definition capitalize (s : string) : string :=
  match s with
  | EmptyString => EmptyString
  | String c s' => String (upper_char c) (lower s')
  end.

(** The cluster's name in the heading; text outside ASCII is not modelled. *)
Definition display_cluster_name_of (cluster_name : string) : Res string :=
  if negb (is_ascii cluster_name) then Raise Unmodelled
  else if String.eqb (lower cluster_name) "um" then Ok "Mainnet"
  else if String.eqb (lower cluster_name) "ut" then Ok "Testnet"
  else Ok (capitalize cluster_name).

(** ** [format_and_send_status]: the lines of the message *)

(** The record stands for the keyword arguments, which
    [report_validator_status] fills key by key from the dict. *)
Definition message_lines (r : StatusRecord) : Res (list string) :=
  display_cluster_name <~ display_cluster_name_of (cluster_shorthand r) ;;
  identity_balance <~ format_balance (identity_balance_sol r) ;;
  vote_balance <~ format_balance (vote_account_balance_sol r) ;;
  epoch_credits_text <~ format_count (epoch_credits r) ;;
  missed_credits_text <~ format_count (missed_credits r) ;;
  Ok [
      "========================================================";
      ("**                     🔥  __" ++ display_cluster_name ++ " Status: " ++ validator_name r ++ "__  🔥**")%string;
      "========================================================";
      "**__Validator Info__  🔍**";
      ("**Identity:**   `" ++ identity_pubkey r ++ "`")%string;
      ("**Vote:**         `" ++ vote_account_pubkey r ++ "`")%string;
      ("**Version:**    `" ++ str_of_version (validator_version r) ++ "`")%string;
      ("**IP:**               `" ++ validator_ip r ++ "`")%string;
      "========================================================";
      "**__Account Balances__  💰**";
      ("**Identity Balance:**   `" ++ identity_balance ++ " ◎`")%string;
      ("**Vote Balance:**          `" ++ vote_balance ++ " ◎`")%string;
      "========================================================";
      "**__Stake Info__  🥩**";
      ("**Total Active:**           `" ++ format_float_2f true (total_active_stake_sol (stake_metrics r)) ++ " ◎`")%string;
      ("**Total Delegated:**    `" ++ format_float_2f true (total_delegated_stake_sol (stake_metrics r)) ++ " ◎`")%string;
      ("**Activating:**               `" ++ format_float_2f true (stake_activating_sol (stake_metrics r)) ++ " ◎`")%string;
      ("**Deactivating:**          `" ++ format_float_2f true (stake_deactivating_sol (stake_metrics r)) ++ " ◎`")%string;
      ("**Net Change:**            `" ++ format_float_2f true (net_stake_change_sol (stake_metrics r)) ++ " ◎`")%string;
      "========================================================";
      "**__Leader Info__  👑**";
      ("**Total Slots:**             `" ++ str_of_int (leader_slots_total (leader_slots r)) ++ " slots`")%string;
      ("**Completed:**             `" ++ str_of_int (leader_slots_completed (leader_slots r)) ++ " slots`")%string;
      ("**Upcoming:**               `" ++ str_of_int (leader_slots_upcoming (leader_slots r)) ++ " slots`")%string;
      ("**Skipped:**                   `" ++ str_of_int (leader_slots_skipped (leader_slots r)) ++ " slots`")%string;
      ("**Skip Rate:**                `" ++ format_float_2f false (leader_skip_rate (leader_slots r)) ++ "%`")%string;
      "========================================================";
      "**__Epoch Metrics__ ⌛️**";
      ("**Current Epoch:**      `" ++ str_of_int_or_na (current_epoch r) ++ "`")%string;
      ("**Completed %:**         `" ++ format_float_2f false (epoch_percent_complete r) ++ "%`")%string;
      ("**Time Left:**                `" ++ time_left_in_epoch r ++ "`")%string;
      "========================================================";
      "**__Vote Metrics__  📈**";
      ("**TVC Rank:**               `" ++ str_of_int_or_na (rank r) ++ "`")%string;
      ("**Epoch Credits:**      `" ++ epoch_credits_text ++ "`")%string;
      ("**Missed Credits:**    `" ++ missed_credits_text ++ "`")%string;
      "========================================================"
  ].

(** ** [send_discord_message] *)

(** The webhook of the configuration, [None] without
    [[discord].webhook_url], and what a post to it meets: [true] when the
    post and [raise_for_status] pass, [false] for a [RequestException]. *)
Record Discord : Type := {
  discord_webhook_url : option string;
  post_webhook : string -> string -> bool
}.

(** The posts made to the webhook: URL and content. *)
Definition Outbox : Type := list (string * string).

(** What a call of the notifier raises: an exception met while formatting,
    or the [KeyError] of [get_discord_webhook_url]. *)
Inductive Raised : Type :=
| Exception (e : Exn)
| KeyError.

Definition newline : string := String (ascii_of_nat 10) EmptyString.

Definition send_discord_message (d : Discord) (message_lines : list string)
    (out : Outbox) : (bool + Raised) * Outbox :=
  match discord_webhook_url d with
  | None => (inr KeyError, out)
  | Some webhook_url =>
      if String.eqb webhook_url "" then (inl false, out)
      else
        let content := join newline message_lines in
        (inl (post_webhook d webhook_url content), out ++ [(webhook_url, content)])
  end.

Definition format_and_send_status (d : Discord) (r : StatusRecord) (out : Outbox)
  : (bool + Raised) * Outbox :=
  match message_lines r with
  | Ok lines => send_discord_message d lines out
  | Raise e => (inr (Exception e), out)
  end.

(** ** [report_validator_status] and [main.py] *)

(** How a call ends: it returns (nothing), an exception leaves it, or the
    run went outside the model. *)
Inductive Finished : Type :=
| Returned
| RaisedOut (x : Raised)
| RunOutOfModel.

Definition report_validator_status (cfg : Config) (w : World) (d : Discord)
    (cluster_shorthand : string) (tr : Trace) (out : Outbox)
  : Finished * Trace * Outbox :=
  match process_validator_data cfg w cluster_shorthand tr with
  | (Report data_to_report, tr') =>
      match format_and_send_status d data_to_report out with
      | (inl success, out') => (Returned, tr', out')
      | (inr (Exception Unmodelled), out') => (RunOutOfModel, tr', out')
      | (inr x, out') => (RaisedOut x, tr', out')
      end
  | (NoReport, tr') => (Returned, tr', out)
  | (OutOfModel, tr') => (RunOutOfModel, tr', out)
  end.

(** The exit status of [main.py --cluster cluster]: 2 from [argparse] for
    a cluster outside its choices, 1 when an exception reaches the
    handler, 0 otherwise. *)
Inductive Exit : Type :=
| ExitStatus (code : Z)
| ExitOutOfModel.

Definition main (cfg : Config) (w : World) (d : Discord) (cluster : string)
    (tr : Trace) (out : Outbox) : Exit * Trace * Outbox :=
  if negb (String.eqb cluster "um" || String.eqb cluster "ut")
  then (ExitStatus 2, tr, out)
  else
    match report_validator_status cfg w d cluster tr out with
    | (Returned, tr', out') => (ExitStatus 0, tr', out')
    | (RaisedOut _, tr', out') => (ExitStatus 1, tr', out')
    | (RunOutOfModel, tr', out') => (ExitOutOfModel, tr', out')
    end.

(** ** Vocabulary of the properties *)

Definition is_post (e : Event) : bool :=
  match e with EvPost _ _ _ => true | _ => false end.

Definition is_sleep (e : Event) : bool :=
  match e with EvSleep _ => true | _ => false end.

Definition count_events (p : Event -> bool) (tr : Trace) : nat :=
  List.length (filter p tr).

(** The endpoint's answer is one of the failures the transport records. *)
Definition endpoint_fails (method rpc_url : string) (r : Response) : bool :=
  match rpc_attempt method rpc_url r with
  | AttemptFailed _ => true
  | _ => false
  end.

(** One in-order pass over the endpoints. *)
Definition full_pass (method : string) (params : list Json) (urls : list string)
  : Trace :=
  map (fun u => EvPost u method params) urls.

(** [k] passes, with one sleep between two consecutive passes. *)
Fixpoint retry_trace (pass : Trace) (delay : Z) (k : nat) : Trace :=
  match k with
  | O => []
  | S O => pass
  | S k' => pass ++ EvSleep delay :: retry_trace pass delay k'
  end.

(** The stake of one account that is delegated and not yet active. *)
Definition activating_of (account : StakeAccount) : Z :=
  Z.max 0 (default 0 (delegatedStake account) - default 0 (activeStake account)).

(** The units of the remaining time, in the words of the amended C7: every
    positive one of days, hours and minutes, and the seconds only when none
    of those three is positive. *)
Definition unit_if (c : bool) (x : float) (unit : string) : Res (list string) :=
  if c then (t <~ unit_text x unit ;; Ok [t]) else Ok [].

Definition rendered_units (days hours minutes seconds : float)
  : Res (list string) :=
  d <~ unit_if (fpos days) days "day" ;;
  h <~ unit_if (fpos hours) hours "hour" ;;
  m <~ unit_if (fpos minutes) minutes "min" ;;
  s <~ unit_if (negb (fpos days) && negb (fpos hours) && negb (fpos minutes)
                && fpos seconds) seconds "sec" ;;
  Ok (d ++ h ++ m ++ s).

(** C7 as the specification words it: at most the two largest units. *)
Definition renders_at_most_two_units : Prop :=
  forall days hours minutes seconds parts,
    time_parts days hours minutes seconds = Ok parts ->
    (List.length parts <= 2)%nat.

(** ** Sample inputs *)

(** The default policy: one retry after the first try, five seconds apart.
    The cluster "um" watches a validator that ranks first, "ut" one that
    earned nothing, "gone" one that no list has. *)
Definition sample_config : Config :=
  {| validator_identities := [("um", "idx2"); ("ut", "idx1"); ("gone", "ghost")];
     rpc_urls_table := [("um", ["https://rpc-a"; "https://rpc-b"]);
                        ("ut", ["https://rpc-a"; "https://rpc-b"]);
                        ("gone", ["https://rpc-a"; "https://rpc-b"])];
     rpc_max_retries := 1;
     rpc_retry_delay_seconds := 5 |}.

(** A world in which every endpoint times out and the CLI fails. *)
Definition world_down : World :=
  {| http := fun _ _ _ _ => RTimeout "timed out";
     cli := fun _ _ _ => CliFailed |}.

(** A vote-account entry with one [epochCredits] tuple for epoch 7. *)
Definition sample_entry (node : string) (credits previous : Z) : Validator :=
  {| nodePubkey := Some node; votePubkey := Some ("vote-" ++ node)%string;
     activatedStake := Some 1000; epochCredits := Some [[7; credits; previous]];
     currentEpochCreditsCumulative := None; currentEpochCreditsEarned := None;
     rank_key := None |}.

(** Five validators earning 50, 0, 100, -5 and 100 credits in epoch 7. *)
Definition sample_vote_accounts : VoteAccounts :=
  {| current := Some [sample_entry "idx0" 150 100; sample_entry "idx1" 80 80;
                      sample_entry "idx2" 100 0];
     delinquent := Some [sample_entry "idx3" 20 25; sample_entry "idx4" 300 200] |}.

Definition sample_epoch_info : EpochInfo :=
  {| epoch := Some 7; slotIndex := Some 341939; slotsInEpoch := Some 432000;
     absoluteSlot := Some 3365939 |}.

(** One slot before the end of the epoch. *)
Definition last_slot_epoch_info : EpochInfo :=
  {| epoch := Some 7; slotIndex := Some 431999; slotsInEpoch := Some 432000;
     absoluteSlot := Some 3455999 |}.

Definition sample_stake_data : list StakeAccount :=
  [{| activeStake := Some 10; delegatedStake := Some 15; deactivatingStake := Some 2 |};
   {| activeStake := None; delegatedStake := Some 3; deactivatingStake := None |};
   {| activeStake := Some 9; delegatedStake := Some 4; deactivatingStake := Some 1 |}].

(** A JSON-RPC answer carrying a result. *)
Definition rpc_ok (result : Json) : Response :=
  RBody (JObj [("jsonrpc", JStr "2.0"); ("result", result); ("id", JInt 1)]).

(** A world whose performance samples give one second a slot. *)
Definition world_one_second_slots : World :=
  {| http := fun _ _ method _ =>
       if String.eqb method "getRecentPerformanceSamples"
       then rpc_ok (JArr [JObj [("numSlots", JInt 60); ("samplePeriodSecs", JInt 60)]])
       else RTimeout "timed out";
     cli := fun _ _ _ => CliFailed |}.

(** A world whose performance samples come back empty. *)
Definition world_no_samples : World :=
  {| http := fun _ _ _ _ => rpc_ok (JArr []);
     cli := fun _ _ _ => CliFailed |}.

(** The responses of a healthy cluster, by method: the five validators of
    [sample_vote_accounts], epoch 7, and the watched validators "idx2" and
    "idx1" with three leader slots each, two of them past. *)
Definition json_entry (node : string) (credits previous : Z) : Json :=
  JObj [("nodePubkey", JStr node); ("votePubkey", JStr ("vote-" ++ node)%string);
        ("activatedStake", JInt 1000);
        ("epochCredits", JArr [JArr [JInt 7; JInt credits; JInt previous]])].

Definition sample_result (method : string) : Json :=
  if String.eqb method "getVoteAccounts" then
    JObj [("current", JArr [json_entry "idx0" 150 100; json_entry "idx1" 80 80;
                            json_entry "idx2" 100 0]);
          ("delinquent", JArr [json_entry "idx3" 20 25; json_entry "idx4" 300 200])]
  else if String.eqb method "getEpochInfo" then
    JObj [("epoch", JInt 7); ("slotIndex", JInt 341939);
          ("slotsInEpoch", JInt 432000); ("absoluteSlot", JInt 3365939)]
  else if String.eqb method "getClusterNodes" then
    JArr [JObj [("pubkey", JStr "idx2"); ("gossip", JStr "10.0.0.2:8001");
                ("version", JStr "2.0.1")];
          JObj [("pubkey", JStr "idx1"); ("gossip", JNull); ("version", JNull)]]
  else if String.eqb method "getBalance" then
    JObj [("context", JObj [("slot", JInt 3365939)]); ("value", JInt 1500000000)]
  else if String.eqb method "getRecentPerformanceSamples" then
    JArr [JObj [("numSlots", JInt 60); ("samplePeriodSecs", JInt 60)]]
  else if String.eqb method "getLeaderSchedule" then
    JObj [("idx2", JArr [JInt 4; JInt 5; JInt 400000]);
          ("idx1", JArr [JInt 8; JInt 9; JInt 400004])]
  else if String.eqb method "getBlockProduction" then
    JObj [("value", JObj [("byIdentity",
             JObj [("idx2", JArr [JInt 20; JInt 18]);
                   ("idx1", JArr [JInt 20; JInt 18])])])]
  else JNull.

Definition sample_cli (command_args : list string) : CliResult :=
  match command_args with
  | "validator-info" :: _ =>
      CliStdout (Some (JArr [JObj [("identityPubkey", JStr "idx2");
                                   ("info", JObj [("name", JStr "Tango")])]]))
  | _ =>
      CliStdout (Some (JArr [JObj [("activeStake", JInt 10); ("delegatedStake", JInt 15);
                                   ("deactivatingStake", JInt 2)]]))
  end.

(** The healthy cluster, except that every endpoint times out on the
    methods in [down] and answers the methods in [odd] with the result
    given there. *)
Definition sample_world (down : list string) (odd : list (string * Json)) : World :=
  {| http := fun _ _ method _ =>
       if existsb (String.eqb method) down then RTimeout "timed out"
       else match dict_get method odd with
            | Some result => rpc_ok result
            | None => rpc_ok (sample_result method)
            end;
     cli := fun _ _ command_args => sample_cli command_args |}.

(** The record of a run that reported; a blank one otherwise. *)
Definition blank_record : StatusRecord :=
  {| cluster_shorthand := ""; validator_name := ""; active_stake_sol := f_zero;
     current_epoch := IntNA; epoch_percent_complete := f_zero;
     time_left_in_epoch := ""; rank := IntNA; epoch_credits := IntNA;
     missed_credits := IntNA; identity_pubkey := ""; vote_account_pubkey := "";
     identity_balance_sol := FloatNA; vote_account_balance_sol := FloatNA;
     validator_version := None; validator_ip := "";
     stake_metrics :=
       {| total_active_stake_sol := f_zero; total_delegated_stake_sol := f_zero;
          stake_activating_sol := f_zero; stake_deactivating_sol := f_zero;
          net_stake_change_sol := f_zero |};
     leader_slots := no_leader_slots |}.

Definition report_of (run : Outcome * Trace) : StatusRecord :=
  match fst run with
  | Report r => r
  | _ => blank_record
  end.

(** The healthy cluster watched from "ut": the target earned nothing. *)
Definition run_unranked_target : Outcome * Trace :=
  Eval vm_compute in
    process_validator_data sample_config (sample_world [] []) "ut" [].

(** A cluster whose only validator, the target, earned -5 credits. *)
Definition world_nobody_ranked : World :=
  sample_world [] [("getVoteAccounts",
                    JObj [("current", JArr [json_entry "idx1" 20 25])])].

Definition run_nobody_ranked : Outcome * Trace :=
  Eval vm_compute in
    process_validator_data sample_config world_nobody_ranked "ut" [].

(** No entry of either list has the key as its [nodePubkey]. *)
Definition absent_from (vote_accounts_data : VoteAccounts) (id : string) : Prop :=
  forall v, In v (all_validators_of vote_accounts_data) -> nodePubkey v <> Some id.

(** The healthy cluster watched from "gone": no list has the target. *)
Definition run_absent_target : Outcome * Trace :=
  Eval vm_compute in
    process_validator_data sample_config (sample_world [] []) "gone" [].

Definition core_of_sample_world : Core :=
  Eval vm_compute in
    match fetch_core sample_config (sample_world [] [])
                     ["https://rpc-a"; "https://rpc-b"] "ghost" [] with
    | (Ok c, _) => c
    | _ => {| vote_accounts_data := {| current := None; delinquent := None |};
              validator_infos_list := [];
              epoch_info_data := {| epoch := None; slotIndex := None;
                                    slotsInEpoch := None; absoluteSlot := None |};
              stake_metrics_of_core := stake_metrics blank_record;
              cluster_nodes_data := [] |}
    end.

(** The healthy cluster watched from "um", with one method down on every
    endpoint: the leader schedule, block production. *)
Definition run_leader_schedule_down : Outcome * Trace :=
  Eval vm_compute in
    process_validator_data sample_config (sample_world ["getLeaderSchedule"] [])
                           "um" [].

Definition run_block_production_down : Outcome * Trace :=
  Eval vm_compute in
    process_validator_data sample_config (sample_world ["getBlockProduction"] [])
                           "um" [].

(** A computation only adds to the trace. *)
Definition extends {A : Type} (c : M A) : Prop :=
  forall tr, exists s, snd (c tr) = tr ++ s.

(** A computation adds the event [e] to the trace, whatever it returns. *)
Definition emits {A : Type} (e : Event) (c : M A) : Prop :=
  forall tr, exists s, snd (c tr) = tr ++ s /\ In e s.

(** The healthy cluster watched from "um". *)
Definition run_healthy : Outcome * Trace :=
  Eval vm_compute in
    process_validator_data sample_config (sample_world [] []) "um" [].

(** Two computations return the same, whatever the traces they start from. *)
Definition agree {A : Type} (c1 c2 : M A) : Prop :=
  forall t1 t2, fst (c1 t1) = fst (c2 t2).

(** The fetch responses are fixed and identical in two worlds: each
    transport call, RPC or CLI, returns the same in both, at any time. *)
Definition same_fetch_responses (cfg : Config) (w1 w2 : World)
    (rpc_urls : list string) : Prop :=
  (forall method params,
      agree (_make_rpc_request cfg w1 rpc_urls method params None None)
            (_make_rpc_request cfg w2 rpc_urls method params None None))
  /\ (forall command_args,
        agree (_execute_solana_cli_command w1 command_args rpc_urls)
              (_execute_solana_cli_command w2 command_args rpc_urls)).

(** The healthy cluster with the first endpoint down: every call is served
    by the second endpoint. *)
Definition sample_world_failover : World :=
  {| http := fun _ rpc_url method _ =>
       if String.eqb rpc_url "https://rpc-a" then RTimeout "timed out"
       else rpc_ok (sample_result method);
     cli := fun _ _ command_args => sample_cli command_args |}.

(** ** Vocabulary of the further properties *)

(** The CLI invocations of one command, one for each endpoint given. *)
Definition cli_calls (command_args : list string) (urls : list string) : Trace :=
  map (fun u => EvCli u command_args) urls.

(** Every invocation in [tried], made in order after [tr], failed. *)
Definition cli_all_failed (w : World) (command_args : list string)
    (tr : Trace) (tried : list string) : Prop :=
  forall t1 u t2,
    tried = t1 ++ u :: t2 ->
    cli w (tr ++ cli_calls command_args t1) u command_args = CliFailed.

(** Every post of the call in [s], made after [tr], met a recorded failure. *)
Definition rpc_all_failed (w : World) (method : string) (params : list Json)
    (tr s : Trace) : Prop :=
  forall s1 u s2,
    s = s1 ++ EvPost u method params :: s2 ->
    endpoint_fails method u (http w (tr ++ s1) u method params) = true.

(** The failures one pass over [urls] records, each endpoint answering from
    the history the pass has reached. *)
Fixpoint pass_failures (w : World) (method : string) (params : list Json)
    (urls : list string) (h : Trace) : list (string * Failure) :=
  match urls with
  | [] => []
  | u :: rest =>
      match rpc_attempt method u (http w h u method params) with
      | AttemptFailed f =>
          (u, f) :: pass_failures w method params rest
                                  (h ++ [EvPost u method params])
      | _ => []
      end
  end.

(** A world that times out on the first pass and answers 503 afterwards. *)
Definition world_flaky : World :=
  {| http := fun h _ _ _ =>
       if (List.length h <? 3)%nat then RTimeout "timed out"
       else RHTTPError "503 Server Error";
     cli := fun _ _ _ => CliFailed |}.

(** The default policy with a negative retry count, and with a negative
    delay. *)
Definition config_negative_retries : Config :=
  {| validator_identities := validator_identities sample_config;
     rpc_urls_table := rpc_urls_table sample_config;
     rpc_max_retries := -1;
     rpc_retry_delay_seconds := 5 |}.

Definition config_negative_delay : Config :=
  {| validator_identities := validator_identities sample_config;
     rpc_urls_table := rpc_urls_table sample_config;
     rpc_max_retries := 1;
     rpc_retry_delay_seconds := -5 |}.

(** Two performance samples, the second without slots: 10 seconds for 5
    slots count, the other sample does not. *)
Definition sample_performance : list PerformanceSample :=
  [{| numSlots := Some 5; samplePeriodSecs := Some 10 |};
   {| numSlots := Some 0; samplePeriodSecs := Some 3 |}].


(** The healthy cluster, but [solana stakes] fails on every endpoint. *)
Definition world_stakes_down : World :=
  {| http := http (sample_world [] []);
     cli := fun _ _ command_args =>
       match command_args with
       | "stakes" :: _ => CliFailed
       | _ => sample_cli command_args
       end |}.

Definition zero_stake_metrics : StakeMetrics :=
  {| total_active_stake_sol := f_zero; total_delegated_stake_sol := f_zero;
     stake_activating_sol := f_zero; stake_deactivating_sol := f_zero;
     net_stake_change_sol := f_zero |}.

(** A webhook that accepts every post, one that refuses every post, and
    the configurations without a webhook URL and with an empty one. *)
Definition sample_discord : Discord :=
  {| discord_webhook_url := Some "https://discord.test/hook";
     post_webhook := fun _ _ => true |}.

Definition discord_refusing : Discord :=
  {| discord_webhook_url := Some "https://discord.test/hook";
     post_webhook := fun _ _ => false |}.

Definition discord_unconfigured : Discord :=
  {| discord_webhook_url := None; post_webhook := fun _ _ => true |}.

Definition discord_blank : Discord :=
  {| discord_webhook_url := Some ""; post_webhook := fun _ _ => true |}.

(** The sample configuration, with "um" watching a validator that no list
    has. *)
Definition config_ghost : Config :=
  {| validator_identities := [("um", "ghost")];
     rpc_urls_table := rpc_urls_table sample_config;
     rpc_max_retries := 1;
     rpc_retry_delay_seconds := 5 |}.

(** A record has a field the message cannot format. *)
Definition has_unformattable_field (r : StatusRecord) : Prop :=
  identity_balance_sol r = FloatNA \/ vote_account_balance_sol r = FloatNA
  \/ epoch_credits r = IntNA \/ missed_credits r = IntNA.

(** The healthy cluster, but [solana validator-info get] fails on every
    endpoint. *)
Definition world_info_down : World :=
  {| http := http (sample_world [] []);
     cli := fun _ _ command_args =>
       match command_args with
       | "validator-info" :: _ => CliFailed
       | _ => sample_cli command_args
       end |}.

(** The requests without which no record is returned. *)
Definition critical_methods : list string :=
  ["getVoteAccounts"; "getEpochInfo"; "getClusterNodes"].

Definition is_cli (e : Event) : bool :=
  match e with EvCli _ _ => true | _ => false end.

(** The JSON-RPC methods the fetchers name: all of them queries. *)
Definition read_methods : list string :=
  ["getVoteAccounts"; "getEpochInfo"; "getClusterNodes"; "getLeaderSchedule";
   "getBlockProduction"; "getRecentPerformanceSamples"; "getBalance"].

(** An event a run may add to the trace: a post of a query to a configured
    endpoint, a sleep of the configured delay, or one of the two CLI
    queries against a configured endpoint. *)
Definition read_only_event (cfg : Config) (rpc_urls : list string) (e : Event)
  : Prop :=
  match e with
  | EvPost u method _ => In u rpc_urls /\ In method read_methods
  | EvSleep d => d = get_rpc_retry_delay cfg
  | EvCli u command_args =>
      In u rpc_urls
      /\ (command_args = ["validator-info"; "get"; "--output"; "json"]
          \/ exists validator_pubkey,
               command_args = ["stakes"; validator_pubkey; "--output"; "json"])
  end.

(** A computation adds only events of [P] to the trace: at most [posts]
    posts, [sleeps] sleeps and [calls] CLI calls. *)
Definition spends {A : Type} (P : Event -> Prop) (posts sleeps calls : nat)
    (c : M A) : Prop :=
  forall tr, exists s,
    snd (c tr) = tr ++ s
    /\ Forall P s
    /\ (count_events is_post s <= posts)%nat
    /\ (count_events is_sleep s <= sleeps)%nat
    /\ (count_events is_cli s <= calls)%nat.

(** The posts and the sleeps of one transport call, at most. *)
Definition request_posts (cfg : Config) (rpc_urls : list string) : nat :=
  (List.length rpc_urls * Z.to_nat (get_rpc_max_retries cfg + 1))%nat.

Definition request_sleeps (cfg : Config) : nat :=
  (Z.to_nat (get_rpc_max_retries cfg + 1) - 1)%nat.

(** ** Results of composed computations *)

Lemma bind_ok {A B} (c : M A) (k : A -> M B) tr b tr' :
  bind c k tr = (Ok b, tr') ->
  exists a tr1, c tr = (Ok a, tr1) /\ k a tr1 = (Ok b, tr').
Proof.
  unfold bind. destruct (c tr) as [[a|e] tr1]; [eauto | discriminate].
Qed.

Lemma lift_ok {A} (r : Res A) tr a tr' :
  lift r tr = (Ok a, tr') -> r = Ok a /\ tr' = tr.
Proof. unfold lift. intros H. injection H as -> ->. auto. Qed.

Lemma ret_ok {A} (a : A) tr b tr' :
  ret a tr = (Ok b, tr') -> b = a /\ tr' = tr.
Proof. unfold ret. intros H. injection H as -> ->. auto. Qed.

Lemma rbind_ok {A B} (r : Res A) (k : A -> Res B) b :
  rbind r k = Ok b -> exists a, r = Ok a /\ k a = Ok b.
Proof. destruct r as [a|e]; simpl; [eauto | discriminate]. Qed.

(** ** Transport *)

Lemma dict_set_keys_in {A} (k : string) (v : A) d x :
  In x (map fst (dict_set k v d)) <-> x = k \/ In x (map fst d).
Proof.
  induction d as [|[k' v'] d IH]; simpl.
  - intuition.
  - destruct (String.eqb_spec k k') as [->|Hne]; simpl.
    + intuition.
    + rewrite IH. intuition.
Qed.

Lemma dict_set_keys_nodup {A} (k : string) (v : A) d :
  NoDup (map fst d) -> NoDup (map fst (dict_set k v d)).
Proof.
  induction d as [|[k' v'] d IH]; simpl; intros Hnd.
  - constructor; [intros [] | constructor].
  - inversion Hnd as [|? ? Hnotin Hnd']; subst.
    destruct (String.eqb_spec k k') as [->|Hne]; simpl.
    + constructor; assumption.
    + constructor; [|auto].
      rewrite dict_set_keys_in. intros [->|Hin]; [congruence | contradiction].
Qed.

Section AllEndpointsFail.
Variables (w : World) (method : string) (params : list Json) (urls : list string).
Hypothesis all_fail :
  forall h u, In u urls -> endpoint_fails method u (http w h u method params) = true.

Lemma try_urls_all_fail : forall us last tr,
  incl us urls ->
  exists last',
    try_urls w method params us last tr
      = (None, last', tr ++ full_pass method params us)
    /\ (NoDup (map fst last) -> NoDup (map fst last'))
    /\ (forall x, In x (map fst last') <-> In x (map fst last) \/ In x us).
Proof.
  induction us as [|u us IH]; intros last tr Hincl; simpl.
  - exists last. rewrite app_nil_r. intuition.
  - assert (Hu : In u urls) by (apply Hincl; left; reflexivity).
    specialize (all_fail tr u Hu). unfold endpoint_fails in all_fail.
    destruct (rpc_attempt method u (http w tr u method params)) as [r|f|e];
      try discriminate.
    destruct (IH (dict_set u f last) (tr ++ [EvPost u method params]))
      as (last' & Heq & Hnd & Hin).
    { intros x Hx. apply Hincl. right. exact Hx. }
    exists last'. rewrite Heq, <- app_assoc. simpl. split; [reflexivity|]. split.
    + intros H. apply Hnd, dict_set_keys_nodup, H.
    + intros x. rewrite Hin, dict_set_keys_in. intuition.
Qed.

Lemma attempt_loop_all_fail (max_attempts delay : Z) :
  0 <= delay ->
  forall k i last tr,
    Z.of_nat (i + k) = max_attempts ->
    exists last',
      attempt_loop w method params urls max_attempts delay (seq i k) last tr
        = (Raise (RuntimeError (MsgRpcFailedAll method max_attempts last')),
           tr ++ retry_trace (full_pass method params urls) delay k)
      /\ (NoDup (map fst last) -> NoDup (map fst last'))
      /\ (forall x, In x (map fst last')
                    <-> In x (map fst last) \/ ((0 < k)%nat /\ In x urls)).
Proof.
  intros Hdelay. induction k as [|k IH]; intros i last tr Hik; simpl.
  - exists last. rewrite app_nil_r. split; [reflexivity|]. split; [auto|].
    intros x. split; [auto | intros [H|[H _]]; [exact H | lia]].
  - destruct (try_urls_all_fail urls last tr (incl_refl _))
      as (last1 & Heq & Hnd1 & Hin1).
    rewrite Heq.
    destruct k as [|k'].
    + (* the last attempt: no sleep *)
      assert (Hlt : (Z.of_nat i <? max_attempts - 1) = false)
        by (apply Z.ltb_ge; lia).
      rewrite Hlt. simpl.
      exists last1. split; [reflexivity|]. split; [exact Hnd1|].
      intros x. rewrite Hin1. intuition lia.
    + assert (Hlt : (Z.of_nat i <? max_attempts - 1) = true)
        by (apply Z.ltb_lt; lia).
      rewrite Hlt. unfold sleep.
      assert (Hd : (delay <? 0) = false) by (apply Z.ltb_ge; lia).
      rewrite Hd.
      destruct (IH (S i) last1
                   ((tr ++ full_pass method params urls) ++ [EvSleep delay]))
        as (last' & Heq' & Hnd' & Hin'); [lia|].
      exists last'. split.
      * rewrite Heq'. f_equal.
        change (retry_trace (full_pass method params urls) delay (S (S k')))
          with (full_pass method params urls
                ++ EvSleep delay
                   :: retry_trace (full_pass method params urls) delay (S k')).
        rewrite <- !app_assoc. reflexivity.
      * split; [auto|].
        intros x. rewrite Hin', Hin1. intuition lia.
Qed.
End AllEndpointsFail.

Lemma count_events_app p tr1 tr2 :
  count_events p (tr1 ++ tr2) = (count_events p tr1 + count_events p tr2)%nat.
Proof. unfold count_events. rewrite filter_app, length_app. reflexivity. Qed.

Lemma count_posts_full_pass method params urls :
  count_events is_post (full_pass method params urls) = List.length urls.
Proof.
  unfold count_events, full_pass. induction urls as [|u us IH]; simpl; auto.
Qed.

Lemma count_sleeps_full_pass method params urls :
  count_events is_sleep (full_pass method params urls) = O.
Proof.
  unfold count_events, full_pass. induction urls as [|u us IH]; simpl; auto.
Qed.

Lemma count_posts_retry_trace method params urls delay k :
  count_events is_post (retry_trace (full_pass method params urls) delay k)
  = (List.length urls * k)%nat.
Proof.
  induction k as [|k IH]; [unfold count_events; simpl; nia|].
  destruct k as [|k'].
  - simpl. rewrite count_posts_full_pass. nia.
  - change (retry_trace (full_pass method params urls) delay (S (S k')))
      with (full_pass method params urls
            ++ [EvSleep delay]
            ++ retry_trace (full_pass method params urls) delay (S k')).
    rewrite !count_events_app, IH, count_posts_full_pass.
    unfold count_events at 1. simpl. nia.
Qed.

Lemma count_sleeps_retry_trace method params urls delay k :
  count_events is_sleep (retry_trace (full_pass method params urls) delay k)
  = Nat.pred k.
Proof.
  induction k as [|k IH]; [reflexivity|].
  destruct k as [|k'].
  - simpl. apply count_sleeps_full_pass.
  - change (retry_trace (full_pass method params urls) delay (S (S k')))
      with (full_pass method params urls
            ++ [EvSleep delay]
            ++ retry_trace (full_pass method params urls) delay (S k')).
    rewrite !count_events_app, IH, count_sleeps_full_pass.
    unfold count_events at 1. simpl. lia.
Qed.

(** C1.  When every endpoint fails on every try, a transport call with
    [n] endpoints and [A = configured retries + 1] attempts makes [A] full
    in-order passes over the list, [n * A] posts in all, sleeps the
    configured delay between two consecutive passes and not after the last,
    [A - 1] sleeps in all, and then raises the consolidated error, which
    carries exactly one failure summary for each endpoint. *)
Theorem rpc_request_exhausts_all_endpoints
    (cfg : Config) (w : World) (urls : list string) (method : string)
    (params : list Json) (tr : Trace) :
  0 <= get_rpc_max_retries cfg ->
  0 <= get_rpc_retry_delay cfg ->
  (forall h u, In u urls ->
     endpoint_fails method u (http w h u method params) = true) ->
  exists summary tr_new,
    _make_rpc_request cfg w urls method params None None tr
      = (Raise (RuntimeError
                  (MsgRpcFailedAll method (get_rpc_max_retries cfg + 1) summary)),
         tr ++ tr_new)
    /\ tr_new = retry_trace (full_pass method params urls)
                            (get_rpc_retry_delay cfg)
                            (Z.to_nat (get_rpc_max_retries cfg + 1))
    /\ count_events is_post tr_new
       = (List.length urls * Z.to_nat (get_rpc_max_retries cfg + 1))%nat
    /\ count_events is_sleep tr_new
       = (Z.to_nat (get_rpc_max_retries cfg + 1) - 1)%nat
    /\ NoDup (map fst summary)
    /\ (forall u, In u urls <-> In u (map fst summary)).
Proof.
  intros Hretries Hdelay Hfail.
  set (A := get_rpc_max_retries cfg + 1).
  destruct (attempt_loop_all_fail w method params urls Hfail A
              (get_rpc_retry_delay cfg) Hdelay (Z.to_nat A) O [] tr)
    as (summary & Heq & Hnd & Hin).
  { simpl. subst A. lia. }
  exists summary, (retry_trace (full_pass method params urls)
                               (get_rpc_retry_delay cfg) (Z.to_nat A)).
  split; [exact Heq|]. split; [reflexivity|].
  split; [apply count_posts_retry_trace|].
  split; [rewrite count_sleeps_retry_trace; lia|].
  split; [apply Hnd; constructor|].
  intros u. rewrite Hin. simpl. subst A. intuition lia.
Qed.

(** With one configured retry and two endpoints: four posts, one sleep. *)
Lemma rpc_request_exhausts_all_endpoints_witness :
  exists summary tr_new,
    _make_rpc_request sample_config world_down ["https://rpc-a"; "https://rpc-b"]
                      "getVoteAccounts" [] None None []
      = (Raise (RuntimeError (MsgRpcFailedAll "getVoteAccounts" 2 summary)),
         [] ++ tr_new)
    /\ tr_new = [EvPost "https://rpc-a" "getVoteAccounts" [];
                 EvPost "https://rpc-b" "getVoteAccounts" [];
                 EvSleep 5;
                 EvPost "https://rpc-a" "getVoteAccounts" [];
                 EvPost "https://rpc-b" "getVoteAccounts" []]
    /\ count_events is_post tr_new = 4%nat
    /\ count_events is_sleep tr_new = 1%nat
    /\ NoDup (map fst summary)
    /\ (forall u, In u ["https://rpc-a"; "https://rpc-b"] <-> In u (map fst summary)).
Proof.
  apply (rpc_request_exhausts_all_endpoints sample_config world_down
           ["https://rpc-a"; "https://rpc-b"] "getVoteAccounts" [] []).
  - simpl. lia.
  - simpl. lia.
  - intros h u _. reflexivity.
Defined.

(** ** Ranking *)

Lemma insert_desc_perm {A} (key : A -> Z) x l :
  Permutation (insert_desc key x l) (x :: l).
Proof.
  induction l as [|y l IH]; simpl; [reflexivity|].
  destruct (key y >? key x); [|reflexivity].
  rewrite IH. apply perm_swap.
Qed.

Lemma sorted_desc_perm {A} (key : A -> Z) l :
  Permutation (sorted_desc key l) l.
Proof.
  induction l as [|x l IH]; simpl; [constructor|].
  rewrite insert_desc_perm. constructor. exact IH.
Qed.

Lemma insert_desc_sorted {A} (key : A -> Z) x l :
  StronglySorted (fun a b => key a >= key b) l ->
  StronglySorted (fun a b => key a >= key b) (insert_desc key x l).
Proof.
  induction l as [|y l IH]; simpl; intros Hs.
  - repeat constructor.
  - inversion Hs as [|? ? Hs' Hall]; subst.
    destruct (key y >? key x) eqn:Hgt.
    + constructor; [auto|].
      apply (Permutation_Forall (Permutation_sym (insert_desc_perm key x l))).
      constructor; [lia | exact Hall].
    + constructor; [exact Hs|].
      constructor; [lia|].
      rewrite Forall_forall in Hall |- *. intros z Hz.
      specialize (Hall z Hz). simpl in Hall. lia.
Qed.

Lemma sorted_desc_sorted {A} (key : A -> Z) l :
  StronglySorted (fun a b => key a >= key b) (sorted_desc key l).
Proof.
  induction l as [|x l IH]; simpl; [constructor | apply insert_desc_sorted, IH].
Qed.

Lemma insert_desc_stable {A} (key : A -> Z) c x l :
  filter (fun v => key v =? c) (insert_desc key x l)
  = filter (fun v => key v =? c) (x :: l).
Proof.
  induction l as [|y l IH]; simpl; [reflexivity|].
  destruct (key y >? key x) eqn:Hgt; [|reflexivity].
  simpl. simpl in IH. rewrite IH.
  destruct (key x =? c) eqn:Hx; [|reflexivity].
  assert (Hy : (key y =? c) = false).
  { apply Z.eqb_neq. apply Z.gtb_lt in Hgt. apply Z.eqb_eq in Hx. lia. }
  rewrite Hy. reflexivity.
Qed.

Lemma sorted_desc_stable {A} (key : A -> Z) c l :
  filter (fun v => key v =? c) (sorted_desc key l)
  = filter (fun v => key v =? c) l.
Proof.
  induction l as [|x l IH]; simpl; [reflexivity|].
  rewrite insert_desc_stable. simpl. rewrite IH. reflexivity.
Qed.

Lemma assign_ranks_length i l : List.length (assign_ranks i l) = List.length l.
Proof. revert i. induction l as [|v l IH]; intros i; simpl; auto. Qed.

Lemma assign_ranks_nth l : forall i n,
  nth_error (assign_ranks i l) n
  = option_map (set_rank (IntVal (i + Z.of_nat n + 1))) (nth_error l n).
Proof.
  induction l as [|v l IH]; intros i n.
  - destruct n; reflexivity.
  - destruct n as [|n]; cbn [assign_ranks nth_error option_map].
    + rewrite Z.add_0_r. reflexivity.
    + rewrite IH.
      replace (i + 1 + Z.of_nat n + 1) with (i + Z.of_nat (S n) + 1) by lia.
      reflexivity.
Qed.

(** C5.  Of the union of the "current" and "delinquent" entries, with the
    credits earned in the current epoch, exactly those that earned more
    than zero are ranked; they stand in descending order of the credits
    earned, entries with equal credits in their input order, and the entry
    at position [n] (from 0) has rank [n + 1].  For credits 50, 0, 100, -5,
    100 the ranked order is idx2, idx4, idx0 with ranks 1, 2, 3, and idx1
    and idx3 are left out of the ranking and come out unranked. *)
Theorem rank_assignment_stable_descending
    (vote_accounts_data : VoteAccounts) (epoch_info_data : EpochInfo) :
  (exists order,
      Permutation order
        (filter (fun v => credits_earned v >? 0)
                (processed_validators_of vote_accounts_data epoch_info_data))
      /\ StronglySorted (fun a b => credits_earned a >= credits_earned b) order
      /\ (forall c,
            filter (fun v => credits_earned v =? c) order
            = filter (fun v => credits_earned v =? c)
                (filter (fun v => credits_earned v >? 0)
                   (processed_validators_of vote_accounts_data epoch_info_data)))
      /\ List.length
           (rank_validators
              (processed_validators_of vote_accounts_data epoch_info_data))
         = List.length order
      /\ (forall n,
            nth_error
              (rank_validators
                 (processed_validators_of vote_accounts_data epoch_info_data)) n
            = option_map (set_rank (IntVal (Z.of_nat n + 1))) (nth_error order n)))
  /\ (let processed :=
        processed_validators_of sample_vote_accounts sample_epoch_info in
      map credits_earned processed = [50; 0; 100; -5; 100]
      /\ map (fun v => (nodePubkey v, rank_key v)) (rank_validators processed)
         = [(Some "idx2", Some (IntVal 1)); (Some "idx4", Some (IntVal 2));
            (Some "idx0", Some (IntVal 3))]
      /\ rank_key (locate_validator (rank_validators processed) processed "idx1")
         = Some IntNA
      /\ rank_key (locate_validator (rank_validators processed) processed "idx3")
         = Some IntNA).
Proof.
  split.
  - set (eligible := filter (fun v => credits_earned v >? 0)
                       (processed_validators_of vote_accounts_data epoch_info_data)).
    exists (sorted_desc credits_earned eligible).
    split; [apply sorted_desc_perm|].
    split; [apply sorted_desc_sorted|].
    split; [intros c; apply sorted_desc_stable|].
    unfold rank_validators. fold eligible.
    split; [apply assign_ranks_length|].
    intros n. rewrite assign_ranks_nth. reflexivity.
  - vm_compute. repeat split.
Qed.

(** ** Stake metrics *)

Lemma sum_Z_from (l : list Z) : forall a, fold_left Z.add l a = a + sum_Z l.
Proof.
  unfold sum_Z. induction l as [|x l IH]; intros a; simpl; [lia|].
  rewrite (IH (a + x)), (IH x). lia.
Qed.

Lemma sum_Z_cons x l : sum_Z (x :: l) = x + sum_Z l.
Proof. unfold sum_Z at 1. simpl. apply sum_Z_from. Qed.

Lemma stake_fold (l : list StakeAccount) : forall t0,
  total_active_stake_lamports (fold_left stake_step l t0)
    = total_active_stake_lamports t0
      + sum_Z (map (fun a => default 0 (activeStake a)) l)
  /\ total_delegated_stake_lamports (fold_left stake_step l t0)
    = total_delegated_stake_lamports t0
      + sum_Z (map (fun a => default 0 (delegatedStake a)) l)
  /\ total_activating_stake_lamports (fold_left stake_step l t0)
    = total_activating_stake_lamports t0 + sum_Z (map activating_of l)
  /\ total_deactivating_stake_lamports (fold_left stake_step l t0)
    = total_deactivating_stake_lamports t0
      + sum_Z (map (fun a => default 0 (deactivatingStake a)) l).
Proof.
  induction l as [|a l IH]; intros t0; simpl.
  - unfold sum_Z. simpl. lia.
  - destruct (IH (stake_step t0 a)) as (H1 & H2 & H3 & H4).
    rewrite H1, H2, H3, H4, !sum_Z_cons. unfold stake_step, activating_of. simpl.
    destruct (default 0 (delegatedStake a) - default 0 (activeStake a) >? 0) eqn:Hgt;
      lia.
Qed.

(** C6.  For every list of stake accounts, a missing field counting as 0,
    the snapshot's activating total is the sum over the accounts of
    [max 0 (delegated - active)] and its net change is the activating total
    less the deactivating total; the figures returned are these lamport
    totals divided by [LAMPORTS_PER_SOL].  For the empty list all five
    figures are exactly zero. *)
Theorem stake_snapshot_invariant (stake_data : list StakeAccount) :
  total_activating_stake_lamports (stake_lamports stake_data)
    = sum_Z (map activating_of stake_data)
  /\ net_stake_change_lamports (stake_lamports stake_data)
    = sum_Z (map activating_of stake_data)
      - sum_Z (map (fun a => default 0 (deactivatingStake a)) stake_data)
  /\ (forall m, _calculate_stake_metrics_from_data stake_data = Ok m ->
        Ok (stake_activating_sol m)
          = int_truediv (sum_Z (map activating_of stake_data)) LAMPORTS_PER_SOL
        /\ Ok (stake_deactivating_sol m)
          = int_truediv
              (sum_Z (map (fun a => default 0 (deactivatingStake a)) stake_data))
              LAMPORTS_PER_SOL
        /\ Ok (net_stake_change_sol m)
          = int_truediv
              (sum_Z (map activating_of stake_data)
               - sum_Z (map (fun a => default 0 (deactivatingStake a)) stake_data))
              LAMPORTS_PER_SOL)
  /\ _calculate_stake_metrics_from_data []
     = Ok {| total_active_stake_sol := f_zero; total_delegated_stake_sol := f_zero;
             stake_activating_sol := f_zero; stake_deactivating_sol := f_zero;
             net_stake_change_sol := f_zero |}.
Proof.
  destruct (stake_fold stake_data
              {| total_active_stake_lamports := 0; total_delegated_stake_lamports := 0;
                 total_activating_stake_lamports := 0;
                 total_deactivating_stake_lamports := 0 |})
    as (_ & _ & Hact & Hdeact).
  simpl in Hact, Hdeact. fold (stake_lamports stake_data) in Hact, Hdeact.
  assert (Hnet : net_stake_change_lamports (stake_lamports stake_data)
                 = sum_Z (map activating_of stake_data)
                   - sum_Z (map (fun a => default 0 (deactivatingStake a)) stake_data))
    by (unfold net_stake_change_lamports; rewrite Hact, Hdeact; reflexivity).
  split; [exact Hact|]. split; [exact Hnet|]. split; [|reflexivity].
  intros m Hm. destruct stake_data as [|a l].
  - injection Hm as <-. simpl. repeat split.
  - rewrite <- Hnet, <- Hact, <- Hdeact.
    cbn [_calculate_stake_metrics_from_data] in Hm.
    apply rbind_ok in Hm. destruct Hm as (x1 & _ & Hm).
    apply rbind_ok in Hm. destruct Hm as (x2 & _ & Hm).
    apply rbind_ok in Hm. destruct Hm as (x3 & H3 & Hm).
    apply rbind_ok in Hm. destruct Hm as (x4 & H4 & Hm).
    apply rbind_ok in Hm. destruct Hm as (x5 & H5 & Hm).
    injection Hm as <-. simpl. rewrite H3, H4, H5. repeat split.
Qed.

(** Three accounts, one without [activeStake] and [deactivatingStake]:
    8 lamports activating, 3 deactivating, a net change of 5. *)
Lemma stake_snapshot_invariant_witness :
  _calculate_stake_metrics_from_data sample_stake_data
    = Ok {| total_active_stake_sol := S754_finite false 5742397643169489 (-78);
            total_delegated_stake_sol := S754_finite false 6649092007880460 (-78);
            stake_activating_sol := S754_finite false 4835703278458517 (-79);
            stake_deactivating_sol := S754_finite false 7253554917687775 (-81);
            net_stake_change_sol := S754_finite false 6044629098073146 (-80) |}
  /\ Ok (S754_finite false 4835703278458517 (-79)) = int_truediv 8 LAMPORTS_PER_SOL
  /\ Ok (S754_finite false 7253554917687775 (-81)) = int_truediv 3 LAMPORTS_PER_SOL
  /\ Ok (S754_finite false 6044629098073146 (-80)) = int_truediv (8 - 3) LAMPORTS_PER_SOL.
Proof.
  split; [vm_compute; reflexivity|].
  exact (proj1 (proj2 (proj2 (stake_snapshot_invariant sample_stake_data))) _
               eq_refl).
Defined.

(** ** Remaining time *)

Lemma time_parts_rendered_units days hours minutes seconds :
  time_parts days hours minutes seconds
  = rendered_units days hours minutes seconds.
Proof.
  unfold time_parts, rendered_units, append_if, unit_if.
  destruct (fpos days), (fpos hours), (fpos minutes), (fpos seconds);
    simpl;
    repeat match goal with
           | |- context [unit_text ?x ?u] =>
               destruct (unit_text x u); simpl; try reflexivity
           end;
    reflexivity.
Qed.

(** C7, amended.  With [slotIndex] and [slotsInEpoch] present and
    [slotsInEpoch > 0], the remaining-time text is built from
    [(slotsInEpoch - slotIndex) * avgSlotDuration] split into days, hours,
    minutes and seconds; it renders every positive one of days, hours and
    minutes, so up to three units, and the seconds only when none of these
    three is positive; when no component is positive it reads "Nearly
    complete" if the percent complete exceeds 99.9 and "Calculating..."
    otherwise. *)
Theorem time_left_renders_positive_units
    (cfg : Config) (w : World) (epoch_info : EpochInfo) (urls : list string)
    (tr tr' : Trace) (slot_index slots_in_epoch : Z)
    (percent_complete : float) (time_left_str : string) :
  slotIndex epoch_info = Some slot_index ->
  slotsInEpoch epoch_info = Some slots_in_epoch ->
  0 < slots_in_epoch ->
  _calculate_epoch_progress cfg w epoch_info urls tr
    = (Ok (percent_complete, time_left_str), tr') ->
  exists performance_samples avg t days hours minutes seconds parts,
    average_slot_time performance_samples = Ok avg
    /\ int_mul_float (slots_in_epoch - slot_index) avg = Ok t
    /\ split_time t = Ok (days, hours, minutes, seconds)
    /\ rendered_units days hours minutes seconds = Ok parts
    /\ (List.length parts <= 3)%nat
    /\ (parts = [] <->
        fpos days = false /\ fpos hours = false /\ fpos minutes = false
        /\ fpos seconds = false)
    /\ time_left_str
       = (if is_empty parts
          then (if flt f_99_9 percent_complete
                then "Nearly complete" else "Calculating...")
          else join ", " parts).
Proof.
  intros Hsi Hn Hpos Hrun.
  unfold _calculate_epoch_progress in Hrun. rewrite Hsi, Hn in Hrun.
  assert (Hz : (slots_in_epoch =? 0) = false) by (apply Z.eqb_neq; lia).
  rewrite Hz in Hrun.
  apply bind_ok in Hrun. destruct Hrun as (pc & tr1 & Hpc & Hrun).
  apply bind_ok in Hrun. destruct Hrun as (raw & tr2 & _ & Hrun).
  apply bind_ok in Hrun. destruct Hrun as (samples & tr3 & _ & Hrun).
  apply bind_ok in Hrun. destruct Hrun as (avg & tr4 & Havg & Hrun).
  apply bind_ok in Hrun. destruct Hrun as (t & tr5 & Ht & Hrun).
  apply bind_ok in Hrun. destruct Hrun as (s & tr6 & Hs & Hrun).
  apply ret_ok in Hrun. destruct Hrun as [Hpair _]. injection Hpair as <- <-.
  apply lift_ok in Havg. destruct Havg as [Havg _].
  apply lift_ok in Ht. destruct Ht as [Ht _].
  apply lift_ok in Hs. destruct Hs as [Hs _].
  unfold format_time_left in Hs.
  destruct (split_time t) as [[[[days hours] minutes] seconds]|e] eqn:Hsplit;
    simpl in Hs; [|discriminate].
  rewrite time_parts_rendered_units in Hs.
  destruct (rendered_units days hours minutes seconds) as [parts|e] eqn:Hparts;
    simpl in Hs; [|discriminate].
  injection Hs as <-.
  exists samples, avg, t, days, hours, minutes, seconds, parts.
  repeat (split; [first [assumption | reflexivity]|]).
  assert (Hshape :
    (List.length parts <= 3)%nat
    /\ (parts = [] <->
        fpos days = false /\ fpos hours = false /\ fpos minutes = false
        /\ fpos seconds = false)).
  { clear -Hparts. unfold rendered_units, unit_if in Hparts.
    destruct (fpos days), (fpos hours), (fpos minutes), (fpos seconds);
      simpl in Hparts;
      repeat match type of Hparts with
             | context [unit_text ?x ?u] =>
                 destruct (unit_text x u); simpl in Hparts; try discriminate
             end;
      injection Hparts as <-; simpl;
      (split; [lia | split; [intros H; discriminate H
                            | intros (H1 & H2 & H3 & H4); discriminate]])
      || (split; [lia | split; auto]). }
  destruct Hshape as [Hlen Hempty].
  split; [exact Hlen|]. split; [exact Hempty|]. reflexivity.
Qed.

(** With 90061 slots left at one second a slot the text has three units. *)
Lemma time_left_renders_positive_units_witness :
  exists performance_samples avg t days hours minutes seconds parts,
    average_slot_time performance_samples = Ok avg
    /\ int_mul_float (432000 - 341939) avg = Ok t
    /\ split_time t = Ok (days, hours, minutes, seconds)
    /\ rendered_units days hours minutes seconds = Ok parts
    /\ (List.length parts <= 3)%nat
    /\ (parts = [] <->
        fpos days = false /\ fpos hours = false /\ fpos minutes = false
        /\ fpos seconds = false)
    /\ "1 day, 1 hour, 1 min"
       = (if is_empty parts
          then (if flt f_99_9 (S754_finite false 5569865281334780 (-46))
                then "Nearly complete" else "Calculating...")
          else join ", " parts).
Proof.
  apply (time_left_renders_positive_units sample_config world_one_second_slots
           sample_epoch_info ["https://rpc-a"] []
           [EvPost "https://rpc-a" "getRecentPerformanceSamples" [JInt 720]]
           341939 432000).
  - reflexivity.
  - reflexivity.
  - lia.
  - vm_compute. reflexivity.
Defined.

(** C7 as stated fails.  With 90061 slots left at one second a slot, the
    text is "1 day, 1 hour, 1 min": three units, not the two largest.  And
    with one slot left at the default 0.4 seconds every component truncates
    to zero, yet the text is "0 secs", neither "Nearly complete" nor
    "Calculating...". *)
Lemma time_left_two_units_counterexample :
  fst (_calculate_epoch_progress sample_config world_one_second_slots
         sample_epoch_info ["https://rpc-a"] [])
    = Ok (S754_finite false 5569865281334780 (-46), "1 day, 1 hour, 1 min")
  /\ time_parts f_one f_one f_one f_one = Ok ["1 day"; "1 hour"; "1 min"]
  /\ ~ renders_at_most_two_units
  /\ fst (_calculate_epoch_progress sample_config world_no_samples
            last_slot_epoch_info ["https://rpc-a"] [])
     = Ok (S754_finite false 7036858128705248 (-46), "0 secs")
  /\ split_time f_0_4 = Ok (f_zero, f_zero, f_zero, f_0_4)
  /\ int_of_float f_0_4 = Ok 0.
Proof.
  split; [vm_compute; reflexivity|].
  split; [vm_compute; reflexivity|].
  split.
  - intros Hclaim.
    specialize (Hclaim f_one f_one f_one f_one ["1 day"; "1 hour"; "1 min"]).
    assert (Hparts : time_parts f_one f_one f_one f_one
                     = Ok ["1 day"; "1 hour"; "1 min"])
      by (vm_compute; reflexivity).
    specialize (Hclaim Hparts). simpl in Hclaim. lia.
  - split; [vm_compute; reflexivity|].
    split; vm_compute; reflexivity.
Qed.

(** ** Balance fetcher *)

(** What the balance fetcher does with each outcome of the transport: a
    consolidated failure, a null result and a dict without an integer
    "value" all give [None]. *)
Lemma get_balance_rpc_transport_failure cfg w urls pubkey tr m tr' :
  pubkey <> "" ->
  _make_rpc_request cfg w urls "getBalance" [JStr pubkey] None None tr
    = (Raise (RuntimeError m), tr') ->
  get_balance_rpc cfg w urls pubkey tr = (Ok None, tr').
Proof.
  intros Hne Hreq. unfold get_balance_rpc.
  destruct (String.eqb_spec pubkey "") as [->|_]; [congruence|].
  unfold catch_runtime, bind. rewrite Hreq. reflexivity.
Qed.

Lemma get_balance_rpc_dict_result cfg w urls pubkey tr d tr' :
  pubkey <> "" ->
  _make_rpc_request cfg w urls "getBalance" [JStr pubkey] None None tr
    = (Ok (JObj d), tr') ->
  get_balance_rpc cfg w urls pubkey tr
    = (Ok (match dict_get "value" d with
           | Some (JInt v) => Some v
           | Some (JBool b) => Some (if b then 1 else 0)
           | _ => None
           end), tr').
Proof.
  intros Hne Hreq. unfold get_balance_rpc.
  destruct (String.eqb_spec pubkey "") as [->|_]; [congruence|].
  unfold catch_runtime, bind. rewrite Hreq.
  destruct (dict_get "value" d) as [[| | | | |]|]; reflexivity.
Qed.

(** C10, the failing input.  When the endpoint answers [getBalance] with a
    result that is a JSON array, the fetcher does not return [None]: the
    [AttributeError] of [result.get] leaves it, and the run that called it
    ends without a report.  With every endpoint down on [getBalance] the
    same run does report, both balances "N/A". *)
Theorem balance_fetcher_propagates_on_array_result :
  get_balance_rpc sample_config (sample_world [] [("getBalance", JArr [])])
                  ["https://rpc-a"; "https://rpc-b"] "idx2" []
    = (Raise AttributeError, [EvPost "https://rpc-a" "getBalance" [JStr "idx2"]])
  /\ fst (process_validator_data sample_config
            (sample_world [] [("getBalance", JArr [])]) "um" [])
     = NoReport
  /\ (exists r,
        fst (process_validator_data sample_config
               (sample_world ["getBalance"] []) "um" [])
          = Report r
        /\ identity_balance_sol r = FloatNA
        /\ vote_account_balance_sol r = FloatNA).
Proof.
  split; [vm_compute; reflexivity|].
  split; [vm_compute; reflexivity|].
  eexists. split; [vm_compute; reflexivity|]. split; reflexivity.
Qed.

(** ** The run, taken apart *)

(** The validator the record is built from. *)
Lemma process_validator_node e v :
  nodePubkey (process_validator e v) = nodePubkey v.
Proof.
  unfold process_validator.
  destruct (scan_epoch_credits e (default [] (epochCredits v))). reflexivity.
Qed.

Lemma process_validator_credits e v :
  exists c, currentEpochCreditsEarned (process_validator e v) = Some c.
Proof.
  unfold process_validator.
  destruct (scan_epoch_credits e (default [] (epochCredits v))) as [cum c].
  exists c. reflexivity.
Qed.

Lemma assign_ranks_in l : forall i v,
  In v (assign_ranks i l) ->
  exists v0 n, In v0 l /\ v = set_rank (IntVal n) v0.
Proof.
  induction l as [|x l IH]; intros i v Hin; simpl in Hin; [contradiction|].
  destruct Hin as [<-|Hin].
  - exists x, (i + 1). split; [left|]; reflexivity.
  - destruct (IH _ _ Hin) as (v0 & n & Hv0 & ->).
    exists v0, n. split; [right; exact Hv0 | reflexivity].
Qed.

Lemma rank_validators_in processed v :
  In v (rank_validators processed) ->
  exists v0 n, In v0 processed /\ credits_earned v0 > 0
               /\ v = set_rank (IntVal n) v0.
Proof.
  unfold rank_validators. intros Hin.
  destruct (assign_ranks_in _ _ _ Hin) as (v0 & n & Hv0 & ->).
  apply (Permutation_in _ (sorted_desc_perm credits_earned _)) in Hv0.
  apply filter_In in Hv0. destruct Hv0 as [Hv0 Hpos].
  exists v0, n. repeat split; [exact Hv0 | lia].
Qed.

(** Where [locate_validator] finds its answer. *)
Lemma locate_validator_cases ranked processed id :
  (exists v, In v ranked /\ is_node id v = true
             /\ locate_validator ranked processed id = v)
  \/ (exists v, In v processed /\ is_node id v = true
                /\ locate_validator ranked processed id = set_rank IntNA v)
  \/ ((forall v, In v processed -> is_node id v = false)
      /\ locate_validator ranked processed id = placeholder id).
Proof.
  unfold locate_validator.
  destruct ranked as [|r0 rs] eqn:Hr.
  - destruct (find (is_node id) processed) as [v|] eqn:Hf.
    + right; left. apply find_some in Hf. exists v. tauto.
    + right; right. split; [|reflexivity].
      intros v Hv. exact (find_none _ _ Hf v Hv).
  - rewrite <- Hr. destruct (find (is_node id) ranked) as [v|] eqn:Hf1.
    + left. apply find_some in Hf1. exists v. tauto.
    + destruct (find (is_node id) processed) as [v|] eqn:Hf.
      * right; left. apply find_some in Hf. exists v. tauto.
      * right; right. split; [|reflexivity].
        intros v Hv. exact (find_none _ _ Hf v Hv).
Qed.

Lemma is_node_eq id v : is_node id v = true -> nodePubkey v = Some id.
Proof.
  unfold is_node. destruct (nodePubkey v) as [s|]; [|discriminate].
  intros H. apply String.eqb_eq in H. congruence.
Qed.

(** The located validator carries the configured key, and its credits. *)
Lemma located_validator_facts va ei id :
  let processed := processed_validators_of va ei in
  let ranked := rank_validators processed in
  let our := locate_validator ranked processed id in
  nodePubkey our = Some id
  /\ (exists c, currentEpochCreditsEarned our = Some c)
  /\ (exists r, rank_key our = Some r)
  /\ (rank_key our <> Some IntNA -> ranked <> []).
Proof.
  intros processed ranked our.
  assert (Hproc : forall v, In v processed ->
                    exists c, currentEpochCreditsEarned v = Some c).
  { intros v Hv. unfold processed, processed_validators_of in Hv.
    apply in_map_iff in Hv. destruct Hv as (v0 & <- & _).
    apply process_validator_credits. }
  destruct (locate_validator_cases ranked processed id)
    as [(v & Hin & Hnode & Heq) | [(v & Hin & Hnode & Heq) | (Hnone & Heq)]];
    fold our in Heq; rewrite Heq.
  - split; [apply is_node_eq, Hnode|].
    destruct (rank_validators_in _ _ Hin) as (v0 & n & Hv0 & _ & ->).
    split; [destruct (Hproc v0 Hv0) as [c Hc]; exists c; exact Hc|].
    split; [exists (IntVal n); reflexivity|].
    intros _ Hnil. rewrite Hnil in Hin. contradiction.
  - split; [apply is_node_eq in Hnode; exact Hnode|].
    split; [destruct (Hproc v Hin) as [c Hc]; exists c; exact Hc|].
    split; [exists IntNA; reflexivity|].
    intros H. exfalso. apply H. reflexivity.
  - split; [reflexivity|]. split; [exists 0; reflexivity|].
    split; [exists IntNA; reflexivity|].
    intros H. exfalso. apply H. reflexivity.
Qed.

Lemma process_validator_data_report cfg w cluster tr r tr' :
  process_validator_data cfg w cluster tr = (Report r, tr') ->
  exists rpc_urls id,
    get_rpc_urls cfg cluster = Some rpc_urls
    /\ get_validator_identity cfg cluster = Some id
    /\ rpc_urls <> []
    /\ aggregate cfg w cluster rpc_urls id tr = (Ok r, tr').
Proof.
  unfold process_validator_data. intros H.
  destruct (get_rpc_urls cfg cluster) as [urls|]; [|discriminate].
  destruct (get_validator_identity cfg cluster) as [id|]; [|discriminate].
  destruct urls as [|u us]; [discriminate|]. cbn [is_empty] in H.
  destruct (aggregate cfg w cluster (u :: us) id tr) as [[r1|e] tr1] eqn:Hagg.
  - injection H as <- <-. exists (u :: us), id.
    split; [reflexivity|]. split; [reflexivity|]. split; [discriminate|].
    exact Hagg.
  - destruct e as [m| | | | | |]; discriminate.
Qed.

Lemma process_validator_data_of_aggregate cfg w cluster tr rpc_urls id r tr' :
  get_rpc_urls cfg cluster = Some rpc_urls ->
  get_validator_identity cfg cluster = Some id ->
  rpc_urls <> [] ->
  aggregate cfg w cluster rpc_urls id tr = (Ok r, tr') ->
  process_validator_data cfg w cluster tr = (Report r, tr').
Proof.
  intros Hu Hi Hne Hagg. unfold process_validator_data. rewrite Hu, Hi.
  destruct rpc_urls as [|u us]; [congruence|]. cbn [is_empty].
  rewrite Hagg. reflexivity.
Qed.

Lemma aggregate_ok cfg w cluster rpc_urls id tr r tr' :
  aggregate cfg w cluster rpc_urls id tr = (Ok r, tr') ->
  exists r0 ei tr1 l,
    gather cfg w cluster rpc_urls id tr = (Ok (r0, ei), tr1)
    /\ resolve_leader_slots cfg w rpc_urls (identity_pubkey r0) ei tr1 = (Ok l, tr')
    /\ r = set_leader_slots r0 l.
Proof.
  unfold aggregate. intros H.
  apply bind_ok in H. destruct H as ([r0 ei] & tr1 & Hg & H).
  apply bind_ok in H. destruct H as (l & tr2 & Hl & H).
  apply ret_ok in H. destruct H as [-> ->].
  exists r0, ei, tr1, l. auto.
Qed.

(** What [gather] puts in the record, from what [fetch_core] brought. *)
Lemma gather_ok cfg w cluster rpc_urls id tr r0 ei tr1 :
  gather cfg w cluster rpc_urls id tr = (Ok (r0, ei), tr1) ->
  exists c tr0 tr2 balances,
    fetch_core cfg w rpc_urls id tr = (Ok c, tr0)
    /\ ei = epoch_info_data c
    /\ (let processed :=
          processed_validators_of (vote_accounts_data c) (epoch_info_data c) in
        let ranked := rank_validators processed in
        let our := locate_validator ranked processed id in
        rank r0 = default IntNA (rank_key our)
        /\ identity_pubkey r0 = default id (nodePubkey our)
        /\ vote_account_pubkey r0 = default "N/A" (votePubkey our)
        /\ epoch_credits r0 = epoch_credits_of our (rank r0)
        /\ missed_credits r0
           = missed_credits_of (epoch_credits r0) (rank r0)
                               (credits_earned_rank_1_of ranked)
        /\ int_truediv (default 0 (activatedStake our)) LAMPORTS_PER_SOL
           = Ok (active_stake_sol r0)
        /\ fetch_balances cfg w rpc_urls (identity_pubkey r0)
                          (vote_account_pubkey r0) tr0
           = (Ok balances, tr2)
        /\ balance_sol (fst balances) = Ok (identity_balance_sol r0)
        /\ balance_sol (snd balances) = Ok (vote_account_balance_sol r0)
        /\ _calculate_epoch_progress cfg w (epoch_info_data c) rpc_urls tr2
           = (Ok (epoch_percent_complete r0, time_left_in_epoch r0), tr1)
        /\ leader_slots r0 = no_leader_slots).
Proof.
  unfold gather. intros H.
  apply bind_ok in H. destruct H as (c & tr0 & Hc & H).
  destruct (node_details (cluster_nodes_data c) _) as [ver ip].
  apply bind_ok in H. destruct H as (b & tr2 & Hb & H).
  apply bind_ok in H. destruct H as (ib & tr3 & Hib & H).
  apply lift_ok in Hib. destruct Hib as [Hib ->].
  apply bind_ok in H. destruct H as (vb & tr4 & Hvb & H).
  apply lift_ok in Hvb. destruct Hvb as [Hvb ->].
  apply bind_ok in H. destruct H as (st & tr5 & Hst & H).
  apply lift_ok in Hst. destruct Hst as [Hst ->].
  apply bind_ok in H. destruct H as ([pc tl] & tr6 & Hpg & H).
  apply ret_ok in H. destruct H as [Hpair ->]. injection Hpair as -> ->.
  exists c, tr0, tr2, b. cbn.
  repeat (split; [first [assumption | reflexivity]|]). reflexivity.
Qed.

Lemma bind_run {A B} (c : M A) (k : A -> M B) tr a tr1 :
  c tr = (Ok a, tr1) -> bind c k tr = k a tr1.
Proof. unfold bind. intros ->. reflexivity. Qed.

Lemma bind_lift_run {A B} (r : Res A) (k : A -> M B) tr a :
  r = Ok a -> bind (lift r) k tr = k a tr.
Proof. intros ->. reflexivity. Qed.

(** The record [gather] returns when each of its steps succeeds. *)
Lemma gather_run cfg w cluster rpc_urls id tr c tr0 balances tr1
      identity_balance vote_balance stake progress tr2 :
  fetch_core cfg w rpc_urls id tr = (Ok c, tr0) ->
  fetch_balances cfg w rpc_urls
    (default id (nodePubkey
       (locate_validator
          (rank_validators
             (processed_validators_of (vote_accounts_data c) (epoch_info_data c)))
          (processed_validators_of (vote_accounts_data c) (epoch_info_data c)) id)))
    (default "N/A" (votePubkey
       (locate_validator
          (rank_validators
             (processed_validators_of (vote_accounts_data c) (epoch_info_data c)))
          (processed_validators_of (vote_accounts_data c) (epoch_info_data c)) id)))
    tr0 = (Ok balances, tr1) ->
  balance_sol (fst balances) = Ok identity_balance ->
  balance_sol (snd balances) = Ok vote_balance ->
  int_truediv
    (default 0 (activatedStake
       (locate_validator
          (rank_validators
             (processed_validators_of (vote_accounts_data c) (epoch_info_data c)))
          (processed_validators_of (vote_accounts_data c) (epoch_info_data c)) id)))
    LAMPORTS_PER_SOL = Ok stake ->
  _calculate_epoch_progress cfg w (epoch_info_data c) rpc_urls tr1
    = (Ok progress, tr2) ->
  exists r0,
    gather cfg w cluster rpc_urls id tr = (Ok (r0, epoch_info_data c), tr2)
    /\ (let our :=
          locate_validator
            (rank_validators
               (processed_validators_of (vote_accounts_data c) (epoch_info_data c)))
            (processed_validators_of (vote_accounts_data c) (epoch_info_data c)) id in
        rank r0 = default IntNA (rank_key our)
        /\ identity_pubkey r0 = default id (nodePubkey our)
        /\ vote_account_pubkey r0 = default "N/A" (votePubkey our)
        /\ epoch_credits r0 = epoch_credits_of our (rank r0)
        /\ active_stake_sol r0 = stake
        /\ identity_balance_sol r0 = identity_balance
        /\ vote_account_balance_sol r0 = vote_balance
        /\ leader_slots r0 = no_leader_slots).
Proof.
  intros Hcore Hbal Hib Hvb Hst Hprog. unfold gather.
  rewrite (bind_run _ _ _ _ _ Hcore).
  destruct (node_details (cluster_nodes_data c) _) as [ver ip].
  rewrite (bind_run _ _ _ _ _ Hbal).
  rewrite (bind_lift_run _ _ _ _ Hib), (bind_lift_run _ _ _ _ Hvb),
          (bind_lift_run _ _ _ _ Hst).
  rewrite (bind_run _ _ _ _ _ Hprog).
  eexists. split; [reflexivity|]. cbn. repeat split.
Qed.

Lemma aggregate_run cfg w cluster rpc_urls id tr r0 ei tr1 leader tr2 :
  gather cfg w cluster rpc_urls id tr = (Ok (r0, ei), tr1) ->
  resolve_leader_slots cfg w rpc_urls (identity_pubkey r0) ei tr1
    = (Ok leader, tr2) ->
  aggregate cfg w cluster rpc_urls id tr = (Ok (set_leader_slots r0 leader), tr2).
Proof.
  intros Hg Hl. unfold aggregate.
  rewrite (bind_run _ _ _ _ _ Hg). cbn [fst snd].
  rewrite (bind_run _ _ _ _ _ Hl). reflexivity.
Qed.

(** ** Missed credits *)

Lemma credits_earned_set_rank r v :
  credits_earned (set_rank r v) = credits_earned v.
Proof. reflexivity. Qed.

(** C2, amended.  In every run that reports, the target's credits earned
    are a number.  When some validator is ranked, the top entry has
    positive credits earned and [missed_credits] is the top entry's credits
    earned less the target's, whether the target is ranked or found only
    among the unranked (or is the placeholder).  When no validator is
    ranked, the target is unranked and [missed_credits] is 0 if its credits
    earned are not negative and "N/A" if they are. *)
Theorem missed_credits_relative_to_top
    (cfg : Config) (w : World) (cluster : string) (tr tr' : Trace)
    (r : StatusRecord) :
  process_validator_data cfg w cluster tr = (Report r, tr') ->
  exists rpc_urls id c tr0 own,
    get_rpc_urls cfg cluster = Some rpc_urls
    /\ get_validator_identity cfg cluster = Some id
    /\ fetch_core cfg w rpc_urls id tr = (Ok c, tr0)
    /\ epoch_credits r = IntVal own
    /\ (forall top rest,
          rank_validators
            (processed_validators_of (vote_accounts_data c) (epoch_info_data c))
          = top :: rest ->
          0 < credits_earned top
          /\ missed_credits r = IntVal (credits_earned top - own))
    /\ (rank_validators
          (processed_validators_of (vote_accounts_data c) (epoch_info_data c))
        = [] ->
        rank r = IntNA
        /\ missed_credits r = (if own >=? 0 then IntVal 0 else IntNA))
    /\ (rank r <> IntNA ->
        rank_validators
          (processed_validators_of (vote_accounts_data c) (epoch_info_data c))
        <> []).
Proof.
  intros Hrun.
  destruct (process_validator_data_report _ _ _ _ _ _ Hrun)
    as (urls & id & Hurls & Hid & _ & Hagg).
  destruct (aggregate_ok _ _ _ _ _ _ _ _ Hagg)
    as (r0 & ei & tr1 & l & Hg & _ & ->).
  destruct (gather_ok _ _ _ _ _ _ _ _ _ Hg)
    as (c & tr0 & tr2 & b & Hc & _ & Hrank & _ & _ & Hcred & Hmiss & _).
  destruct (located_validator_facts (vote_accounts_data c) (epoch_info_data c) id)
    as (_ & [own Hown] & [rk Hrk] & Hranked).
  cbn [set_leader_slots epoch_credits missed_credits rank].
  assert (Hcred' : epoch_credits r0 = IntVal own).
  { rewrite Hcred. unfold epoch_credits_of. rewrite Hown. reflexivity. }
  exists urls, id, c, tr0, own.
  set (ranked := rank_validators
         (processed_validators_of (vote_accounts_data c) (epoch_info_data c))) in *.
  repeat (split; [assumption|]).
  rewrite Hmiss, Hcred', Hrank, Hrk. cbn [default]. split; [|split].
  - intros top rest Htop.
    assert (Hin : In top ranked) by (rewrite Htop; left; reflexivity).
    destruct (rank_validators_in _ _ Hin) as (v0 & n & _ & Hpos & ->).
    rewrite credits_earned_set_rank. split; [lia|].
    rewrite Htop. unfold credits_earned_rank_1_of.
    rewrite credits_earned_set_rank.
    assert (Hgt : (credits_earned v0 >? 0) = true) by (apply Z.gtb_lt; lia).
    unfold missed_credits_of. rewrite !Hgt. reflexivity.
  - intros Hnil.
    assert (Hna : rk = IntNA).
    { destruct rk as [z|]; [|reflexivity]. exfalso.
      apply Hranked; [rewrite Hrk; discriminate | exact Hnil]. }
    subst rk. split; [reflexivity|].
    rewrite Hnil. unfold credits_earned_rank_1_of, missed_credits_of. simpl.
    destruct (own >=? 0); reflexivity.
  - intros Hne. apply Hranked. rewrite Hrk. congruence.
Qed.

(** The healthy cluster watched from "ut": the target "idx1" earned
    nothing, the top entry 100, and the record says 100 missed. *)
Lemma missed_credits_relative_to_top_witness :
  exists rpc_urls id c tr0 own,
    get_rpc_urls sample_config "ut" = Some rpc_urls
    /\ get_validator_identity sample_config "ut" = Some id
    /\ fetch_core sample_config (sample_world [] []) rpc_urls id [] = (Ok c, tr0)
    /\ epoch_credits (report_of run_unranked_target) = IntVal own
    /\ (forall top rest,
          rank_validators
            (processed_validators_of (vote_accounts_data c) (epoch_info_data c))
          = top :: rest ->
          0 < credits_earned top
          /\ missed_credits (report_of run_unranked_target)
             = IntVal (credits_earned top - own))
    /\ (rank_validators
          (processed_validators_of (vote_accounts_data c) (epoch_info_data c))
        = [] ->
        rank (report_of run_unranked_target) = IntNA
        /\ missed_credits (report_of run_unranked_target)
           = (if own >=? 0 then IntVal 0 else IntNA))
    /\ (rank (report_of run_unranked_target) <> IntNA ->
        rank_validators
          (processed_validators_of (vote_accounts_data c) (epoch_info_data c))
        <> []).
Proof.
  apply (missed_credits_relative_to_top sample_config (sample_world [] []) "ut"
           [] (snd run_unranked_target) (report_of run_unranked_target)).
  vm_compute. reflexivity.
Defined.

(** C2 as stated fails.  The target "idx1" is found only among the
    unranked, the top entry earned 100 credits, and [missed_credits] is 100,
    not "N/A".  And where the target earned -5 and nobody is ranked, the
    top's credits count as 0, the target's are a number, and
    [missed_credits] is "N/A", not 0. *)
Lemma missed_credits_unranked_counterexample :
  (fst run_unranked_target
     = fst (process_validator_data sample_config (sample_world [] []) "ut" [])
   /\ rank (report_of run_unranked_target) = IntNA
   /\ epoch_credits (report_of run_unranked_target) = IntVal 0
   /\ missed_credits (report_of run_unranked_target) = IntVal 100
   /\ missed_credits (report_of run_unranked_target) <> IntNA)
  /\ (fst run_nobody_ranked
        = fst (process_validator_data sample_config world_nobody_ranked "ut" [])
      /\ (exists r, fst run_nobody_ranked = Report r)
      /\ rank (report_of run_nobody_ranked) = IntNA
      /\ epoch_credits (report_of run_nobody_ranked) = IntVal (-5)
      /\ missed_credits (report_of run_nobody_ranked) = IntNA
      /\ missed_credits (report_of run_nobody_ranked) <> IntVal 0).
Proof.
  split.
  - split; [vm_compute; reflexivity|].
    repeat split; try reflexivity. discriminate.
  - split; [vm_compute; reflexivity|].
    split; [eexists; reflexivity|].
    repeat split; try reflexivity. discriminate.
Qed.

(** ** The absent validator *)

Lemma is_node_false id v : nodePubkey v <> Some id -> is_node id v = false.
Proof.
  unfold is_node. destruct (nodePubkey v) as [s|]; [|reflexivity].
  intros H. apply String.eqb_neq. congruence.
Qed.

Lemma locate_validator_absent va ei id :
  absent_from va id ->
  locate_validator (rank_validators (processed_validators_of va ei))
                   (processed_validators_of va ei) id
  = placeholder id.
Proof.
  intros Habs.
  assert (Hproc : forall v, In v (processed_validators_of va ei) ->
                            is_node id v = false).
  { intros v Hv. unfold processed_validators_of in Hv.
    apply in_map_iff in Hv. destruct Hv as (v0 & <- & Hv0).
    apply is_node_false. rewrite process_validator_node. apply Habs, Hv0. }
  destruct (locate_validator_cases
              (rank_validators (processed_validators_of va ei))
              (processed_validators_of va ei) id)
    as [(v & Hin & Hnode & _) | [(v & Hin & Hnode & _) | (_ & Heq)]].
  - destruct (rank_validators_in _ _ Hin) as (v0 & n & Hv0 & _ & ->).
    specialize (Hproc v0 Hv0). unfold is_node in *. simpl in Hnode. congruence.
  - specialize (Hproc v Hin). congruence.
  - exact Heq.
Qed.

(** C4.  When no entry of the "current" and "delinquent" lists has the
    target's key, the record is built from the synthesized placeholder, and
    the run, its other steps succeeding, returns it instead of aborting:
    the rank is "N/A", the credits earned and the stake are zero, the vote
    account is "N/A" and its balance is not looked up. *)
Theorem absent_target_reports_placeholder
    (cfg : Config) (w : World) (cluster : string) (rpc_urls : list string)
    (id : string) (c : Core) (tr tr0 tr1 tr2 tr3 : Trace)
    (balances : option Z * option Z) (identity_balance : FloatOrNA)
    (progress : float * string) (leader : LeaderSlots) :
  get_rpc_urls cfg cluster = Some rpc_urls ->
  get_validator_identity cfg cluster = Some id ->
  rpc_urls <> [] ->
  fetch_core cfg w rpc_urls id tr = (Ok c, tr0) ->
  absent_from (vote_accounts_data c) id ->
  fetch_balances cfg w rpc_urls id "N/A" tr0 = (Ok balances, tr1) ->
  balance_sol (fst balances) = Ok identity_balance ->
  _calculate_epoch_progress cfg w (epoch_info_data c) rpc_urls tr1
    = (Ok progress, tr2) ->
  resolve_leader_slots cfg w rpc_urls id (epoch_info_data c) tr2
    = (Ok leader, tr3) ->
  locate_validator
    (rank_validators
       (processed_validators_of (vote_accounts_data c) (epoch_info_data c)))
    (processed_validators_of (vote_accounts_data c) (epoch_info_data c)) id
  = placeholder id
  /\ exists r,
      process_validator_data cfg w cluster tr = (Report r, tr3)
      /\ rank r = IntNA
      /\ epoch_credits r = IntVal 0
      /\ active_stake_sol r = f_zero
      /\ identity_pubkey r = id
      /\ vote_account_pubkey r = "N/A"
      /\ vote_account_balance_sol r = FloatNA.
Proof.
  intros Hurls Hid Hne Hcore Habs Hbal Hib Hprog Hlead.
  pose proof (locate_validator_absent _ (epoch_info_data c) _ Habs) as Hloc.
  split; [exact Hloc|].
  assert (Hsnd : snd balances = None).
  { unfold fetch_balances in Hbal.
    apply bind_ok in Hbal. destruct Hbal as (b1 & t1 & _ & Hbal).
    cbn in Hbal. apply ret_ok in Hbal. destruct Hbal as [-> _]. reflexivity. }
  destruct (gather_run cfg w cluster rpc_urls id tr c tr0 balances tr1
              identity_balance FloatNA f_zero progress tr2 Hcore)
    as (r0 & Hg & Hrank & Hident & Hvote & Hcred & Hstake & _ & Hvb & _).
  - rewrite Hloc. exact Hbal.
  - exact Hib.
  - rewrite Hsnd. reflexivity.
  - rewrite Hloc. reflexivity.
  - exact Hprog.
  - rewrite Hloc in Hrank, Hident, Hvote, Hcred. cbn in Hrank, Hident, Hvote.
    rewrite Hrank in Hcred. cbn in Hcred.
    exists (set_leader_slots r0 leader). split.
    + apply (process_validator_data_of_aggregate _ _ _ _ _ _ _ _ Hurls Hid Hne).
      apply (aggregate_run _ _ _ _ _ _ _ _ _ _ _ Hg).
      rewrite Hident. exact Hlead.
    + cbn. repeat split; assumption.
Qed.

(** The healthy cluster watched from "gone". *)
Lemma absent_target_reports_placeholder_witness :
  locate_validator
    (rank_validators
       (processed_validators_of (vote_accounts_data core_of_sample_world)
                                (epoch_info_data core_of_sample_world)))
    (processed_validators_of (vote_accounts_data core_of_sample_world)
                             (epoch_info_data core_of_sample_world)) "ghost"
  = placeholder "ghost"
  /\ exists r,
      process_validator_data sample_config (sample_world [] []) "gone" []
        = (Report r, snd run_absent_target)
      /\ rank r = IntNA
      /\ epoch_credits r = IntVal 0
      /\ active_stake_sol r = f_zero
      /\ identity_pubkey r = "ghost"
      /\ vote_account_pubkey r = "N/A"
      /\ vote_account_balance_sol r = FloatNA.
Proof.
  eapply (absent_target_reports_placeholder sample_config (sample_world [] [])
            "gone" ["https://rpc-a"; "https://rpc-b"] "ghost"
            core_of_sample_world []).
  - reflexivity.
  - reflexivity.
  - discriminate.
  - vm_compute. reflexivity.
  - intros v Hv. vm_compute in Hv.
    repeat (destruct Hv as [<-|Hv]; [discriminate|]). contradiction.
  - vm_compute. reflexivity.
  - vm_compute. reflexivity.
  - vm_compute. reflexivity.
  - vm_compute. reflexivity.
Defined.

(** ** Failures of the leader-slot fetches *)

Lemma filter_len_le {A} (f : A -> bool) (l : list A) : len (filter f l) <= len l.
Proof.
  unfold len. apply inj_le. induction l as [|x l IH]; simpl; [lia|].
  destruct (f x); simpl; lia.
Qed.

Lemma resolve_leader_slots_schedule_failure cfg w rpc_urls identity ei tr m tr' :
  identity <> "N/A" ->
  get_leader_schedule_rpc cfg w rpc_urls tr = (Raise (RuntimeError m), tr') ->
  resolve_leader_slots cfg w rpc_urls identity ei tr = (Ok no_leader_slots, tr').
Proof.
  intros Hne Hfetch. unfold resolve_leader_slots.
  destruct (String.eqb_spec identity "N/A") as [->|_]; [congruence|].
  unfold catch_runtime, bind. rewrite Hfetch. reflexivity.
Qed.

Lemma resolve_leader_slots_production_failure
      cfg w rpc_urls identity ei tr d tr1 slots m tr2 :
  identity <> "N/A" ->
  get_leader_schedule_rpc cfg w rpc_urls tr = (Ok d, tr1) ->
  view_leader_slots identity d = Some slots ->
  0 < len (filter (fun s => s <=? default 0 (slotIndex ei)) slots) ->
  0 < default 0 (slotIndex ei) ->
  get_block_production_rpc cfg w rpc_urls identity
    (default 0 (absoluteSlot ei) - default 0 (slotIndex ei))
    (default 0 (absoluteSlot ei)) tr1
    = (Raise (RuntimeError m), tr2) ->
  resolve_leader_slots cfg w rpc_urls identity ei tr
  = (Ok {| leader_slots_total := len slots;
           leader_slots_completed :=
             len (filter (fun s => s <=? default 0 (slotIndex ei)) slots);
           leader_slots_upcoming :=
             len slots - len (filter (fun s => s <=? default 0 (slotIndex ei)) slots);
           leader_slots_skipped := 0;
           leader_skip_rate := f_zero |}, tr2).
Proof.
  intros Hne Hsched Hview Hdone Hidx Hprod. unfold resolve_leader_slots.
  destruct (String.eqb_spec identity "N/A") as [->|_]; [congruence|].
  unfold catch_runtime at 1.
  rewrite (bind_run _ _ _ _ _ Hsched).
  rewrite Hview. cbn [need]. rewrite (bind_lift_run _ _ _ slots eq_refl).
  pose proof (filter_len_le (fun s => s <=? default 0 (slotIndex ei)) slots) as Hle.
  assert (H1 : (len slots >? 0) = true) by (apply Z.gtb_lt; lia).
  assert (H2 : (len (filter (fun s => s <=? default 0 (slotIndex ei)) slots) >? 0)
               = true) by (apply Z.gtb_lt; lia).
  assert (H3 : (default 0 (absoluteSlot ei) - default 0 (slotIndex ei)
                <? default 0 (absoluteSlot ei)) = true) by (apply Z.ltb_lt; lia).
  rewrite H1, H2, H3. cbn [andb].
  unfold catch_runtime, bind. rewrite Hprod. reflexivity.
Qed.

(** C3, amended.  A failure of the leader-schedule fetch, every endpoint
    and every retry spent, leaves the all-zero leader-slot summary; a
    failure of the block-production fetch leaves the skipped count and the
    skip rate at zero and keeps the total, completed and upcoming counts.
    In both cases the run goes on and returns its record. *)
Theorem leader_slot_fetch_failures_degrade :
  (forall cfg w cluster rpc_urls id tr r0 ei tr1 m tr2,
      get_rpc_urls cfg cluster = Some rpc_urls ->
      get_validator_identity cfg cluster = Some id ->
      rpc_urls <> [] ->
      gather cfg w cluster rpc_urls id tr = (Ok (r0, ei), tr1) ->
      identity_pubkey r0 <> "N/A" ->
      get_leader_schedule_rpc cfg w rpc_urls tr1 = (Raise (RuntimeError m), tr2) ->
      process_validator_data cfg w cluster tr
      = (Report (set_leader_slots r0 no_leader_slots), tr2))
  /\ (forall cfg w cluster rpc_urls id tr r0 ei tr1 d tr2 slots m tr3,
      get_rpc_urls cfg cluster = Some rpc_urls ->
      get_validator_identity cfg cluster = Some id ->
      rpc_urls <> [] ->
      gather cfg w cluster rpc_urls id tr = (Ok (r0, ei), tr1) ->
      identity_pubkey r0 <> "N/A" ->
      get_leader_schedule_rpc cfg w rpc_urls tr1 = (Ok d, tr2) ->
      view_leader_slots (identity_pubkey r0) d = Some slots ->
      0 < len (filter (fun s => s <=? default 0 (slotIndex ei)) slots) ->
      0 < default 0 (slotIndex ei) ->
      get_block_production_rpc cfg w rpc_urls (identity_pubkey r0)
        (default 0 (absoluteSlot ei) - default 0 (slotIndex ei))
        (default 0 (absoluteSlot ei)) tr2
        = (Raise (RuntimeError m), tr3) ->
      process_validator_data cfg w cluster tr
      = (Report
           (set_leader_slots r0
              {| leader_slots_total := len slots;
                 leader_slots_completed :=
                   len (filter (fun s => s <=? default 0 (slotIndex ei)) slots);
                 leader_slots_upcoming :=
                   len slots
                   - len (filter (fun s => s <=? default 0 (slotIndex ei)) slots);
                 leader_slots_skipped := 0;
                 leader_skip_rate := f_zero |}), tr3)).
Proof.
  split.
  - intros cfg w cluster rpc_urls id tr r0 ei tr1 m tr2
           Hurls Hid Hne Hg Hident Hsched.
    apply (process_validator_data_of_aggregate _ _ _ _ _ _ _ _ Hurls Hid Hne).
    apply (aggregate_run _ _ _ _ _ _ _ _ _ _ _ Hg).
    apply (resolve_leader_slots_schedule_failure _ _ _ _ _ _ _ _ Hident Hsched).
  - intros cfg w cluster rpc_urls id tr r0 ei tr1 d tr2 slots m tr3
           Hurls Hid Hne Hg Hident Hsched Hview Hdone Hidx Hprod.
    apply (process_validator_data_of_aggregate _ _ _ _ _ _ _ _ Hurls Hid Hne).
    apply (aggregate_run _ _ _ _ _ _ _ _ _ _ _ Hg).
    apply (resolve_leader_slots_production_failure
             _ _ _ _ _ _ _ _ _ _ _ Hident Hsched Hview Hdone Hidx Hprod).
Qed.

(** The healthy cluster watched from "um" with the leader schedule down,
    and with block production down. *)
Lemma leader_slot_fetch_failures_degrade_witness :
  process_validator_data sample_config (sample_world ["getLeaderSchedule"] [])
                         "um" []
  = (Report (set_leader_slots (report_of run_leader_schedule_down) no_leader_slots),
     snd run_leader_schedule_down)
  /\ process_validator_data sample_config (sample_world ["getBlockProduction"] [])
                            "um" []
     = (Report
          (set_leader_slots
             (set_leader_slots (report_of run_block_production_down) no_leader_slots)
             {| leader_slots_total := 3; leader_slots_completed := 2;
                leader_slots_upcoming := 1; leader_slots_skipped := 0;
                leader_skip_rate := f_zero |}),
        snd run_block_production_down).
Proof.
  split.
  - eapply (proj1 leader_slot_fetch_failures_degrade sample_config
              (sample_world ["getLeaderSchedule"] []) "um"
              ["https://rpc-a"; "https://rpc-b"] "idx2" []
              (report_of run_leader_schedule_down)).
    + reflexivity.
    + reflexivity.
    + discriminate.
    + vm_compute. reflexivity.
    + discriminate.
    + vm_compute. reflexivity.
  - eapply (proj2 leader_slot_fetch_failures_degrade sample_config
              (sample_world ["getBlockProduction"] []) "um"
              ["https://rpc-a"; "https://rpc-b"] "idx2" []
              (set_leader_slots (report_of run_block_production_down)
                                no_leader_slots)
              sample_epoch_info _ _ _ [4; 5; 400000]).
    + reflexivity.
    + reflexivity.
    + discriminate.
    + vm_compute. reflexivity.
    + discriminate.
    + vm_compute. reflexivity.
    + vm_compute. reflexivity.
    + vm_compute. reflexivity.
    + vm_compute. reflexivity.
    + vm_compute. reflexivity.
Defined.

(** C3 as stated fails.  With block production down on every endpoint the
    run reports three leader slots, two of them completed: not the all-zero
    summary.  With the performance samples down on every endpoint the
    [RuntimeError] of the transport passes through
    [_calculate_epoch_progress] and the run ends without a record: the
    default slot time is not used and the failure is fatal. *)
Lemma noncritical_fetch_failure_counterexample :
  (fst run_block_production_down
     = fst (process_validator_data sample_config
              (sample_world ["getBlockProduction"] []) "um" [])
   /\ (exists r, fst run_block_production_down = Report r)
   /\ leader_slots_total (leader_slots (report_of run_block_production_down)) = 3
   /\ leader_slots_completed (leader_slots (report_of run_block_production_down)) = 2
   /\ leader_slots (report_of run_block_production_down) <> no_leader_slots)
  /\ fst (process_validator_data sample_config
            (sample_world ["getRecentPerformanceSamples"] []) "um" [])
     = NoReport.
Proof.
  split.
  - split; [vm_compute; reflexivity|].
    split; [eexists; reflexivity|].
    repeat split; try reflexivity. discriminate.
  - vm_compute. reflexivity.
Qed.

(** ** What a computation adds to the trace *)

Lemma extends_ret {A} (a : A) : extends (ret a).
Proof. intros tr. exists []. simpl. now rewrite app_nil_r. Qed.

Lemma extends_throw {A} e : extends (@throw A e).
Proof. intros tr. exists []. simpl. now rewrite app_nil_r. Qed.

Lemma extends_lift {A} (r : Res A) : extends (lift r).
Proof. intros tr. exists []. simpl. now rewrite app_nil_r. Qed.

Lemma extends_bind {A B} (c : M A) (k : A -> M B) :
  extends c -> (forall a, extends (k a)) -> extends (bind c k).
Proof.
  intros Hc Hk tr. unfold bind. destruct (Hc tr) as [s Hs].
  destruct (c tr) as [[a|e] tr1]; simpl in Hs; subst tr1.
  - destruct (Hk a (tr ++ s)) as [s' Hs']. exists (s ++ s').
    rewrite Hs', app_assoc. reflexivity.
  - exists s. reflexivity.
Qed.

Lemma extends_catch_runtime {A} (c : M A) h :
  extends c -> (forall m, extends (h m)) -> extends (catch_runtime c h).
Proof.
  intros Hc Hh tr. unfold catch_runtime. destruct (Hc tr) as [s Hs].
  destruct (c tr) as [[a|e] tr1]; simpl in Hs; subst tr1.
  - exists s. reflexivity.
  - destruct e as [m| | | | | |]; try (exists s; reflexivity).
    destruct (Hh m (tr ++ s)) as [s' Hs']. exists (s ++ s').
    rewrite Hs', app_assoc. reflexivity.
Qed.

Lemma extends_catch_all {A} (c : M A) h :
  extends c -> (forall e, extends (h e)) -> extends (catch_all c h).
Proof.
  intros Hc Hh tr. unfold catch_all. destruct (Hc tr) as [s Hs].
  destruct (c tr) as [[a|e] tr1]; simpl in Hs; subst tr1.
  - exists s. reflexivity.
  - destruct e as [m| | | | | |];
      try (exists s; reflexivity);
      match goal with
      | |- context [h ?e (tr ++ s)] =>
          destruct (Hh e (tr ++ s)) as [s' Hs']; exists (s ++ s');
          rewrite Hs', app_assoc; reflexivity
      end.
Qed.

Lemma try_urls_extends w method params urls : forall last tr,
  exists s, snd (try_urls w method params urls last tr) = tr ++ s.
Proof.
  induction urls as [|u us IH]; intros last tr; simpl.
  - exists []. now rewrite app_nil_r.
  - destruct (rpc_attempt method u (http w tr u method params)) as [r|f|e];
      try (eexists; reflexivity).
    destruct (IH (dict_set u f last) (tr ++ [EvPost u method params])) as [s Hs].
    exists (EvPost u method params :: s). rewrite Hs, <- app_assoc. reflexivity.
Qed.

Lemma attempt_loop_extends w method params urls max_attempts delay attempts :
  forall last tr,
  exists s,
    snd (attempt_loop w method params urls max_attempts delay attempts last tr)
    = tr ++ s.
Proof.
  induction attempts as [|i rest IH]; intros last tr; simpl.
  - exists []. now rewrite app_nil_r.
  - destruct (try_urls_extends w method params urls last tr) as [s Hs].
    destruct (try_urls w method params urls last tr) as [[[r|] last1] tr1];
      simpl in Hs; subst tr1.
    + exists s. reflexivity.
    + destruct (Z.of_nat i <? max_attempts - 1).
      * unfold sleep. destruct (delay <? 0).
        -- exists s. reflexivity.
        -- destruct (IH last1 ((tr ++ s) ++ [EvSleep delay])) as [s' Hs'].
           exists (s ++ EvSleep delay :: s').
           rewrite Hs', <- !app_assoc. reflexivity.
      * destruct (IH last1 (tr ++ s)) as [s' Hs'].
        exists (s ++ s'). rewrite Hs', app_assoc. reflexivity.
Qed.

Lemma make_rpc_request_extends cfg w urls method params mo ro :
  extends (_make_rpc_request cfg w urls method params mo ro).
Proof. intros tr. apply attempt_loop_extends. Qed.

Lemma cli_extends w command_args urls :
  extends (_execute_solana_cli_command w command_args urls).
Proof.
  induction urls as [|u us IH]; intros tr; simpl.
  - exists []. now rewrite app_nil_r.
  - destruct (cli w tr u command_args).
    + eexists. reflexivity.
    + destruct (IH (tr ++ [EvCli u command_args])) as [s Hs].
      exists (EvCli u command_args :: s). rewrite Hs, <- app_assoc. reflexivity.
Qed.

Ltac extends_steps :=
  repeat first
    [ apply extends_ret | apply extends_throw | apply extends_lift
    | apply make_rpc_request_extends | apply cli_extends
    | apply extends_bind; [|intros ?]
    | apply extends_catch_runtime; [|intros ?]
    | apply extends_catch_all; [|intros ?]
    | match goal with
      | |- extends (match ?x with _ => _ end) => destruct x
      end ].

Lemma get_balance_rpc_extends cfg w urls pubkey :
  extends (get_balance_rpc cfg w urls pubkey).
Proof. unfold get_balance_rpc. extends_steps. Qed.

Lemma fetch_core_extends cfg w urls id : extends (fetch_core cfg w urls id).
Proof.
  unfold fetch_core, get_vote_accounts_rpc, get_validator_info_cli,
    get_epoch_info_rpc, _get_validator_stake_info_cli, get_cluster_nodes_rpc.
  extends_steps.
Qed.

Lemma calculate_epoch_progress_extends cfg w ei urls :
  extends (_calculate_epoch_progress cfg w ei urls).
Proof.
  unfold _calculate_epoch_progress, get_recent_performance_samples_rpc.
  extends_steps.
Qed.

(** The first post of a transport call that has an endpoint and an attempt. *)
Lemma make_rpc_request_emits cfg w u rest method params :
  0 <= get_rpc_max_retries cfg ->
  emits (EvPost u method params)
        (_make_rpc_request cfg w (u :: rest) method params None None).
Proof.
  intros Hretries tr. unfold _make_rpc_request.
  destruct (Z.to_nat (get_rpc_max_retries cfg + 1)) as [|n] eqn:Hn; [lia|].
  cbn [seq attempt_loop try_urls].
  set (tr1 := tr ++ [EvPost u method params]).
  assert (Hgoal : forall (x : Res Json * Trace),
            (exists s, snd x = tr1 ++ s) ->
            exists s, snd x = tr ++ s /\ In (EvPost u method params) s).
  { intros x [s Hs]. exists (EvPost u method params :: s). split.
    - rewrite Hs. unfold tr1. rewrite <- app_assoc. reflexivity.
    - left. reflexivity. }
  apply Hgoal.
  destruct (rpc_attempt method u (http w tr u method params)) as [r|f|e];
    try (exists []; simpl; now rewrite app_nil_r).
  destruct (try_urls_extends w method params rest (dict_set u f []) tr1) as [s Hs].
  destruct (try_urls w method params rest (dict_set u f []) tr1)
    as [[[r|] last1] tr2]; simpl in Hs; subst tr2.
  - exists s. reflexivity.
  - destruct (Z.of_nat 0 <? get_rpc_max_retries cfg + 1 - 1).
    + unfold sleep. destruct (get_rpc_retry_delay cfg <? 0).
      * exists s. reflexivity.
      * destruct (attempt_loop_extends w method params (u :: rest)
                    (get_rpc_max_retries cfg + 1) (get_rpc_retry_delay cfg)
                    (seq 1 n) last1
                    ((tr1 ++ s) ++ [EvSleep (get_rpc_retry_delay cfg)]))
          as [s' Hs'].
        exists (s ++ EvSleep (get_rpc_retry_delay cfg) :: s').
        rewrite Hs', <- !app_assoc. reflexivity.
    + destruct (attempt_loop_extends w method params (u :: rest)
                  (get_rpc_max_retries cfg + 1) (get_rpc_retry_delay cfg)
                  (seq 1 n) last1 (tr1 ++ s)) as [s' Hs'].
      exists (s ++ s'). rewrite Hs', app_assoc. reflexivity.
Qed.

Lemma emits_bind {A B} e (c : M A) (k : A -> M B) :
  emits e c -> (forall a, extends (k a)) -> emits e (bind c k).
Proof.
  intros Hc Hk tr. unfold bind. destruct (Hc tr) as (s & Hs & Hin).
  destruct (c tr) as [[a|x] tr1]; simpl in Hs; subst tr1.
  - destruct (Hk a (tr ++ s)) as [s' Hs']. exists (s ++ s').
    rewrite Hs', app_assoc. split; [reflexivity | apply in_app_iff; left; exact Hin].
  - exists s. auto.
Qed.

Lemma emits_catch_runtime {A} e (c : M A) h :
  emits e c -> (forall m, extends (h m)) -> emits e (catch_runtime c h).
Proof.
  intros Hc Hh tr. unfold catch_runtime. destruct (Hc tr) as (s & Hs & Hin).
  destruct (c tr) as [[a|x] tr1]; simpl in Hs; subst tr1.
  - exists s. auto.
  - destruct x as [m| | | | | |];
      try (exists s; split; [reflexivity | exact Hin]).
    destruct (Hh m (tr ++ s)) as [s' Hs']. exists (s ++ s').
    rewrite Hs', app_assoc. split; [reflexivity | apply in_app_iff; left; exact Hin].
Qed.

(** A successful transport call had an attempt to make. *)
Lemma make_rpc_request_ok_retries cfg w urls method params tr j tr' :
  _make_rpc_request cfg w urls method params None None tr = (Ok j, tr') ->
  0 <= get_rpc_max_retries cfg.
Proof.
  unfold _make_rpc_request. intros H.
  destruct (Z.to_nat (get_rpc_max_retries cfg + 1)) as [|n] eqn:Hn; [|lia].
  simpl in H. discriminate.
Qed.

Lemma fetch_balances_extends cfg w urls identity vote_account :
  extends (fetch_balances cfg w urls identity vote_account).
Proof.
  unfold fetch_balances.
  apply extends_bind; [|intros b1; apply extends_bind; [|intros b2; apply extends_ret]].
  - destruct (String.eqb identity "N/A");
      [apply extends_ret | apply get_balance_rpc_extends].
  - destruct (String.eqb vote_account "N/A");
      [apply extends_ret | apply get_balance_rpc_extends].
Qed.

Lemma fetch_balances_emits cfg w u rest identity vote_account :
  0 <= get_rpc_max_retries cfg ->
  identity <> "N/A" -> identity <> "" ->
  emits (EvPost u "getBalance" [JStr identity])
        (fetch_balances cfg w (u :: rest) identity vote_account).
Proof.
  intros Hretries Hna Hempty. unfold fetch_balances.
  destruct (String.eqb_spec identity "N/A") as [->|_]; [congruence|].
  apply emits_bind.
  - unfold get_balance_rpc.
    destruct (String.eqb_spec identity "") as [->|_]; [congruence|].
    apply emits_catch_runtime; [|intros m; apply extends_ret].
    apply emits_bind; [apply make_rpc_request_emits, Hretries|].
    intros result. extends_steps.
  - intros b1. apply extends_bind; [|intros b2; apply extends_ret].
    destruct (String.eqb vote_account "N/A");
      [apply extends_ret | apply get_balance_rpc_extends].
Qed.

Lemma resolve_leader_slots_emits cfg w u rest identity ei :
  0 <= get_rpc_max_retries cfg ->
  identity <> "N/A" ->
  emits (EvPost u "getLeaderSchedule" [])
        (resolve_leader_slots cfg w (u :: rest) identity ei).
Proof.
  intros Hretries Hna. unfold resolve_leader_slots.
  destruct (String.eqb_spec identity "N/A") as [->|_]; [congruence|].
  apply emits_catch_runtime; [|intros m; apply extends_ret].
  unfold get_leader_schedule_rpc.
  apply emits_bind.
  - apply emits_bind; [apply make_rpc_request_emits, Hretries|].
    intros result. extends_steps.
  - intros d. unfold get_block_production_rpc. extends_steps.
Qed.

Lemma fetch_core_ok_retries cfg w urls id tr c tr0 :
  fetch_core cfg w urls id tr = (Ok c, tr0) -> 0 <= get_rpc_max_retries cfg.
Proof.
  unfold fetch_core. intros H.
  apply bind_ok in H. destruct H as (j & tr1 & Hva & _).
  exact (make_rpc_request_ok_retries _ _ _ _ _ _ _ _ Hva).
Qed.

Lemma snd_of_run {A} (c : M A) tr x tr' : c tr = (x, tr') -> snd (c tr) = tr'.
Proof. intros ->. reflexivity. Qed.

(** ** The identity in the record *)

(** C9.  In every record the aggregator returns, [identity_pubkey] is the
    configured identity key of the target.  So, the configured key not
    being the text "N/A", the identity is never that sentinel and the two
    steps guarded by it are carried out: the run posts [getLeaderSchedule],
    and posts [getBalance] for the identity unless the key is empty. *)
Theorem identity_is_configured_key
    (cfg : Config) (w : World) (cluster : string) (tr tr' : Trace)
    (r : StatusRecord) (id : string) :
  process_validator_data cfg w cluster tr = (Report r, tr') ->
  get_validator_identity cfg cluster = Some id ->
  identity_pubkey r = id
  /\ (id <> "N/A" ->
      identity_pubkey r <> "N/A"
      /\ exists u s,
          tr' = tr ++ s
          /\ In (EvPost u "getLeaderSchedule" []) s
          /\ (id <> "" -> In (EvPost u "getBalance" [JStr id]) s)).
Proof.
  intros Hrun Hid.
  destruct (process_validator_data_report _ _ _ _ _ _ Hrun)
    as (urls & id' & Hurls & Hid' & Hne & Hagg).
  assert (id' = id) by congruence. subst id'.
  destruct (aggregate_ok _ _ _ _ _ _ _ _ Hagg)
    as (r0 & ei & tr1 & l & Hg & Hlead & ->).
  destruct (gather_ok _ _ _ _ _ _ _ _ _ Hg)
    as (c & tr0 & tr2 & b & Hc & _ & _ & Hident & _ & _ & _ & _ & Hbal & _ & _
        & Hprog & _).
  destruct (located_validator_facts (vote_accounts_data c) (epoch_info_data c) id)
    as (Hnode & _).
  rewrite Hnode in Hident. cbn [default] in Hident.
  cbn [set_leader_slots identity_pubkey]. split; [exact Hident|].
  intros Hna. split; [congruence|].
  rewrite Hident in Hlead, Hbal.
  pose proof (fetch_core_ok_retries _ _ _ _ _ _ _ Hc) as Hretries.
  destruct urls as [|u rest]; [congruence|].
  exists u.
  destruct (fetch_core_extends cfg w (u :: rest) id tr) as [s0 Hs0].
  rewrite (snd_of_run _ _ _ _ Hc) in Hs0.
  destruct (calculate_epoch_progress_extends cfg w (epoch_info_data c)
              (u :: rest) tr2) as [s2 Hs2].
  rewrite (snd_of_run _ _ _ _ Hprog) in Hs2.
  destruct (resolve_leader_slots_emits cfg w u rest id ei Hretries Hna tr1)
    as (s3 & Hs3 & Hin3).
  rewrite (snd_of_run _ _ _ _ Hlead) in Hs3.
  destruct (String.eqb_spec id "") as [Hempty|Hempty].
  - destruct (fetch_balances_extends cfg w (u :: rest) id
                (vote_account_pubkey r0) tr0) as [s1 Hs1].
    rewrite (snd_of_run _ _ _ _ Hbal) in Hs1.
    exists (s0 ++ s1 ++ s2 ++ s3). split; [|split].
    + rewrite Hs3, Hs2, Hs1, Hs0, <- !app_assoc. reflexivity.
    + rewrite !in_app_iff. auto.
    + intros H. congruence.
  - destruct (fetch_balances_emits cfg w u rest id (vote_account_pubkey r0)
                Hretries Hna Hempty tr0) as (s1 & Hs1 & Hin1).
    rewrite (snd_of_run _ _ _ _ Hbal) in Hs1.
    exists (s0 ++ s1 ++ s2 ++ s3). split; [|split].
    + rewrite Hs3, Hs2, Hs1, Hs0, <- !app_assoc. reflexivity.
    + rewrite !in_app_iff. auto.
    + intros _. rewrite !in_app_iff. auto.
Qed.

(** The healthy cluster watched from "um". *)
Lemma identity_is_configured_key_witness :
  identity_pubkey (report_of run_healthy) = "idx2"
  /\ ("idx2" <> "N/A" ->
      identity_pubkey (report_of run_healthy) <> "N/A"
      /\ exists u s,
          snd run_healthy = [] ++ s
          /\ In (EvPost u "getLeaderSchedule" []) s
          /\ ("idx2" <> "" -> In (EvPost u "getBalance" [JStr "idx2"]) s)).
Proof.
  apply (identity_is_configured_key sample_config (sample_world [] []) "um" []
           (snd run_healthy) (report_of run_healthy) "idx2").
  - vm_compute. reflexivity.
  - reflexivity.
Defined.

(** ** Determinism *)

Lemma agree_ret {A} (a : A) : agree (ret a) (ret a).
Proof. intros t1 t2. reflexivity. Qed.

Lemma agree_throw {A} e : agree (@throw A e) (throw e).
Proof. intros t1 t2. reflexivity. Qed.

Lemma agree_lift {A} (r : Res A) : agree (lift r) (lift r).
Proof. intros t1 t2. reflexivity. Qed.

Lemma agree_bind {A B} (c1 c2 : M A) (k1 k2 : A -> M B) :
  agree c1 c2 -> (forall a, agree (k1 a) (k2 a)) ->
  agree (bind c1 k1) (bind c2 k2).
Proof.
  intros Hc Hk t1 t2. unfold bind. specialize (Hc t1 t2).
  destruct (c1 t1) as [[a1|e1] t1'], (c2 t2) as [[a2|e2] t2'];
    simpl in Hc; try discriminate.
  - injection Hc as ->. apply Hk.
  - injection Hc as ->. reflexivity.
Qed.

Lemma agree_catch_runtime {A} (c1 c2 : M A) h1 h2 :
  agree c1 c2 -> (forall m, agree (h1 m) (h2 m)) ->
  agree (catch_runtime c1 h1) (catch_runtime c2 h2).
Proof.
  intros Hc Hh t1 t2. unfold catch_runtime. specialize (Hc t1 t2).
  destruct (c1 t1) as [[a1|e1] t1'], (c2 t2) as [[a2|e2] t2'];
    simpl in Hc; try discriminate.
  - exact Hc.
  - injection Hc as ->. destruct e2 as [m| | | | | |]; try reflexivity. apply Hh.
Qed.

Lemma agree_catch_all {A} (c1 c2 : M A) h1 h2 :
  agree c1 c2 -> (forall e, agree (h1 e) (h2 e)) ->
  agree (catch_all c1 h1) (catch_all c2 h2).
Proof.
  intros Hc Hh t1 t2. unfold catch_all. specialize (Hc t1 t2).
  destruct (c1 t1) as [[a1|e1] t1'], (c2 t2) as [[a2|e2] t2'];
    simpl in Hc; try discriminate.
  - exact Hc.
  - injection Hc as ->. destruct e2 as [m| | | | | |]; try reflexivity; apply Hh.
Qed.

Section SameResponses.
Variables (cfg : Config) (w1 w2 : World) (rpc_urls : list string).
Hypothesis same : same_fetch_responses cfg w1 w2 rpc_urls.

Ltac agree_steps :=
  repeat first
    [ apply agree_ret | apply agree_throw | apply agree_lift
    | apply (proj1 same) | apply (proj2 same)
    | apply agree_bind; [|intros ?]
    | apply agree_catch_runtime; [|intros ?]
    | apply agree_catch_all; [|intros ?]
    | match goal with
      | |- agree (match ?x with _ => _ end) (match ?x with _ => _ end) =>
          destruct x
      end ].

Lemma get_balance_rpc_agree pubkey :
  agree (get_balance_rpc cfg w1 rpc_urls pubkey)
        (get_balance_rpc cfg w2 rpc_urls pubkey).
Proof. unfold get_balance_rpc. agree_steps. Qed.

Lemma fetch_core_agree id :
  agree (fetch_core cfg w1 rpc_urls id) (fetch_core cfg w2 rpc_urls id).
Proof.
  unfold fetch_core, get_vote_accounts_rpc, get_validator_info_cli,
    get_epoch_info_rpc, _get_validator_stake_info_cli, get_cluster_nodes_rpc.
  agree_steps.
Qed.

Lemma fetch_balances_agree identity vote_account :
  agree (fetch_balances cfg w1 rpc_urls identity vote_account)
        (fetch_balances cfg w2 rpc_urls identity vote_account).
Proof.
  unfold fetch_balances.
  repeat (apply agree_bind; [|intros ?]); try apply agree_ret.
  - destruct (String.eqb identity "N/A");
      [apply agree_ret | apply get_balance_rpc_agree].
  - destruct (String.eqb vote_account "N/A");
      [apply agree_ret | apply get_balance_rpc_agree].
Qed.

Lemma calculate_epoch_progress_agree ei :
  agree (_calculate_epoch_progress cfg w1 ei rpc_urls)
        (_calculate_epoch_progress cfg w2 ei rpc_urls).
Proof.
  unfold _calculate_epoch_progress, get_recent_performance_samples_rpc.
  agree_steps.
Qed.

Lemma resolve_leader_slots_agree identity ei :
  agree (resolve_leader_slots cfg w1 rpc_urls identity ei)
        (resolve_leader_slots cfg w2 rpc_urls identity ei).
Proof.
  unfold resolve_leader_slots, get_leader_schedule_rpc, get_block_production_rpc.
  agree_steps.
Qed.

Lemma gather_agree cluster id :
  agree (gather cfg w1 cluster rpc_urls id) (gather cfg w2 cluster rpc_urls id).
Proof.
  unfold gather.
  apply agree_bind; [apply fetch_core_agree|]. intros c.
  destruct (node_details (cluster_nodes_data c) _) as [ver ip].
  apply agree_bind; [apply fetch_balances_agree|]. intros b.
  repeat (apply agree_bind; [apply agree_lift|]; intros ?).
  apply agree_bind; [apply calculate_epoch_progress_agree|]. intros p.
  apply agree_ret.
Qed.

Lemma aggregate_agree cluster id :
  agree (aggregate cfg w1 cluster rpc_urls id)
        (aggregate cfg w2 cluster rpc_urls id).
Proof.
  unfold aggregate.
  apply agree_bind; [apply gather_agree|]. intros p.
  apply agree_bind; [apply resolve_leader_slots_agree|]. intros l.
  apply agree_ret.
Qed.
End SameResponses.

(** C8.  Two runs over the same fixed fetch responses end alike: the same
    record, or no record in both.  The runs may start at different times
    (from different traces) and in different worlds, as long as every
    fetch returns in one what it returns in the other.  The remaining-time
    text is part of the record, and the step that computes it returns the
    same in both runs too. *)
Theorem aggregator_is_deterministic
    (cfg : Config) (w1 w2 : World) (cluster : string) (t1 t2 : Trace) :
  (forall rpc_urls,
      get_rpc_urls cfg cluster = Some rpc_urls ->
      same_fetch_responses cfg w1 w2 rpc_urls) ->
  fst (process_validator_data cfg w1 cluster t1)
  = fst (process_validator_data cfg w2 cluster t2)
  /\ (forall rpc_urls epoch_info,
        get_rpc_urls cfg cluster = Some rpc_urls ->
        fst (_calculate_epoch_progress cfg w1 epoch_info rpc_urls t1)
        = fst (_calculate_epoch_progress cfg w2 epoch_info rpc_urls t2)).
Proof.
  intros Hsame. split.
  - unfold process_validator_data.
    destruct (get_rpc_urls cfg cluster) as [urls|] eqn:Hurls; [|reflexivity].
    destruct (get_validator_identity cfg cluster) as [id|]; [|reflexivity].
    destruct (is_empty urls); [reflexivity|].
    pose proof (aggregate_agree cfg w1 w2 urls (Hsame urls eq_refl) cluster id
                  t1 t2) as Hagg.
    destruct (aggregate cfg w1 cluster urls id t1) as [[r1|e1] t1'],
             (aggregate cfg w2 cluster urls id t2) as [[r2|e2] t2'];
      simpl in Hagg; try discriminate.
    + injection Hagg as ->. reflexivity.
    + injection Hagg as ->. destruct e2; reflexivity.
  - intros urls ei Hurls.
    apply (calculate_epoch_progress_agree cfg w1 w2 urls (Hsame urls Hurls)).
Qed.

(** The healthy cluster and the same cluster with its first endpoint down,
    the second run starting later. *)
Lemma aggregator_is_deterministic_witness :
  fst (process_validator_data sample_config (sample_world [] []) "um" [])
  = fst (process_validator_data sample_config sample_world_failover "um"
                                [EvSleep 5])
  /\ (forall rpc_urls epoch_info,
        get_rpc_urls sample_config "um" = Some rpc_urls ->
        fst (_calculate_epoch_progress sample_config (sample_world [] [])
                                       epoch_info rpc_urls [])
        = fst (_calculate_epoch_progress sample_config sample_world_failover
                                         epoch_info rpc_urls [EvSleep 5])).
Proof.
  apply (aggregator_is_deterministic sample_config (sample_world [] [])
           sample_world_failover "um" [] [EvSleep 5]).
  intros rpc_urls Hurls. injection Hurls as <-. split.
  - intros method params t1 t2. reflexivity.
  - intros command_args t1 t2. simpl.
    destruct (sample_cli command_args); reflexivity.
Defined.

(** * Further properties of the code *)

(** ** The CLI transport *)

Lemma cli_all_failed_cons w command_args tr u tried :
  cli w tr u command_args = CliFailed ->
  cli_all_failed w command_args (tr ++ [EvCli u command_args]) tried ->
  cli_all_failed w command_args tr (u :: tried).
Proof.
  intros Hu Hrest t1 u' t2 Heq. destruct t1 as [|x t1]; simpl in Heq.
  - injection Heq as <- _. simpl. rewrite app_nil_r. exact Hu.
  - injection Heq as <- Heq. specialize (Hrest t1 u' t2 Heq).
    simpl. rewrite <- app_assoc in Hrest. exact Hrest.
Qed.

Lemma cli_all_failed_nil w command_args tr : cli_all_failed w command_args tr [].
Proof. intros t1 u t2 Heq. destruct t1; discriminate. Qed.

(** X1.  The CLI transport makes one pass over the endpoints, in order and
    without a retry or a sleep: it invokes the command on a prefix of the
    list; either every endpoint was tried and failed, and it raises its
    [RuntimeError], or the last endpoint tried is the first that answered,
    and its output is returned with no further endpoint tried. *)
Theorem cli_command_single_pass
    (w : World) (command_args urls : list string) (tr : Trace) :
  exists tried rest,
    urls = tried ++ rest
    /\ snd (_execute_solana_cli_command w command_args urls tr)
       = tr ++ cli_calls command_args tried
    /\ ((rest = []
         /\ cli_all_failed w command_args tr tried
         /\ fst (_execute_solana_cli_command w command_args urls tr)
            = Raise (RuntimeError (MsgCliFailedAll command_args)))
        \/ (exists before u out,
              tried = before ++ [u]
              /\ cli_all_failed w command_args tr before
              /\ cli w (tr ++ cli_calls command_args before) u command_args
                 = CliStdout out
              /\ fst (_execute_solana_cli_command w command_args urls tr)
                 = Ok out)).
Proof.
  revert tr. induction urls as [|u us IH]; intros tr.
  - exists [], []. simpl. rewrite app_nil_r.
    split; [reflexivity|]. split; [reflexivity|]. left.
    split; [reflexivity|]. split; [apply cli_all_failed_nil | reflexivity].
  - simpl. destruct (cli w tr u command_args) as [out|] eqn:Hu.
    + exists [u], us. split; [reflexivity|]. split; [reflexivity|]. right.
      exists [], u, out. simpl. rewrite app_nil_r.
      split; [reflexivity|]. split; [apply cli_all_failed_nil|].
      split; [exact Hu | reflexivity].
    + destruct (IH (tr ++ [EvCli u command_args]))
        as (tried & rest & Hsplit & Htrace & Hcases).
      exists (u :: tried), rest. split; [simpl; congruence|].
      split; [rewrite Htrace, <- app_assoc; reflexivity|].
      destruct Hcases as [(Hrest & Hfail & Hres)
                         | (before & u' & out & Htried & Hfail & Hout & Hres)].
      * left. split; [exact Hrest|].
        split; [apply cli_all_failed_cons; assumption | exact Hres].
      * right. exists (u :: before), u', out.
        split; [simpl; congruence|].
        split; [apply cli_all_failed_cons; assumption|].
        split; [|exact Hres].
        simpl. rewrite <- app_assoc in Hout. exact Hout.
Qed.

(** ** The RPC transport on success *)

Lemma rpc_all_failed_nil w method params tr : rpc_all_failed w method params tr [].
Proof. intros s1 u s2 Heq. destruct s1; discriminate. Qed.

Lemma rpc_all_failed_app w method params tr s s' :
  rpc_all_failed w method params tr s ->
  rpc_all_failed w method params (tr ++ s) s' ->
  rpc_all_failed w method params tr (s ++ s').
Proof.
  intros Hs Hs' s1 u s2 Heq.
  apply app_eq_app in Heq. destruct Heq as [l [[H1 H2] | [H1 H2]]].
  - destruct l as [|e l].
    + simpl in H2. rewrite app_nil_r in H1. subst s.
      specialize (Hs' [] u s2 (eq_sym H2)). rewrite app_nil_r in Hs'. exact Hs'.
    + simpl in H2. injection H2 as <- H2. exact (Hs s1 u l H1).
  - specialize (Hs' l u s2 H2). subst s1. rewrite <- app_assoc in Hs'. exact Hs'.
Qed.

Lemma rpc_all_failed_post w method params tr u :
  endpoint_fails method u (http w tr u method params) = true ->
  rpc_all_failed w method params tr [EvPost u method params].
Proof.
  intros Hu s1 u' s2 Heq. destruct s1 as [|e s1].
  - injection Heq as <- _. simpl. rewrite app_nil_r. exact Hu.
  - injection Heq as _ Heq. destruct s1; discriminate.
Qed.

Lemma rpc_all_failed_sleep w method params tr d :
  rpc_all_failed w method params tr [EvSleep d].
Proof.
  intros s1 u' s2 Heq. destruct s1 as [|e s1].
  - discriminate.
  - injection Heq as _ Heq. destruct s1; discriminate.
Qed.

(** One pass: it falls through after failures only, or returns the result
    of its last post. *)
Lemma try_urls_outcome w method params : forall us last tr,
  match try_urls w method params us last tr with
  | (None, _, tr') =>
      exists s, tr' = tr ++ s /\ rpc_all_failed w method params tr s
  | (Some (Ok r), _, tr') =>
      exists s u,
        tr' = tr ++ s ++ [EvPost u method params]
        /\ In u us
        /\ rpc_all_failed w method params tr s
        /\ rpc_attempt method u (http w (tr ++ s) u method params)
           = AttemptReturn r
  | (Some (Raise _), _, _) => True
  end.
Proof.
  induction us as [|u us IH]; intros last tr; simpl.
  - exists []. rewrite app_nil_r. split; [reflexivity | apply rpc_all_failed_nil].
  - destruct (rpc_attempt method u (http w tr u method params)) as [r|f|e] eqn:Hu.
    + exists [], u. simpl. rewrite app_nil_r.
      split; [reflexivity|]. split; [left; reflexivity|].
      split; [apply rpc_all_failed_nil | exact Hu].
    + assert (Hfail : rpc_all_failed w method params tr [EvPost u method params]).
      { apply rpc_all_failed_post. unfold endpoint_fails. rewrite Hu. reflexivity. }
      specialize (IH (dict_set u f last) (tr ++ [EvPost u method params])).
      destruct (try_urls w method params us (dict_set u f last)
                         (tr ++ [EvPost u method params]))
        as [[[[r|e]|] last'] tr'].
      * destruct IH as (s & u' & Htr & Hin & Hs & Hret).
        exists (EvPost u method params :: s), u'.
        split; [rewrite Htr, <- app_assoc; reflexivity|].
        split; [right; exact Hin|].
        split; [apply (rpc_all_failed_app _ _ _ _ [_] s Hfail Hs)|].
        rewrite <- app_assoc in Hret. exact Hret.
      * exact I.
      * destruct IH as (s & Htr & Hs).
        exists (EvPost u method params :: s).
        split; [rewrite Htr, <- app_assoc; reflexivity|].
        apply (rpc_all_failed_app _ _ _ _ [_] s Hfail Hs).
    + exact I.
Qed.

Lemma attempt_loop_ok w method params urls max_attempts delay :
  forall attempts last tr r tr',
    attempt_loop w method params urls max_attempts delay attempts last tr
      = (Ok r, tr') ->
    exists s u,
      tr' = tr ++ s ++ [EvPost u method params]
      /\ In u urls
      /\ rpc_all_failed w method params tr s
      /\ rpc_attempt method u (http w (tr ++ s) u method params)
         = AttemptReturn r.
Proof.
  induction attempts as [|i rest IH]; intros last tr r tr' Hrun; simpl in Hrun.
  - discriminate.
  - pose proof (try_urls_outcome w method params urls last tr) as Hpass.
    destruct (try_urls w method params urls last tr) as [[[[r1|e1]|] last1] tr1].
    + injection Hrun as <- <-. exact Hpass.
    + discriminate.
    + destruct Hpass as (s1 & -> & Hs1).
      assert (Hnext : forall tr2 s2,
                tr2 = (tr ++ s1) ++ s2 ->
                rpc_all_failed w method params (tr ++ s1) s2 ->
                attempt_loop w method params urls max_attempts delay rest last1 tr2
                  = (Ok r, tr') ->
                exists s u,
                  tr' = tr ++ s ++ [EvPost u method params]
                  /\ In u urls
                  /\ rpc_all_failed w method params tr s
                  /\ rpc_attempt method u (http w (tr ++ s) u method params)
                     = AttemptReturn r).
      { intros tr2 s2 -> Hs2 Hloop.
        destruct (IH _ _ _ _ Hloop) as (s & u & Htr & Hin & Hs & Hret).
        exists (s1 ++ s2 ++ s), u.
        split; [rewrite Htr, <- !app_assoc; reflexivity|].
        split; [exact Hin|].
        split.
        - apply rpc_all_failed_app; [exact Hs1|].
          apply rpc_all_failed_app; [exact Hs2 | exact Hs].
        - rewrite <- ?app_assoc in Hret. rewrite <- ?app_assoc. exact Hret. }
      destruct (Z.of_nat i <? max_attempts - 1).
      * unfold sleep in Hrun. destruct (delay <? 0); [discriminate|].
        apply (Hnext _ [EvSleep delay] eq_refl);
          [apply rpc_all_failed_sleep | exact Hrun].
      * apply (Hnext _ [] (eq_sym (app_nil_r _)));
          [apply rpc_all_failed_nil | exact Hrun].
Qed.

(** X2.  A transport call that returns does so on its first success: the
    value returned is the "result" of the last post it made, every post
    before that one met a recorded failure, and nothing, no post and no
    sleep, follows the successful post. *)
Theorem rpc_request_returns_on_first_success
    (cfg : Config) (w : World) (urls : list string) (method : string)
    (params : list Json) (max_retries_override retry_delay_override : option Z)
    (tr tr' : Trace) (result : Json) :
  _make_rpc_request cfg w urls method params
                    max_retries_override retry_delay_override tr
    = (Ok result, tr') ->
  exists s u,
    tr' = tr ++ s ++ [EvPost u method params]
    /\ In u urls
    /\ rpc_all_failed w method params tr s
    /\ rpc_attempt method u (http w (tr ++ s) u method params)
       = AttemptReturn result.
Proof. unfold _make_rpc_request. apply attempt_loop_ok. Qed.

(** The first endpoint down, the second answering. *)
Lemma rpc_request_returns_on_first_success_witness :
  exists s u,
    [EvPost "https://rpc-a" "getEpochInfo" []; EvPost "https://rpc-b" "getEpochInfo" []]
      = [] ++ s ++ [EvPost u "getEpochInfo" []]
    /\ In u ["https://rpc-a"; "https://rpc-b"]
    /\ rpc_all_failed sample_world_failover "getEpochInfo" [] [] s
    /\ rpc_attempt "getEpochInfo" u
         (http sample_world_failover ([] ++ s) u "getEpochInfo" [])
       = AttemptReturn (sample_result "getEpochInfo").
Proof.
  apply (rpc_request_returns_on_first_success sample_config sample_world_failover
           ["https://rpc-a"; "https://rpc-b"] "getEpochInfo" [] None None []).
  vm_compute. reflexivity.
Defined.

(** ** The consolidated error of the RPC transport *)

Lemma fold_dict_set_head {A} (k : string) (v : A) l : forall d,
  ~ In k (map fst l) ->
  fold_left (fun d kv => dict_set (fst kv) (snd kv) d) l ((k, v) :: d)
  = (k, v) :: fold_left (fun d kv => dict_set (fst kv) (snd kv) d) l d.
Proof.
  induction l as [|[k' v'] l IH]; intros d Hnot; simpl; [reflexivity|].
  destruct (String.eqb_spec k' k) as [->|Hne].
  - exfalso. apply Hnot. left. reflexivity.
  - apply IH. intros Hin. apply Hnot. right. exact Hin.
Qed.

Lemma fold_dict_set_fresh {A} (l : list (string * A)) :
  NoDup (map fst l) ->
  fold_left (fun d kv => dict_set (fst kv) (snd kv) d) l [] = l.
Proof.
  induction l as [|[k v] l IH]; intros Hnd; simpl; [reflexivity|].
  inversion Hnd as [|? ? Hnot Hnd']; subst.
  rewrite fold_dict_set_head by exact Hnot. rewrite IH by exact Hnd'. reflexivity.
Qed.

Lemma fold_dict_set_same_keys {A} (l : list (string * A)) : forall d,
  NoDup (map fst l) -> map fst d = map fst l ->
  fold_left (fun d kv => dict_set (fst kv) (snd kv) d) l d = l.
Proof.
  induction l as [|[k v] l IH]; intros d Hnd Hkeys.
  - destruct d; [reflexivity | discriminate].
  - destruct d as [|[k0 v0] d]; [discriminate|].
    simpl in Hkeys. injection Hkeys as -> Hkeys.
    inversion Hnd as [|? ? Hnot Hnd']; subst.
    simpl. rewrite String.eqb_refl.
    rewrite fold_dict_set_head by exact Hnot. rewrite (IH d Hnd' Hkeys). reflexivity.
Qed.

Section FinalPass.
Variables (w : World) (method : string) (params : list Json) (urls : list string).
Hypothesis all_fail :
  forall h u, In u urls -> endpoint_fails method u (http w h u method params) = true.

Lemma try_urls_records : forall us last tr,
  incl us urls ->
  try_urls w method params us last tr
    = (None,
       fold_left (fun d kv => dict_set (fst kv) (snd kv) d)
                 (pass_failures w method params us tr) last,
       tr ++ full_pass method params us)
  /\ map fst (pass_failures w method params us tr) = us.
Proof.
  induction us as [|u us IH]; intros last tr Hincl; simpl.
  - rewrite app_nil_r. split; reflexivity.
  - assert (Hu : In u urls) by (apply Hincl; left; reflexivity).
    specialize (all_fail tr u Hu). unfold endpoint_fails in all_fail.
    destruct (rpc_attempt method u (http w tr u method params)) as [r|f|e];
      try discriminate.
    destruct (IH (dict_set u f last) (tr ++ [EvPost u method params]))
      as [Hrun Hkeys].
    { intros x Hx. apply Hincl. right. exact Hx. }
    rewrite Hrun, <- app_assoc. simpl. rewrite Hkeys. split; reflexivity.
Qed.

Lemma attempt_loop_final_pass (max_attempts delay : Z) :
  NoDup urls -> 0 <= delay ->
  forall k i last tr,
    Z.of_nat (i + S k) = max_attempts ->
    last = [] \/ map fst last = urls ->
    exists before,
      attempt_loop w method params urls max_attempts delay (seq i (S k)) last tr
      = (Raise (RuntimeError
                  (MsgRpcFailedAll method max_attempts
                     (pass_failures w method params urls (tr ++ before)))),
         (tr ++ before) ++ full_pass method params urls).
Proof.
  intros Hnd Hdelay. induction k as [|k IH]; intros i last tr Hik Hlast.
  - cbn [seq attempt_loop].
    destruct (try_urls_records urls last tr (incl_refl _)) as [Hrun Hkeys].
    rewrite Hrun.
    assert (Hlt : (Z.of_nat i <? max_attempts - 1) = false)
      by (apply Z.ltb_ge; lia).
    rewrite Hlt. exists []. rewrite app_nil_r. repeat f_equal.
    destruct Hlast as [->|Hk].
    + apply fold_dict_set_fresh. rewrite Hkeys. exact Hnd.
    + apply fold_dict_set_same_keys; [rewrite Hkeys; exact Hnd | congruence].
  - change (seq i (S (S k))) with (i :: seq (S i) (S k)).
    cbn [attempt_loop].
    destruct (try_urls_records urls last tr (incl_refl _)) as [Hrun Hkeys].
    rewrite Hrun.
    assert (Hlt : (Z.of_nat i <? max_attempts - 1) = true)
      by (apply Z.ltb_lt; lia).
    assert (Hd : (delay <? 0) = false) by (apply Z.ltb_ge; lia).
    rewrite Hlt. unfold sleep. rewrite Hd.
    destruct (IH (S i)
                 (fold_left (fun d kv => dict_set (fst kv) (snd kv) d)
                            (pass_failures w method params urls tr) last)
                 ((tr ++ full_pass method params urls) ++ [EvSleep delay]))
      as [before Hloop]; [lia | |].
    + right.
      destruct Hlast as [->|Hk].
      * rewrite fold_dict_set_fresh by (rewrite Hkeys; exact Hnd). exact Hkeys.
      * rewrite fold_dict_set_same_keys;
          [exact Hkeys | rewrite Hkeys; exact Hnd | congruence].
    + exists (full_pass method params urls ++ EvSleep delay :: before).
      rewrite Hloop.
      replace (((tr ++ full_pass method params urls) ++ [EvSleep delay]) ++ before)
        with (tr ++ full_pass method params urls ++ EvSleep delay :: before)
        by (rewrite <- !app_assoc; reflexivity).
      reflexivity.
Qed.
End FinalPass.

(** X3.  When every endpoint fails on every try and the endpoints are
    distinct, the consolidated error lists the endpoints in the order of the
    list, each with the failure it met on the final pass: the summary is
    what that last pass, which ends the trace, recorded. *)
Theorem rpc_failure_summary_is_final_pass
    (cfg : Config) (w : World) (urls : list string) (method : string)
    (params : list Json) (tr : Trace) :
  NoDup urls ->
  0 <= get_rpc_max_retries cfg ->
  0 <= get_rpc_retry_delay cfg ->
  (forall h u, In u urls ->
     endpoint_fails method u (http w h u method params) = true) ->
  exists before,
    _make_rpc_request cfg w urls method params None None tr
    = (Raise (RuntimeError
                (MsgRpcFailedAll method (get_rpc_max_retries cfg + 1)
                   (pass_failures w method params urls (tr ++ before)))),
       (tr ++ before) ++ full_pass method params urls).
Proof.
  intros Hnd Hretries Hdelay Hfail. unfold _make_rpc_request.
  destruct (Z.to_nat (get_rpc_max_retries cfg + 1)) as [|k] eqn:Hk; [lia|].
  apply (attempt_loop_final_pass w method params urls Hfail
           (get_rpc_max_retries cfg + 1) (get_rpc_retry_delay cfg) Hnd Hdelay
           k O [] tr); [lia | left; reflexivity].
Qed.

(** Timeouts on the first pass, 503 on the second: the error reports 503. *)
Lemma rpc_failure_summary_is_final_pass_witness :
  exists before,
    _make_rpc_request sample_config world_flaky ["https://rpc-a"; "https://rpc-b"]
                      "getEpochInfo" [] None None []
    = (Raise (RuntimeError
                (MsgRpcFailedAll "getEpochInfo" 2
                   (pass_failures world_flaky "getEpochInfo" []
                      ["https://rpc-a"; "https://rpc-b"] ([] ++ before)))),
       ([] ++ before)
       ++ full_pass "getEpochInfo" [] ["https://rpc-a"; "https://rpc-b"])
    /\ _make_rpc_request sample_config world_flaky ["https://rpc-a"; "https://rpc-b"]
                         "getEpochInfo" [] None None []
       = (Raise (RuntimeError
                   (MsgRpcFailedAll "getEpochInfo" 2
                      [("https://rpc-a", FHTTPError "503 Server Error");
                       ("https://rpc-b", FHTTPError "503 Server Error")])),
          [EvPost "https://rpc-a" "getEpochInfo" [];
           EvPost "https://rpc-b" "getEpochInfo" [];
           EvSleep 5;
           EvPost "https://rpc-a" "getEpochInfo" [];
           EvPost "https://rpc-b" "getEpochInfo" []]).
Proof.
  destruct (rpc_failure_summary_is_final_pass sample_config world_flaky
              ["https://rpc-a"; "https://rpc-b"] "getEpochInfo" [] [])
    as [before Hrun].
  - repeat constructor; simpl; intuition discriminate.
  - simpl. lia.
  - simpl. lia.
  - intros h u _. unfold endpoint_fails, world_flaky. simpl.
    destruct (List.length h <? 3)%nat; reflexivity.
  - exists before. split; [exact Hrun | vm_compute; reflexivity].
Defined.

(** ** Degenerate retry settings *)

(** X4.  With a configured retry count below zero the transport has no
    attempt to make: no endpoint is contacted, the first fetch of a run
    fails at once, and every run ends without a report and without any
    I/O. *)
Theorem negative_retries_no_attempt
    (cfg : Config) (w : World) (cluster : string) (tr : Trace) :
  get_rpc_max_retries cfg < 0 ->
  (forall urls method params,
      _make_rpc_request cfg w urls method params None None tr
      = (Raise (RuntimeError
                  (MsgRpcFailedAll method (get_rpc_max_retries cfg + 1) [])), tr))
  /\ process_validator_data cfg w cluster tr = (NoReport, tr).
Proof.
  intros Hneg.
  assert (Hreq : forall urls method params,
            _make_rpc_request cfg w urls method params None None tr
            = (Raise (RuntimeError
                        (MsgRpcFailedAll method (get_rpc_max_retries cfg + 1) [])),
               tr)).
  { intros urls method params. unfold _make_rpc_request.
    replace (Z.to_nat (get_rpc_max_retries cfg + 1)) with O by lia. reflexivity. }
  split; [exact Hreq|].
  unfold process_validator_data.
  destruct (get_rpc_urls cfg cluster) as [urls|]; [|reflexivity].
  destruct (get_validator_identity cfg cluster) as [id|]; [|reflexivity].
  destruct (is_empty urls); [reflexivity|].
  unfold aggregate, gather, fetch_core, get_vote_accounts_rpc, bind.
  rewrite Hreq. reflexivity.
Qed.

Lemma negative_retries_no_attempt_witness :
  (forall urls method params,
      _make_rpc_request config_negative_retries (sample_world [] []) urls method
                        params None None []
      = (Raise (RuntimeError (MsgRpcFailedAll method (-1 + 1) [])), []))
  /\ process_validator_data config_negative_retries (sample_world [] []) "um" []
     = (NoReport, []).
Proof.
  apply (negative_retries_no_attempt config_negative_retries (sample_world [] [])
           "um" []).
  simpl. lia.
Defined.

(** X5.  With a negative retry delay and a retry left, a first pass in which
    every endpoint fails ends in the [ValueError] of [time.sleep]: the retry
    is never made and the consolidated error is never raised. *)
Theorem negative_delay_raises_value_error
    (cfg : Config) (w : World) (urls : list string) (method : string)
    (params : list Json) (tr : Trace) :
  1 <= get_rpc_max_retries cfg ->
  get_rpc_retry_delay cfg < 0 ->
  (forall h u, In u urls ->
     endpoint_fails method u (http w h u method params) = true) ->
  _make_rpc_request cfg w urls method params None None tr
  = (Raise ValueError, tr ++ full_pass method params urls).
Proof.
  intros Hretries Hdelay Hfail. unfold _make_rpc_request.
  destruct (Z.to_nat (get_rpc_max_retries cfg + 1)) as [|k] eqn:Hk; [lia|].
  cbn [seq attempt_loop].
  destruct (try_urls_all_fail w method params urls Hfail urls [] tr (incl_refl _))
    as (last' & Hrun & _).
  rewrite Hrun.
  assert (Hlt : (Z.of_nat 0 <? get_rpc_max_retries cfg + 1 - 1) = true)
    by (apply Z.ltb_lt; simpl; lia).
  assert (Hd : (get_rpc_retry_delay cfg <? 0) = true) by (apply Z.ltb_lt; lia).
  rewrite Hlt. unfold sleep. rewrite Hd. reflexivity.
Qed.

Lemma negative_delay_raises_value_error_witness :
  _make_rpc_request config_negative_delay world_down
                    ["https://rpc-a"; "https://rpc-b"] "getEpochInfo" [] None None []
  = (Raise ValueError,
     [] ++ full_pass "getEpochInfo" [] ["https://rpc-a"; "https://rpc-b"]).
Proof.
  apply (negative_delay_raises_value_error config_negative_delay world_down
           ["https://rpc-a"; "https://rpc-b"] "getEpochInfo" [] []).
  - simpl. lia.
  - simpl. lia.
  - intros h u _. reflexivity.
Defined.

(** ** The calculators *)

Lemma sum_Z_perm (l1 l2 : list Z) : Permutation l1 l2 -> sum_Z l1 = sum_Z l2.
Proof.
  induction 1 as [|x l l' _ IH|x y l|l l' l'' _ IH1 _ IH2].
  - reflexivity.
  - rewrite !sum_Z_cons, IH. reflexivity.
  - rewrite !sum_Z_cons. lia.
  - congruence.
Qed.

Lemma stake_lamports_totals (l : list StakeAccount) :
  stake_lamports l
  = {| total_active_stake_lamports :=
         sum_Z (map (fun a => default 0 (activeStake a)) l);
       total_delegated_stake_lamports :=
         sum_Z (map (fun a => default 0 (delegatedStake a)) l);
       total_activating_stake_lamports := sum_Z (map activating_of l);
       total_deactivating_stake_lamports :=
         sum_Z (map (fun a => default 0 (deactivatingStake a)) l) |}.
Proof.
  unfold stake_lamports.
  destruct (stake_fold l
              {| total_active_stake_lamports := 0; total_delegated_stake_lamports := 0;
                 total_activating_stake_lamports := 0;
                 total_deactivating_stake_lamports := 0 |})
    as (H1 & H2 & H3 & H4).
  simpl in H1, H2, H3, H4.
  destruct (fold_left stake_step l _) as [a d g x]. simpl in *. congruence.
Qed.

(** X6.  The stake snapshot does not depend on the order in which
    [solana stakes] lists the accounts: two lists with the same accounts in
    any order give the same five figures. *)
Theorem stake_metrics_order_independent (l1 l2 : list StakeAccount) :
  Permutation l1 l2 ->
  _calculate_stake_metrics_from_data l1 = _calculate_stake_metrics_from_data l2.
Proof.
  intros Hperm.
  assert (Ht : stake_lamports l1 = stake_lamports l2).
  { rewrite !stake_lamports_totals.
    rewrite (sum_Z_perm _ _ (Permutation_map (fun a => default 0 (activeStake a)) Hperm)).
    rewrite (sum_Z_perm _ _ (Permutation_map (fun a => default 0 (delegatedStake a)) Hperm)).
    rewrite (sum_Z_perm _ _ (Permutation_map activating_of Hperm)).
    rewrite (sum_Z_perm _ _
               (Permutation_map (fun a => default 0 (deactivatingStake a)) Hperm)).
    reflexivity. }
  destruct l1 as [|a1 l1], l2 as [|a2 l2].
  - reflexivity.
  - apply Permutation_nil in Hperm. discriminate.
  - apply Permutation_sym, Permutation_nil in Hperm. discriminate.
  - cbn [_calculate_stake_metrics_from_data]. rewrite Ht. reflexivity.
Qed.

Lemma stake_metrics_order_independent_witness :
  _calculate_stake_metrics_from_data sample_stake_data
  = _calculate_stake_metrics_from_data (rev sample_stake_data).
Proof.
  apply (stake_metrics_order_independent sample_stake_data (rev sample_stake_data)).
  apply Permutation_rev.
Defined.

Lemma sum_Z_ge_0 (l : list Z) : Forall (fun x => 0 <= x) l -> 0 <= sum_Z l.
Proof.
  induction 1 as [|x l Hx _ IH]; [unfold sum_Z; simpl; lia|].
  rewrite sum_Z_cons. lia.
Qed.

Lemma sum_Z_le {A} (f g : A -> Z) (l : list A) :
  (forall a, f a <= g a) -> sum_Z (map f l) <= sum_Z (map g l).
Proof.
  intros Hfg. induction l as [|a l IH]; simpl; [lia|].
  rewrite !sum_Z_cons. specialize (Hfg a). lia.
Qed.

Lemma sum_Z_sub {A} (f g : A -> Z) (l : list A) :
  sum_Z (map (fun a => f a - g a) l) = sum_Z (map f l) - sum_Z (map g l).
Proof.
  induction l as [|a l IH]; simpl; [reflexivity|].
  rewrite !sum_Z_cons, IH. lia.
Qed.

(** X7.  The activating total is never negative and never below the
    delegated total less the active total: an account with more active
    than delegated stake adds nothing and takes nothing away.  The active
    and delegated totals are the plain sums, a missing field counting 0. *)
Theorem stake_activating_total_bounds (stake_data : list StakeAccount) :
  let t := stake_lamports stake_data in
  total_active_stake_lamports t
    = sum_Z (map (fun a => default 0 (activeStake a)) stake_data)
  /\ total_delegated_stake_lamports t
    = sum_Z (map (fun a => default 0 (delegatedStake a)) stake_data)
  /\ 0 <= total_activating_stake_lamports t
  /\ total_delegated_stake_lamports t - total_active_stake_lamports t
     <= total_activating_stake_lamports t.
Proof.
  intros t. subst t. rewrite stake_lamports_totals. simpl.
  split; [reflexivity|]. split; [reflexivity|]. split.
  - apply sum_Z_ge_0. apply Forall_forall. intros x Hx.
    apply in_map_iff in Hx. destruct Hx as (a & <- & _). unfold activating_of. lia.
  - rewrite <- (sum_Z_sub (fun a => default 0 (delegatedStake a))
                          (fun a => default 0 (activeStake a))).
    apply sum_Z_le. intros a. unfold activating_of. lia.
Qed.

(** ** The average slot time *)

Lemma sum_slots_positive (l : list PerformanceSample) :
  l <> [] -> Forall (fun s => valid_sample s = true) l ->
  0 < sum_Z (map (fun s => default 0 (numSlots s)) l).
Proof.
  intros Hne Hall. destruct l as [|s l]; [congruence|].
  inversion Hall as [|? ? Hs Hl]; subst. simpl map. rewrite sum_Z_cons.
  assert (0 <= sum_Z (map (fun s => default 0 (numSlots s)) l)).
  { apply sum_Z_ge_0. apply Forall_forall. intros x Hx.
    apply in_map_iff in Hx. destruct Hx as (a & <- & Ha).
    rewrite Forall_forall in Hl. specialize (Hl a Ha).
    unfold valid_sample in Hl. apply andb_prop in Hl. lia. }
  unfold valid_sample in Hs. apply andb_prop in Hs. lia.
Qed.

Lemma filter_all_valid (l : list PerformanceSample) :
  Forall (fun s => valid_sample s = true) (filter valid_sample l).
Proof.
  apply Forall_forall. intros s Hs. apply filter_In in Hs. apply Hs.
Qed.

Lemma filter_idem {A} (f : A -> bool) (l : list A) :
  filter f (filter f l) = filter f l.
Proof.
  induction l as [|a l IH]; simpl; [reflexivity|].
  destruct (f a) eqn:Hfa; simpl; [rewrite Hfa, IH|]; auto.
Qed.

(** X8.  As soon as one sample has a positive [numSlots] and a
    [samplePeriodSecs], the average slot time is the summed period of such
    samples over their summed slots, which is positive: the samples that
    fail the test are ignored, the division never fails on a zero, and the
    fallback for a zero slot total is never taken. *)
Theorem average_slot_time_over_valid_samples
    (performance_samples : list PerformanceSample) :
  filter valid_sample performance_samples <> [] ->
  let valid_samples := filter valid_sample performance_samples in
  0 < sum_Z (map (fun s => default 0 (numSlots s)) valid_samples)
  /\ average_slot_time performance_samples
     = int_truediv (sum_Z (map (fun s => default 0 (samplePeriodSecs s)) valid_samples))
                   (sum_Z (map (fun s => default 0 (numSlots s)) valid_samples))
  /\ average_slot_time performance_samples <> Raise ZeroDivisionError
  /\ average_slot_time performance_samples = average_slot_time valid_samples.
Proof.
  intros Hne. cbv zeta.
  assert (Hpos : 0 < sum_Z (map (fun s => default 0 (numSlots s))
                                (filter valid_sample performance_samples)))
    by (apply sum_slots_positive; [exact Hne | apply filter_all_valid]).
  remember (filter valid_sample performance_samples) as valid_samples eqn:Hvs.
  assert (Hgt : (sum_Z (map (fun s => default 0 (numSlots s)) valid_samples) >? 0) = true)
    by (apply Z.gtb_lt; lia).
  assert (Havg : forall l, filter valid_sample l = valid_samples ->
            average_slot_time l
            = int_truediv
                (sum_Z (map (fun s => default 0 (samplePeriodSecs s)) valid_samples))
                (sum_Z (map (fun s => default 0 (numSlots s)) valid_samples))).
  { intros l Hl. unfold average_slot_time.
    destruct l as [|s l]; [simpl in Hl; congruence|].
    rewrite Hl. destruct valid_samples as [|v vs]; [congruence|].
    rewrite Hgt. reflexivity. }
  split; [exact Hpos|]. split; [apply Havg; symmetry; exact Hvs|]. split.
  - rewrite (Havg performance_samples (eq_sym Hvs)). unfold int_truediv.
    destruct (sum_Z (map (fun s => default 0 (numSlots s)) valid_samples) =? 0) eqn:Hz;
      [apply Z.eqb_eq in Hz; lia|].
    destruct (sum_Z (map (fun s => default 0 (samplePeriodSecs s)) valid_samples) =? 0);
      [discriminate|].
    destruct (SFdiv_core_binary _ _ _ _ _ _) as [[mz ez] lz].
    destruct (binary_round_aux _ _ _ _ _ _); discriminate.
  - rewrite (Havg performance_samples (eq_sym Hvs)).
    symmetry. apply Havg. rewrite Hvs. apply filter_idem.
Qed.

(** Ten seconds for five slots, and a sample without slots: 2.0 seconds. *)
Lemma average_slot_time_over_valid_samples_witness :
  average_slot_time sample_performance = int_truediv 10 5
  /\ average_slot_time sample_performance
     = Ok (S754_finite false 4503599627370496 (-51)).
Proof.
  destruct (average_slot_time_over_valid_samples sample_performance)
    as (_ & Havg & _).
  - simpl. discriminate.
  - split; [exact Havg | vm_compute; reflexivity].
Defined.

(** ** The fields of the record *)

(** What [gather] puts in the remaining fields of the record. *)
Lemma gather_ok_fields cfg w cluster rpc_urls id tr r0 ei tr1 :
  gather cfg w cluster rpc_urls id tr = (Ok (r0, ei), tr1) ->
  exists c tr0,
    fetch_core cfg w rpc_urls id tr = (Ok c, tr0)
    /\ cluster_shorthand r0 = cluster
    /\ validator_name r0 = resolve_name (validator_infos_list c) (identity_pubkey r0)
    /\ (validator_version r0, validator_ip r0)
       = node_details (cluster_nodes_data c) (identity_pubkey r0)
    /\ current_epoch r0
       = match epoch (epoch_info_data c) with Some e => IntVal e | None => IntNA end
    /\ stake_metrics r0 = stake_metrics_of_core c.
Proof.
  unfold gather. intros H.
  apply bind_ok in H. destruct H as (c & tr0 & Hc & H).
  destruct (node_details (cluster_nodes_data c) _) as [ver ip] eqn:Hnode.
  apply bind_ok in H. destruct H as (b & tr2 & Hb & H).
  apply bind_ok in H. destruct H as (ib & tr3 & Hib & H).
  apply lift_ok in Hib. destruct Hib as [Hib ->].
  apply bind_ok in H. destruct H as (vb & tr4 & Hvb & H).
  apply lift_ok in Hvb. destruct Hvb as [Hvb ->].
  apply bind_ok in H. destruct H as (st & tr5 & Hst & H).
  apply lift_ok in Hst. destruct Hst as [Hst ->].
  apply bind_ok in H. destruct H as ([pc tl] & tr6 & Hpg & H).
  apply ret_ok in H. destruct H as [Hpair ->]. injection Hpair as -> ->.
  exists c, tr0. cbn.
  split; [exact Hc|]. split; [reflexivity|]. split; [reflexivity|].
  split; [symmetry; exact Hnode|]. split; reflexivity.
Qed.

(** The fields of a reported record, but for the leader slots, are those
    [gather] set. *)
Lemma report_fields cfg w cluster tr r tr' :
  process_validator_data cfg w cluster tr = (Report r, tr') ->
  exists rpc_urls id r0 ei tr1 l,
    get_rpc_urls cfg cluster = Some rpc_urls
    /\ get_validator_identity cfg cluster = Some id
    /\ gather cfg w cluster rpc_urls id tr = (Ok (r0, ei), tr1)
    /\ resolve_leader_slots cfg w rpc_urls (identity_pubkey r0) ei tr1 = (Ok l, tr')
    /\ r = set_leader_slots r0 l.
Proof.
  intros Hrun.
  destruct (process_validator_data_report _ _ _ _ _ _ Hrun)
    as (urls & id & Hurls & Hid & _ & Hagg).
  destruct (aggregate_ok _ _ _ _ _ _ _ _ Hagg)
    as (r0 & ei & tr1 & l & Hg & Hl & Hr).
  exists urls, id, r0, ei, tr1, l. auto.
Qed.

Lemma append_dots_not_blank (s : string) :
  (s ++ "...")%string <> "" /\ (s ++ "...")%string <> "null".
Proof.
  destruct s as [|c1 s]; simpl; [split; discriminate|].
  split; [discriminate|]. intros H. injection H as _ H.
  destruct s as [|c2 s]; simpl in H; [discriminate|]. injection H as _ H.
  destruct s as [|c3 s]; simpl in H; [discriminate|]. injection H as _ H.
  destruct s as [|c4 s]; simpl in H; [discriminate|]. injection H as _ H.
  destruct s; discriminate.
Qed.

Lemma resolve_name_not_blank (l : list ValidatorInfo) (identity : string) :
  resolve_name l identity <> "" /\ resolve_name l identity <> "null".
Proof.
  unfold resolve_name.
  destruct (find (is_validator_info identity) l) as [vi|];
    [|apply append_dots_not_blank].
  destruct (String.eqb_spec
              match info vi with Some (Some n) => n | _ => "Unknown" end "null")
    as [Hnull|Hnull]; [apply append_dots_not_blank|].
  destruct (String.eqb_spec
              match info vi with Some (Some n) => n | _ => "Unknown" end "")
    as [Hempty|Hempty]; [apply append_dots_not_blank|].
  simpl. split; assumption.
Qed.

(** X9.  The name a record carries is never empty and never the text
    "null": a missing entry, a missing or empty name and the literal "null"
    all give way to the shortened key followed by three dots (or to
    "Unknown"), whatever [validator-info get] printed. *)
Theorem reported_name_never_blank
    (cfg : Config) (w : World) (cluster : string) (tr tr' : Trace)
    (r : StatusRecord) :
  process_validator_data cfg w cluster tr = (Report r, tr') ->
  validator_name r <> "" /\ validator_name r <> "null".
Proof.
  intros Hrun.
  destruct (report_fields _ _ _ _ _ _ Hrun)
    as (urls & id & r0 & ei & tr1 & l & _ & _ & Hg & _ & ->).
  destruct (gather_ok_fields _ _ _ _ _ _ _ _ _ Hg)
    as (c & tr0 & _ & _ & Hname & _).
  cbn [set_leader_slots validator_name]. rewrite Hname.
  apply resolve_name_not_blank.
Qed.

Lemma reported_name_never_blank_witness :
  validator_name (report_of run_healthy) <> ""
  /\ validator_name (report_of run_healthy) <> "null".
Proof.
  apply (reported_name_never_blank sample_config (sample_world [] []) "um" []
           (snd run_healthy) (report_of run_healthy)).
  vm_compute. reflexivity.
Defined.

Lemma before_colon_no_colon (s : string) :
  ~ In ":"%char (list_ascii_of_string (before_colon s)).
Proof.
  induction s as [|c s IH]; simpl; [tauto|].
  destruct (Ascii.eqb_spec c ":") as [->|Hne]; simpl; [tauto|].
  intros [H|H]; [congruence | exact (IH H)].
Qed.

Lemma node_details_ip_no_colon (l : list ClusterNode) (identity : string) :
  ~ In ":"%char (list_ascii_of_string (snd (node_details l identity))).
Proof.
  assert (Hna : ~ In ":"%char (list_ascii_of_string "N/A")).
  { simpl. intros [H|[H|[H|H]]]; try discriminate. exact H. }
  unfold node_details.
  destruct (find (is_cluster_node identity) l) as [node_info|]; [|exact Hna].
  cbn [snd]. destruct (gossip node_info) as [g|]; [|exact Hna].
  destruct (String.eqb g ""); [exact Hna | apply before_colon_no_colon].
Qed.

(** X10.  The address a record carries holds no colon: it is the gossip
    address cut at its first colon, or "N/A". *)
Theorem reported_ip_has_no_port
    (cfg : Config) (w : World) (cluster : string) (tr tr' : Trace)
    (r : StatusRecord) :
  process_validator_data cfg w cluster tr = (Report r, tr') ->
  ~ In ":"%char (list_ascii_of_string (validator_ip r)).
Proof.
  intros Hrun.
  destruct (report_fields _ _ _ _ _ _ Hrun)
    as (urls & id & r0 & ei & tr1 & l & _ & _ & Hg & _ & ->).
  destruct (gather_ok_fields _ _ _ _ _ _ _ _ _ Hg)
    as (c & tr0 & _ & _ & _ & Hnode & _).
  cbn [set_leader_slots validator_ip].
  replace (validator_ip r0)
    with (snd (node_details (cluster_nodes_data c) (identity_pubkey r0)))
    by (rewrite <- Hnode; reflexivity).
  apply node_details_ip_no_colon.
Qed.

(** The healthy cluster gossips from "10.0.0.2:8001"; the record says
    "10.0.0.2". *)
Lemma reported_ip_has_no_port_witness :
  ~ In ":"%char (list_ascii_of_string (validator_ip (report_of run_healthy)))
  /\ validator_ip (report_of run_healthy) = "10.0.0.2".
Proof.
  split; [|vm_compute; reflexivity].
  apply (reported_ip_has_no_port sample_config (sample_world [] []) "um" []
           (snd run_healthy) (report_of run_healthy)).
  vm_compute. reflexivity.
Defined.

(** ** The rank and the missed credits *)

Lemma assign_ranks_credits l : forall i,
  map credits_earned (assign_ranks i l) = map credits_earned l.
Proof.
  induction l as [|v l IH]; intros i; simpl; [reflexivity|].
  rewrite IH. reflexivity.
Qed.

(** The top entry earned at least as much as any ranked entry. *)
Lemma rank_validators_top processed top rest v :
  rank_validators processed = top :: rest ->
  In v (rank_validators processed) ->
  credits_earned v <= credits_earned top.
Proof.
  unfold rank_validators.
  set (sorted := sorted_desc credits_earned
                   (filter (fun v => credits_earned v >? 0) processed)).
  intros Htop Hin.
  pose proof (sorted_desc_sorted credits_earned
                (filter (fun v => credits_earned v >? 0) processed)) as Hs.
  fold sorted in Hs.
  pose proof (assign_ranks_credits sorted 0) as Hmap. rewrite Htop in Hmap.
  apply (in_map credits_earned) in Hin. rewrite Htop in Hin.
  rewrite Hmap in Hin.
  destruct sorted as [|t s]; [discriminate|].
  simpl in Hmap. injection Hmap as Ht _. rewrite Ht.
  inversion Hs as [|? ? _ Hall]; subst.
  simpl in Hin. destruct Hin as [<-|Hin]; [lia|].
  apply in_map_iff in Hin. destruct Hin as (x & <- & Hx).
  rewrite Forall_forall in Hall. specialize (Hall x Hx). simpl in Hall. lia.
Qed.

(** A ranked entry has a rank from 1 on, and rank 1 only at the top. *)
Lemma rank_validators_rank processed v k :
  In v (rank_validators processed) -> rank_key v = Some (IntVal k) ->
  1 <= k <= len (rank_validators processed)
  /\ (k = 1 -> exists rest, rank_validators processed = v :: rest).
Proof.
  unfold rank_validators.
  set (sorted := sorted_desc credits_earned
                   (filter (fun v => credits_earned v >? 0) processed)).
  intros Hin Hk. apply In_nth_error in Hin. destruct Hin as [n Hn].
  assert (Hlt : (n < List.length (assign_ranks 0 sorted))%nat)
    by (apply nth_error_Some; congruence).
  pose proof Hn as Hn'. rewrite assign_ranks_nth in Hn'.
  destruct (nth_error sorted n) as [x|] eqn:Hx; [|discriminate].
  simpl in Hn'. injection Hn' as <-. simpl in Hk. injection Hk as <-.
  unfold len. split; [lia|].
  intros H1. assert (n = 0)%nat by lia. subst n.
  destruct (assign_ranks 0 sorted) as [|y rest]; [discriminate|].
  simpl in Hn. injection Hn as ->. exists rest. reflexivity.
Qed.

(** X11.  In a record, the missed credits are never a negative number; a
    numeric rank is at least 1 and goes with positive credits earned; and
    the record of the validator of rank 1 misses 0 credits. *)
Theorem reported_missed_credits_nonnegative
    (cfg : Config) (w : World) (cluster : string) (tr tr' : Trace)
    (r : StatusRecord) :
  process_validator_data cfg w cluster tr = (Report r, tr') ->
  (forall m, missed_credits r = IntVal m -> 0 <= m)
  /\ (forall k, rank r = IntVal k ->
        1 <= k /\ exists c, epoch_credits r = IntVal c /\ 0 < c)
  /\ (rank r = IntVal 1 -> missed_credits r = IntVal 0).
Proof.
  intros Hrun.
  destruct (report_fields _ _ _ _ _ _ Hrun)
    as (urls & id & r0 & ei & tr1 & l & _ & _ & Hg & _ & ->).
  destruct (gather_ok _ _ _ _ _ _ _ _ _ Hg)
    as (c & tr0 & tr2 & b & _ & _ & Hrank & _ & _ & Hcred & Hmiss & _).
  cbn [set_leader_slots missed_credits rank epoch_credits].
  set (processed := processed_validators_of (vote_accounts_data c)
                                            (epoch_info_data c)) in *.
  set (ranked := rank_validators processed) in *.
  assert (Hproc : forall v, In v processed ->
                    exists x, currentEpochCreditsEarned v = Some x).
  { intros v Hv. unfold processed, processed_validators_of in Hv.
    apply in_map_iff in Hv. destruct Hv as (v0 & <- & _).
    apply process_validator_credits. }
  assert (Htoppos : forall top rest, ranked = top :: rest -> 0 < credits_earned top).
  { intros top rest Htop.
    assert (Hin : In top ranked) by (rewrite Htop; left; reflexivity).
    destruct (rank_validators_in _ _ Hin) as (v0 & n & _ & Hpos & ->).
    rewrite credits_earned_set_rank. lia. }
  assert (Hmissed : forall own,
            epoch_credits r0 = IntVal own ->
            (forall top rest, ranked = top :: rest -> own <= credits_earned top) ->
            forall m, missed_credits r0 = IntVal m -> 0 <= m).
  { intros own Hown Hle m Hm. rewrite Hmiss, Hown in Hm.
    unfold missed_credits_of, credits_earned_rank_1_of in Hm.
    destruct ranked as [|top rest] eqn:Hr.
    - simpl in Hm. destruct (own >=? 0); simpl in Hm;
        [|destruct (is_NA _); discriminate].
      injection Hm as <-. lia.
    - specialize (Hle top rest eq_refl). specialize (Htoppos top rest eq_refl).
      assert (Hgt : (credits_earned top >? 0) = true) by (apply Z.gtb_lt; lia).
      rewrite !Hgt in Hm. injection Hm as <-. lia. }
  destruct (locate_validator_cases ranked processed id)
    as [(v & Hin & Hnode & Heq) | [(v & Hin & Hnode & Heq) | (Hnone & Heq)]];
    rewrite Heq in Hrank, Hcred.
  - (* the target is ranked *)
    destruct (rank_validators_in _ _ Hin) as (v0 & n & Hv0 & Hpos & Hv).
    destruct (Hproc v0 Hv0) as [own Hown].
    assert (Hcv : credits_earned v = own)
      by (rewrite Hv, credits_earned_set_rank; unfold credits_earned;
          rewrite Hown; reflexivity).
    assert (Hrk : rank_key v = Some (IntVal n)) by (rewrite Hv; reflexivity).
    assert (Hown' : epoch_credits r0 = IntVal own).
    { rewrite Hcred. unfold epoch_credits_of. rewrite Hv. simpl. rewrite Hown.
      reflexivity. }
    rewrite Hrk in Hrank. cbn [default] in Hrank.
    destruct (rank_validators_rank processed v n Hin Hrk) as [Hbounds Hone].
    split; [|split].
    + apply (Hmissed own Hown'). intros top rest Htop.
      rewrite <- Hcv. apply (rank_validators_top processed top rest v Htop Hin).
    + intros k Hk. rewrite Hrank in Hk. injection Hk as <-.
      split; [lia|]. exists own. split; [exact Hown'|].
      unfold credits_earned in Hpos. rewrite Hown in Hpos. simpl in Hpos. lia.
    + intros H1. rewrite Hrank in H1. injection H1 as ->.
      destruct (Hone eq_refl) as [rest Htop]. fold ranked in Htop.
      rewrite Hmiss, Hown', Htop. unfold missed_credits_of, credits_earned_rank_1_of.
      assert (Hgt : (credits_earned v >? 0) = true)
        by (apply Z.gtb_lt; specialize (Htoppos v rest Htop); lia).
      rewrite !Hgt, Hcv. f_equal. lia.
  - (* the target is among the unranked *)
    destruct (Hproc v Hin) as [own Hown].
    assert (Hown' : epoch_credits r0 = IntVal own).
    { rewrite Hcred. unfold epoch_credits_of. simpl. rewrite Hown. reflexivity. }
    simpl in Hrank.
    split; [|split; intros; congruence].
    apply (Hmissed own Hown'). intros top rest Htop.
    destruct (Z_le_gt_dec own 0) as [Hle|Hgt];
      [specialize (Htoppos top rest Htop); lia|].
    (* with positive credits the target would have been ranked *)
    exfalso.
    assert (Hf : In v (filter (fun v => credits_earned v >? 0) processed)).
    { apply filter_In. split; [exact Hin|]. unfold credits_earned. rewrite Hown.
      simpl. apply Z.gtb_lt. lia. }
    apply (Permutation_in _ (Permutation_sym (sorted_desc_perm credits_earned _)))
      in Hf.
    apply In_nth_error in Hf. destruct Hf as [n Hn].
    assert (Hr : nth_error ranked n = Some (set_rank (IntVal (0 + Z.of_nat n + 1)) v)).
    { unfold ranked, rank_validators. rewrite assign_ranks_nth, Hn. reflexivity. }
    apply nth_error_In in Hr.
    assert (Hnode' : is_node id (set_rank (IntVal (0 + Z.of_nat n + 1)) v) = true)
      by exact Hnode.
    assert (Hfind : find (is_node id) ranked <> None).
    { intros Hnone. exact (eq_true_false_abs _ Hnode' (find_none _ _ Hnone _ Hr)). }
    revert Heq. unfold locate_validator.
    destruct ranked as [|r1 rs] eqn:Hranked; [contradiction|].
    rewrite <- Hranked in *.
    destruct (find (is_node id) ranked) as [vr|] eqn:Hfr; [|congruence].
    intros Heq.
    apply find_some in Hfr. destruct Hfr as [Hvr _].
    destruct (rank_validators_in _ _ Hvr) as (v1 & n1 & _ & _ & Hv1).
    rewrite Hv1 in Heq. apply (f_equal rank_key) in Heq. discriminate.
  - (* the placeholder *)
    assert (Hown' : epoch_credits r0 = IntVal 0)
      by (rewrite Hcred; reflexivity).
    simpl in Hrank.
    split; [|split; intros; congruence].
    apply (Hmissed 0 Hown'). intros top rest Htop.
    specialize (Htoppos top rest Htop). lia.
Qed.

(** The healthy cluster watched from "um": "idx2" earned 100 of the top
    entry's 100 and ranks first. *)
Lemma reported_missed_credits_nonnegative_witness :
  ((forall m, missed_credits (report_of run_healthy) = IntVal m -> 0 <= m)
   /\ (forall k, rank (report_of run_healthy) = IntVal k ->
         1 <= k /\ exists c, epoch_credits (report_of run_healthy) = IntVal c /\ 0 < c)
   /\ (rank (report_of run_healthy) = IntVal 1 ->
       missed_credits (report_of run_healthy) = IntVal 0))
  /\ rank (report_of run_healthy) = IntVal 1.
Proof.
  split; [|vm_compute; reflexivity].
  apply (reported_missed_credits_nonnegative sample_config (sample_world [] []) "um"
           [] (snd run_healthy) (report_of run_healthy)).
  vm_compute. reflexivity.
Defined.




(** ** The leader-slot figures *)

Lemma len_nonneg {A} (l : list A) : 0 <= len l.
Proof. unfold len. lia. Qed.

Lemma resolve_leader_slots_counts cfg w rpc_urls identity ei tr l tr' :
  resolve_leader_slots cfg w rpc_urls identity ei tr = (Ok l, tr') ->
  leader_slots_total l = leader_slots_completed l + leader_slots_upcoming l
  /\ 0 <= leader_slots_completed l
  /\ 0 <= leader_slots_upcoming l
  /\ (leader_slots_completed l = 0 ->
      leader_slots_skipped l = 0 /\ leader_skip_rate l = f_zero).
Proof.
  assert (Hzero : forall l0, l0 = no_leader_slots ->
            leader_slots_total l0 = leader_slots_completed l0 + leader_slots_upcoming l0
            /\ 0 <= leader_slots_completed l0
            /\ 0 <= leader_slots_upcoming l0
            /\ (leader_slots_completed l0 = 0 ->
                leader_slots_skipped l0 = 0 /\ leader_skip_rate l0 = f_zero)).
  { intros l0 ->. simpl. repeat split; lia. }
  unfold resolve_leader_slots. intros H.
  destruct (String.eqb identity "N/A").
  { apply ret_ok in H. destruct H as [-> _]. apply Hzero. reflexivity. }
  unfold catch_runtime at 1 in H.
  match type of H with
  | match ?c tr with _ => _ end = _ => destruct (c tr) as [[l0|e] t] eqn:Hb
  end.
  2:{ destruct e; try discriminate.
      apply ret_ok in H. destruct H as [-> _]. apply Hzero. reflexivity. }
  injection H as -> ->.
  apply bind_ok in Hb. destruct Hb as (d & tr1 & _ & Hb).
  apply bind_ok in Hb. destruct Hb as (slots & tr2 & _ & Hb).
  pose proof (filter_len_le (fun s => s <=? default 0 (slotIndex ei)) slots) as Hle.
  pose proof (len_nonneg (filter (fun s => s <=? default 0 (slotIndex ei)) slots))
    as Hge.
  cbv zeta in Hb.
  destruct (len slots >? 0).
  2:{ apply ret_ok in Hb. destruct Hb as [-> _]. apply Hzero. reflexivity. }
  destruct (len (filter (fun s => s <=? default 0 (slotIndex ei)) slots) >? 0)
    eqn:Hdone.
  2:{ cbn [andb] in Hb. apply ret_ok in Hb. destruct Hb as [-> _]. simpl.
      repeat split; lia. }
  assert (Hpos : 0 < len (filter (fun s => s <=? default 0 (slotIndex ei)) slots))
    by (apply Z.gtb_lt in Hdone; lia).
  cbn [andb] in Hb.
  destruct (default 0 (absoluteSlot ei) - default 0 (slotIndex ei)
            <? default 0 (absoluteSlot ei)).
  2:{ apply ret_ok in Hb. destruct Hb as [-> _]. simpl. repeat split; lia. }
  unfold catch_runtime in Hb.
  match type of Hb with
  | match ?c tr2 with _ => _ end = _ => destruct (c tr2) as [[l1|e] t] eqn:Hbp
  end.
  2:{ destruct e; try discriminate.
      apply ret_ok in Hb. destruct Hb as [-> _]. simpl. repeat split; lia. }
  injection Hb as -> ->.
  apply bind_ok in Hbp. destruct Hbp as (bp & tr3 & _ & Hbp).
  apply bind_ok in Hbp. destruct Hbp as (stats & tr4 & _ & Hbp).
  assert (Hcounted : forall skipped rate,
            l = {| leader_slots_total := len slots;
                   leader_slots_completed :=
                     len (filter (fun s => s <=? default 0 (slotIndex ei)) slots);
                   leader_slots_upcoming :=
                     len slots
                     - len (filter (fun s => s <=? default 0 (slotIndex ei)) slots);
                   leader_slots_skipped := skipped; leader_skip_rate := rate |} ->
            leader_slots_total l = leader_slots_completed l + leader_slots_upcoming l
            /\ 0 <= leader_slots_completed l
            /\ 0 <= leader_slots_upcoming l
            /\ (leader_slots_completed l = 0 ->
                leader_slots_skipped l = 0 /\ leader_skip_rate l = f_zero)).
  { intros skipped rate ->. simpl. repeat split; lia. }
  destruct stats as [[|a [|b [|c0 rest]]]|];
    try (apply ret_ok in Hbp; destruct Hbp as [-> _]; eapply Hcounted; reflexivity).
  destruct (a >? 0).
  - apply bind_ok in Hbp. destruct Hbp as (q & tr5 & _ & Hbp).
    apply ret_ok in Hbp. destruct Hbp as [-> _]. eapply Hcounted; reflexivity.
  - apply ret_ok in Hbp. destruct Hbp as [-> _]. eapply Hcounted; reflexivity.
Qed.

(** X13.  In a record the leader slots add up: the total is the completed
    plus the upcoming slots, neither of them negative; and while no slot is
    completed, no slot counts as skipped and the skip rate is 0.0. *)
Theorem reported_leader_slots_add_up
    (cfg : Config) (w : World) (cluster : string) (tr tr' : Trace)
    (r : StatusRecord) :
  process_validator_data cfg w cluster tr = (Report r, tr') ->
  let l := leader_slots r in
  leader_slots_total l = leader_slots_completed l + leader_slots_upcoming l
  /\ 0 <= leader_slots_completed l
  /\ 0 <= leader_slots_upcoming l
  /\ (leader_slots_completed l = 0 ->
      leader_slots_skipped l = 0 /\ leader_skip_rate l = f_zero).
Proof.
  intros Hrun.
  destruct (report_fields _ _ _ _ _ _ Hrun)
    as (urls & id & r0 & ei & tr1 & l & _ & _ & _ & Hl & ->).
  cbn [set_leader_slots leader_slots].
  exact (resolve_leader_slots_counts _ _ _ _ _ _ _ _ Hl).
Qed.

(** The healthy cluster: three leader slots, two of them completed. *)
Lemma reported_leader_slots_add_up_witness :
  (let l := leader_slots (report_of run_healthy) in
   leader_slots_total l = leader_slots_completed l + leader_slots_upcoming l
   /\ 0 <= leader_slots_completed l
   /\ 0 <= leader_slots_upcoming l
   /\ (leader_slots_completed l = 0 ->
       leader_slots_skipped l = 0 /\ leader_skip_rate l = f_zero))
  /\ leader_slots_total (leader_slots (report_of run_healthy)) = 3
  /\ leader_slots_completed (leader_slots (report_of run_healthy)) = 2.
Proof.
  split; [|vm_compute; split; reflexivity].
  apply (reported_leader_slots_add_up sample_config (sample_world [] []) "um" []
           (snd run_healthy) (report_of run_healthy)).
  vm_compute. reflexivity.
Defined.

(** ** Fetches that fail *)

Lemma make_rpc_request_all_fail cfg w urls method params tr :
  0 <= get_rpc_max_retries cfg ->
  0 <= get_rpc_retry_delay cfg ->
  (forall h u, In u urls ->
     endpoint_fails method u (http w h u method params) = true) ->
  exists summary,
    _make_rpc_request cfg w urls method params None None tr
    = (Raise (RuntimeError
                (MsgRpcFailedAll method (get_rpc_max_retries cfg + 1) summary)),
       tr ++ retry_trace (full_pass method params urls) (get_rpc_retry_delay cfg)
                         (Z.to_nat (get_rpc_max_retries cfg + 1))).
Proof.
  intros Hretries Hdelay Hfail.
  destruct (attempt_loop_all_fail w method params urls Hfail
              (get_rpc_max_retries cfg + 1) (get_rpc_retry_delay cfg) Hdelay
              (Z.to_nat (get_rpc_max_retries cfg + 1)) O [] tr)
    as (summary & Heq & _); [simpl; lia|].
  exists summary. exact Heq.
Qed.

(** X14.  When [getVoteAccounts] fails on every endpoint and every try, the
    run ends without a record as soon as the retries of that one request
    are spent: nothing else is fetched. *)
Theorem vote_accounts_failure_ends_run
    (cfg : Config) (w : World) (cluster : string) (tr : Trace)
    (rpc_urls : list string) (id : string) :
  get_rpc_urls cfg cluster = Some rpc_urls ->
  get_validator_identity cfg cluster = Some id ->
  0 <= get_rpc_max_retries cfg ->
  0 <= get_rpc_retry_delay cfg ->
  (forall h u, In u rpc_urls ->
     endpoint_fails "getVoteAccounts" u (http w h u "getVoteAccounts" []) = true) ->
  process_validator_data cfg w cluster tr
  = (NoReport,
     tr ++ (if is_empty rpc_urls then []
            else retry_trace (full_pass "getVoteAccounts" [] rpc_urls)
                             (get_rpc_retry_delay cfg)
                             (Z.to_nat (get_rpc_max_retries cfg + 1)))).
Proof.
  intros Hurls Hid Hretries Hdelay Hfail.
  unfold process_validator_data. rewrite Hurls, Hid.
  destruct (is_empty rpc_urls); [rewrite app_nil_r; reflexivity|].
  destruct (make_rpc_request_all_fail cfg w rpc_urls "getVoteAccounts" [] tr
              Hretries Hdelay Hfail) as [summary Hreq].
  unfold aggregate, gather, fetch_core, get_vote_accounts_rpc, bind.
  rewrite Hreq. reflexivity.
Qed.

Lemma vote_accounts_failure_ends_run_witness :
  process_validator_data sample_config (sample_world ["getVoteAccounts"] []) "um" []
  = (NoReport,
     [EvPost "https://rpc-a" "getVoteAccounts" [];
      EvPost "https://rpc-b" "getVoteAccounts" [];
      EvSleep 5;
      EvPost "https://rpc-a" "getVoteAccounts" [];
      EvPost "https://rpc-b" "getVoteAccounts" []]).
Proof.
  apply (vote_accounts_failure_ends_run sample_config
           (sample_world ["getVoteAccounts"] []) "um" []
           ["https://rpc-a"; "https://rpc-b"] "idx2").
  - reflexivity.
  - reflexivity.
  - simpl. lia.
  - simpl. lia.
  - intros h u _. reflexivity.
Defined.

(** X15.  A balance request that fails on every endpoint and every try is
    not an error of the balance fetcher: once the retries are spent it
    returns [None], which the record shows as "N/A". *)
Theorem balance_fetch_failure_gives_none
    (cfg : Config) (w : World) (urls : list string) (pubkey : string) (tr : Trace) :
  pubkey <> "" ->
  0 <= get_rpc_max_retries cfg ->
  0 <= get_rpc_retry_delay cfg ->
  (forall h u, In u urls ->
     endpoint_fails "getBalance" u (http w h u "getBalance" [JStr pubkey]) = true) ->
  get_balance_rpc cfg w urls pubkey tr
  = (Ok None,
     tr ++ retry_trace (full_pass "getBalance" [JStr pubkey] urls)
                       (get_rpc_retry_delay cfg)
                       (Z.to_nat (get_rpc_max_retries cfg + 1)))
  /\ balance_sol None = Ok FloatNA.
Proof.
  intros Hne Hretries Hdelay Hfail. split; [|reflexivity].
  destruct (make_rpc_request_all_fail cfg w urls "getBalance" [JStr pubkey] tr
              Hretries Hdelay Hfail) as [summary Hreq].
  exact (get_balance_rpc_transport_failure _ _ _ _ _ _ _ Hne Hreq).
Qed.

Lemma balance_fetch_failure_gives_none_witness :
  get_balance_rpc sample_config world_down ["https://rpc-a"] "idx2" []
  = (Ok None,
     [] ++ retry_trace (full_pass "getBalance" [JStr "idx2"] ["https://rpc-a"]) 5 2)
  /\ balance_sol None = Ok FloatNA.
Proof.
  apply (balance_fetch_failure_gives_none sample_config world_down ["https://rpc-a"]
           "idx2" []).
  - discriminate.
  - simpl. lia.
  - simpl. lia.
  - intros h u _. reflexivity.
Defined.

(** ** The stake account listing *)

Lemma stake_info_cli_unusable w rpc_urls validator_pubkey :
  (forall h u,
     cli w h u ["stakes"; validator_pubkey; "--output"; "json"] = CliFailed
     \/ cli w h u ["stakes"; validator_pubkey; "--output"; "json"] = CliStdout None) ->
  forall tr, exists tr',
    _get_validator_stake_info_cli w rpc_urls validator_pubkey tr = (Ok (JArr []), tr').
Proof.
  intros Hcli.
  assert (Hexec : forall urls tr, exists tr',
            _execute_solana_cli_command w
              ["stakes"; validator_pubkey; "--output"; "json"] urls tr
            = (Raise (RuntimeError
                        (MsgCliFailedAll ["stakes"; validator_pubkey; "--output"; "json"])),
               tr')
            \/ _execute_solana_cli_command w
                 ["stakes"; validator_pubkey; "--output"; "json"] urls tr
               = (Ok None, tr')).
  { induction urls as [|u urls IH]; intros tr; simpl.
    - exists tr. left. reflexivity.
    - destruct (Hcli tr u) as [-> | ->].
      + apply IH.
      + eexists. right. reflexivity. }
  intros tr. unfold _get_validator_stake_info_cli, catch_all, bind.
  destruct (Hexec rpc_urls tr) as [tr' [-> | ->]]; exists tr'; reflexivity.
Qed.

Lemma fetch_core_stake cfg w rpc_urls id tr c tr0 :
  fetch_core cfg w rpc_urls id tr = (Ok c, tr0) ->
  exists tr_a stake_json tr_b stake_raw_data,
    _get_validator_stake_info_cli w rpc_urls id tr_a = (Ok stake_json, tr_b)
    /\ as_list view_stake_account stake_json = Some stake_raw_data
    /\ _calculate_stake_metrics_from_data stake_raw_data
       = Ok (stake_metrics_of_core c).
Proof.
  unfold fetch_core. intros H.
  apply bind_ok in H. destruct H as (va_json & t1 & _ & H).
  apply bind_ok in H. destruct H as (va & t2 & _ & H).
  apply bind_ok in H. destruct H as (vi_json & t3 & _ & H).
  apply bind_ok in H. destruct H as (vi & t4 & _ & H).
  apply bind_ok in H. destruct H as (ei_json & t5 & _ & H).
  apply bind_ok in H. destruct H as (ei & t6 & _ & H).
  apply bind_ok in H. destruct H as (stake_json & t7 & Hstake & H).
  apply bind_ok in H. destruct H as (stake_raw & t8 & Hraw & H).
  apply lift_ok in Hraw. destruct Hraw as [Hraw ->].
  apply bind_ok in H. destruct H as (sm & t9 & Hsm & H).
  apply lift_ok in Hsm. destruct Hsm as [Hsm ->].
  apply bind_ok in H. destruct H as (cn_json & t10 & _ & H).
  apply bind_ok in H. destruct H as (cn & t11 & _ & H).
  apply ret_ok in H. destruct H as [-> _].
  exists t6, stake_json, t7, stake_raw. cbn [stake_metrics_of_core].
  split; [exact Hstake|]. split; [|exact Hsm].
  destruct (as_list view_stake_account stake_json) as [raw|]; [|discriminate].
  injection Hraw as ->. reflexivity.
Qed.

(** X16.  The stake listing is not critical: when [solana stakes] fails on
    every endpoint, or prints what is not JSON, the run goes on and a
    record it returns shows all five stake figures as 0.0. *)
Theorem unusable_stake_listing_reports_zero
    (cfg : Config) (w : World) (cluster : string) (tr tr' : Trace)
    (r : StatusRecord) (id : string) :
  get_validator_identity cfg cluster = Some id ->
  (forall h u,
     cli w h u ["stakes"; id; "--output"; "json"] = CliFailed
     \/ cli w h u ["stakes"; id; "--output"; "json"] = CliStdout None) ->
  process_validator_data cfg w cluster tr = (Report r, tr') ->
  stake_metrics r = zero_stake_metrics.
Proof.
  intros Hid Hcli Hrun.
  destruct (report_fields _ _ _ _ _ _ Hrun)
    as (urls & id' & r0 & ei & tr1 & l & _ & Hid' & Hg & _ & ->).
  assert (id' = id) by congruence. subst id'.
  destruct (gather_ok_fields _ _ _ _ _ _ _ _ _ Hg)
    as (c & tr0 & Hc & _ & _ & _ & _ & Hstake).
  cbn [set_leader_slots stake_metrics]. rewrite Hstake.
  destruct (fetch_core_stake _ _ _ _ _ _ _ Hc)
    as (tr_a & stake_json & tr_b & raw & Hfetch & Hview & Hcalc).
  destruct (stake_info_cli_unusable w urls id Hcli tr_a) as [tr_c Hempty].
  rewrite Hempty in Hfetch. injection Hfetch as <- _.
  simpl in Hview. injection Hview as <-.
  simpl in Hcalc. injection Hcalc as <-. reflexivity.
Qed.

Lemma unusable_stake_listing_reports_zero_witness :
  stake_metrics
    (report_of (process_validator_data sample_config world_stakes_down "um" []))
  = zero_stake_metrics
  /\ stake_metrics (report_of run_healthy) <> zero_stake_metrics.
Proof.
  split; [|vm_compute; discriminate].
  apply (unusable_stake_listing_reports_zero sample_config world_stakes_down "um" []
           (snd (process_validator_data sample_config world_stakes_down "um" []))
           (report_of (process_validator_data sample_config world_stakes_down "um" []))
           "idx2").
  - reflexivity.
  - intros h u. left. reflexivity.
  - vm_compute. reflexivity.
Defined.

(** * The notification *)

Lemma message_lines_unformattable (r : StatusRecord) :
  is_ascii (cluster_shorthand r) = true ->
  has_unformattable_field r ->
  message_lines r = Raise ValueError.
Proof.
  intros Hascii Hna. unfold message_lines, display_cluster_name_of.
  rewrite Hascii. cbn [negb].
  destruct (String.eqb (lower (cluster_shorthand r)) "um");
    [|destruct (String.eqb (lower (cluster_shorthand r)) "ut")];
    cbn [rbind];
    destruct Hna as [H|[H|[H|H]]]; rewrite H;
    destruct (identity_balance_sol r), (vote_account_balance_sol r),
             (epoch_credits r), (missed_credits r);
    try discriminate; reflexivity.
Qed.

Lemma message_lines_formattable (r : StatusRecord) a b c m :
  is_ascii (cluster_shorthand r) = true ->
  identity_balance_sol r = FloatVal a ->
  vote_account_balance_sol r = FloatVal b ->
  epoch_credits r = IntVal c ->
  missed_credits r = IntVal m ->
  exists lines,
    message_lines r = Ok lines /\ List.length lines = 37%nat.
Proof.
  intros Hascii Ha Hb Hc Hm. unfold message_lines, display_cluster_name_of.
  rewrite Hascii, Ha, Hb, Hc, Hm. cbn [negb format_balance format_count].
  destruct (String.eqb (lower (cluster_shorthand r)) "um");
    [|destruct (String.eqb (lower (cluster_shorthand r)) "ut")];
    cbn [rbind]; eexists; split; reflexivity.
Qed.

(** X17.  A record with an "N/A" balance or an "N/A" credit count is never
    sent: building the message raises [ValueError] at the formatted field,
    before the webhook is read, and nothing is posted. *)
Theorem unformattable_record_is_not_sent
    (d : Discord) (r : StatusRecord) (out : Outbox) :
  is_ascii (cluster_shorthand r) = true ->
  has_unformattable_field r ->
  format_and_send_status d r out = (inr (Exception ValueError), out).
Proof.
  intros Hascii Hna. unfold format_and_send_status.
  rewrite (message_lines_unformattable r Hascii Hna). reflexivity.
Qed.

(** The record of the validator that no list has: its vote balance is
    "N/A". *)
Lemma unformattable_record_is_not_sent_witness :
  format_and_send_status sample_discord (report_of run_absent_target) []
  = (inr (Exception ValueError), []).
Proof.
  apply (unformattable_record_is_not_sent sample_discord
           (report_of run_absent_target) []).
  - vm_compute. reflexivity.
  - right; left. vm_compute. reflexivity.
Defined.

Lemma fetch_balances_no_vote_account cfg w urls identity tr b tr' :
  fetch_balances cfg w urls identity "N/A" tr = (Ok b, tr') -> snd b = None.
Proof.
  unfold fetch_balances. intros H.
  apply bind_ok in H. destruct H as (ib & tr1 & _ & H).
  cbn [String.eqb Ascii.eqb Bool.eqb] in H.
  apply bind_ok in H. destruct H as (vb & tr2 & Hvb & H).
  apply ret_ok in Hvb. destruct Hvb as [-> _].
  apply ret_ok in H. destruct H as [-> _]. reflexivity.
Qed.

Lemma main_of_report cfg w d cluster tr out r tr' :
  cluster = "um" \/ cluster = "ut" ->
  process_validator_data cfg w cluster tr = (Report r, tr') ->
  main cfg w d cluster tr out
  = match format_and_send_status d r out with
    | (inl _, out') => (ExitStatus 0, tr', out')
    | (inr (Exception Unmodelled), out') => (ExitOutOfModel, tr', out')
    | (inr _, out') => (ExitStatus 1, tr', out')
    end.
Proof.
  intros Hcluster Hrun. unfold main, report_validator_status.
  assert (Hchoice : negb (String.eqb cluster "um" || String.eqb cluster "ut") = false)
    by (destruct Hcluster as [-> | ->]; reflexivity).
  rewrite Hchoice, Hrun.
  destruct (format_and_send_status d r out) as [[b|[e|]] out']; [reflexivity| |reflexivity].
  destruct e; reflexivity.
Qed.

Lemma report_cluster cfg w cluster tr r tr' :
  process_validator_data cfg w cluster tr = (Report r, tr') ->
  cluster_shorthand r = cluster.
Proof.
  intros Hrun.
  destruct (report_fields _ _ _ _ _ _ Hrun)
    as (urls & id & r0 & ei & tr1 & l & _ & _ & Hg & _ & ->).
  destruct (gather_ok_fields _ _ _ _ _ _ _ _ _ Hg) as (c & tr0 & _ & Hcl & _).
  exact Hcl.
Qed.

Lemma choice_is_ascii cluster :
  cluster = "um" \/ cluster = "ut" -> is_ascii cluster = true.
Proof. intros [-> | ->]; reflexivity. Qed.

(** X18.  A run whose record has no vote account (the text "N/A", as for a
    validator that [getVoteAccounts] does not list) never notifies: the
    vote balance is "N/A", the message cannot be built, nothing is posted
    and [main.py] exits with status 1 after all the fetching. *)
Theorem unknown_vote_account_exits_one
    (cfg : Config) (w : World) (d : Discord) (cluster : string)
    (tr tr' : Trace) (out : Outbox) (r : StatusRecord) :
  cluster = "um" \/ cluster = "ut" ->
  process_validator_data cfg w cluster tr = (Report r, tr') ->
  vote_account_pubkey r = "N/A" ->
  vote_account_balance_sol r = FloatNA
  /\ main cfg w d cluster tr out = (ExitStatus 1, tr', out).
Proof.
  intros Hcluster Hrun Hvote.
  assert (Hna : vote_account_balance_sol r = FloatNA).
  { destruct (report_fields _ _ _ _ _ _ Hrun)
      as (urls & id & r0 & ei & tr1 & l & _ & _ & Hg & _ & ->).
    cbn [set_leader_slots vote_account_pubkey vote_account_balance_sol] in *.
    destruct (gather_ok _ _ _ _ _ _ _ _ _ Hg)
      as (c & tr0 & tr2 & b & _ & _ & _ & _ & _ & _ & _ & _ & Hbal & _ & Hvb & _).
    rewrite Hvote in Hbal.
    rewrite (fetch_balances_no_vote_account _ _ _ _ _ _ _ Hbal) in Hvb.
    simpl in Hvb. congruence. }
  split; [exact Hna|].
  rewrite (main_of_report cfg w d cluster tr out r tr' Hcluster Hrun).
  unfold format_and_send_status. rewrite message_lines_unformattable; [reflexivity| |right; left; exact Hna].
  rewrite (report_cluster _ _ _ _ _ _ Hrun). apply choice_is_ascii, Hcluster.
Qed.
Lemma unknown_vote_account_exits_one_witness :
  vote_account_balance_sol
    (report_of (process_validator_data config_ghost (sample_world [] []) "um" []))
  = FloatNA
  /\ main config_ghost (sample_world [] []) sample_discord "um" [] []
     = (ExitStatus 1,
        snd (process_validator_data config_ghost (sample_world [] []) "um" []), []).
Proof.
  apply (unknown_vote_account_exits_one config_ghost (sample_world [] [])
           sample_discord "um" []
           (snd (process_validator_data config_ghost (sample_world [] []) "um" []))
           []
           (report_of (process_validator_data config_ghost (sample_world [] []) "um" []))).
  - left. reflexivity.
  - vm_compute. reflexivity.
  - vm_compute. reflexivity.
Defined.

(** The credits earned of a record are a number. *)
Lemma report_epoch_credits_numeric cfg w cluster tr r tr' :
  process_validator_data cfg w cluster tr = (Report r, tr') ->
  exists c, epoch_credits r = IntVal c.
Proof.
  intros Hrun.
  destruct (report_fields _ _ _ _ _ _ Hrun)
    as (urls & id & r0 & ei & tr1 & l & _ & _ & Hg & _ & ->).
  destruct (gather_ok _ _ _ _ _ _ _ _ _ Hg)
    as (c & tr0 & tr2 & b & _ & _ & _ & _ & _ & Hcred & _).
  destruct (located_validator_facts (vote_accounts_data c) (epoch_info_data c) id)
    as (_ & [own Hown] & _).
  exists own. cbn [set_leader_slots epoch_credits]. rewrite Hcred.
  unfold epoch_credits_of. rewrite Hown. reflexivity.
Qed.

(** X19.  A record with both balances and the missed credits numeric is
    posted exactly once, as one message of 37 lines joined by newlines, to
    the configured webhook; and [main.py] exits with status 0 whether the
    webhook accepted the post or not. *)
Theorem formattable_record_is_posted_once
    (cfg : Config) (w : World) (d : Discord) (cluster : string)
    (tr tr' : Trace) (out : Outbox) (r : StatusRecord)
    (identity_balance vote_balance : float) (missed : Z) (webhook_url : string) :
  cluster = "um" \/ cluster = "ut" ->
  process_validator_data cfg w cluster tr = (Report r, tr') ->
  identity_balance_sol r = FloatVal identity_balance ->
  vote_account_balance_sol r = FloatVal vote_balance ->
  missed_credits r = IntVal missed ->
  discord_webhook_url d = Some webhook_url ->
  webhook_url <> "" ->
  exists lines,
    message_lines r = Ok lines
    /\ List.length lines = 37%nat
    /\ format_and_send_status d r out
       = (inl (post_webhook d webhook_url (join newline lines)),
          out ++ [(webhook_url, join newline lines)])
    /\ main cfg w d cluster tr out
       = (ExitStatus 0, tr', out ++ [(webhook_url, join newline lines)]).
Proof.
  intros Hcluster Hrun Hib Hvb Hm Hurl Hne.
  destruct (report_epoch_credits_numeric _ _ _ _ _ _ Hrun) as [c Hc].
  assert (Hascii : is_ascii (cluster_shorthand r) = true)
    by (rewrite (report_cluster _ _ _ _ _ _ Hrun); apply choice_is_ascii, Hcluster).
  destruct (message_lines_formattable r _ _ _ _ Hascii Hib Hvb Hc Hm)
    as (lines & Hlines & Hlen).
  exists lines. split; [exact Hlines|]. split; [exact Hlen|].
  assert (Hsend : format_and_send_status d r out
                  = (inl (post_webhook d webhook_url (join newline lines)),
                     out ++ [(webhook_url, join newline lines)])).
  { unfold format_and_send_status, send_discord_message. rewrite Hlines, Hurl.
    destruct (String.eqb_spec webhook_url "") as [Heq|_]; [congruence|].
    reflexivity. }
  split; [exact Hsend|].
  rewrite (main_of_report cfg w d cluster tr out r tr' Hcluster Hrun), Hsend.
  reflexivity.
Qed.

(** The healthy cluster, and a webhook that refuses the post: one post all
    the same, and exit status 0. *)
Lemma formattable_record_is_posted_once_witness :
  exists lines,
    message_lines (report_of run_healthy) = Ok lines
    /\ List.length lines = 37%nat
    /\ format_and_send_status discord_refusing (report_of run_healthy) []
       = (inl (post_webhook discord_refusing "https://discord.test/hook"
                 (join newline lines)),
          [] ++ [("https://discord.test/hook", join newline lines)])
    /\ main sample_config (sample_world [] []) discord_refusing "um" [] []
       = (ExitStatus 0, snd run_healthy,
          [] ++ [("https://discord.test/hook", join newline lines)]).
Proof.
  apply (formattable_record_is_posted_once sample_config (sample_world [] [])
           discord_refusing "um" [] (snd run_healthy) [] (report_of run_healthy)
           (S754_finite false 6755399441055744 (-52))
           (S754_finite false 6755399441055744 (-52)) 0
           "https://discord.test/hook").
  - left. reflexivity.
  - vm_compute. reflexivity.
  - vm_compute. reflexivity.
  - vm_compute. reflexivity.
  - vm_compute. reflexivity.
  - reflexivity.
  - discriminate.
Defined.

(** X20.  A run that cannot fetch the vote accounts is silent: once the
    retries of [getVoteAccounts] are spent, [main.py] posts nothing and
    exits with status 0. *)
Theorem fetch_failure_is_silent
    (cfg : Config) (w : World) (d : Discord) (cluster : string) (tr : Trace)
    (out : Outbox) (rpc_urls : list string) (id : string) :
  cluster = "um" \/ cluster = "ut" ->
  get_rpc_urls cfg cluster = Some rpc_urls ->
  get_validator_identity cfg cluster = Some id ->
  0 <= get_rpc_max_retries cfg ->
  0 <= get_rpc_retry_delay cfg ->
  (forall h u, In u rpc_urls ->
     endpoint_fails "getVoteAccounts" u (http w h u "getVoteAccounts" []) = true) ->
  exists tr',
    process_validator_data cfg w cluster tr = (NoReport, tr')
    /\ main cfg w d cluster tr out = (ExitStatus 0, tr', out).
Proof.
  intros Hcluster Hurls Hid Hretries Hdelay Hfail.
  assert (Hrun : exists tr', process_validator_data cfg w cluster tr = (NoReport, tr')).
  { unfold process_validator_data. rewrite Hurls, Hid.
    destruct (is_empty rpc_urls); [eexists; reflexivity|].
    destruct (make_rpc_request_all_fail cfg w rpc_urls "getVoteAccounts" [] tr
                Hretries Hdelay Hfail) as [summary Hreq].
    unfold aggregate, gather, fetch_core, get_vote_accounts_rpc, bind.
    rewrite Hreq. eexists. reflexivity. }
  destruct Hrun as [tr' Hrun]. exists tr'. split; [exact Hrun|].
  unfold main, report_validator_status.
  assert (Hchoice : negb (String.eqb cluster "um" || String.eqb cluster "ut") = false)
    by (destruct Hcluster as [-> | ->]; reflexivity).
  rewrite Hchoice, Hrun. reflexivity.
Qed.

Lemma fetch_failure_is_silent_witness :
  exists tr',
    process_validator_data sample_config (sample_world ["getVoteAccounts"] []) "um" []
    = (NoReport, tr')
    /\ main sample_config (sample_world ["getVoteAccounts"] []) sample_discord "um"
            [] []
       = (ExitStatus 0, tr', []).
Proof.
  apply (fetch_failure_is_silent sample_config (sample_world ["getVoteAccounts"] [])
           sample_discord "um" [] [] ["https://rpc-a"; "https://rpc-b"] "idx2").
  - left. reflexivity.
  - reflexivity.
  - reflexivity.
  - simpl. lia.
  - simpl. lia.
  - intros h u _. reflexivity.
Defined.

(** X21.  The webhook URL is read only when the message is built, after
    all the fetching: for a record that formats, a configuration without
    [webhook_url] ends [main.py] with status 1 and an empty URL with
    status 0, and in both cases nothing is posted. *)
Theorem unset_webhook_posts_nothing
    (cfg : Config) (w : World) (d : Discord) (cluster : string)
    (tr tr' : Trace) (out : Outbox) (r : StatusRecord)
    (identity_balance vote_balance : float) (missed : Z) :
  cluster = "um" \/ cluster = "ut" ->
  process_validator_data cfg w cluster tr = (Report r, tr') ->
  identity_balance_sol r = FloatVal identity_balance ->
  vote_account_balance_sol r = FloatVal vote_balance ->
  missed_credits r = IntVal missed ->
  discord_webhook_url d = None \/ discord_webhook_url d = Some "" ->
  main cfg w d cluster tr out
  = (ExitStatus (match discord_webhook_url d with None => 1 | Some _ => 0 end),
     tr', out).
Proof.
  intros Hcluster Hrun Hib Hvb Hm Hurl.
  destruct (report_epoch_credits_numeric _ _ _ _ _ _ Hrun) as [c Hc].
  assert (Hascii : is_ascii (cluster_shorthand r) = true)
    by (rewrite (report_cluster _ _ _ _ _ _ Hrun); apply choice_is_ascii, Hcluster).
  destruct (message_lines_formattable r _ _ _ _ Hascii Hib Hvb Hc Hm)
    as (lines & Hlines & _).
  rewrite (main_of_report cfg w d cluster tr out r tr' Hcluster Hrun).
  unfold format_and_send_status, send_discord_message. rewrite Hlines.
  destruct Hurl as [-> | ->]; reflexivity.
Qed.

Lemma unset_webhook_posts_nothing_witness :
  main sample_config (sample_world [] []) discord_unconfigured "um" [] []
  = (ExitStatus 1, snd run_healthy, [])
  /\ main sample_config (sample_world [] []) discord_blank "um" [] []
     = (ExitStatus 0, snd run_healthy, []).
Proof.
  split.
  - apply (unset_webhook_posts_nothing sample_config (sample_world [] [])
             discord_unconfigured "um" [] (snd run_healthy) [] (report_of run_healthy)
             (S754_finite false 6755399441055744 (-52))
             (S754_finite false 6755399441055744 (-52)) 0);
      [left; reflexivity | vm_compute; reflexivity | vm_compute; reflexivity
      | vm_compute; reflexivity | vm_compute; reflexivity | left; reflexivity].
  - apply (unset_webhook_posts_nothing sample_config (sample_world [] [])
             discord_blank "um" [] (snd run_healthy) [] (report_of run_healthy)
             (S754_finite false 6755399441055744 (-52))
             (S754_finite false 6755399441055744 (-52)) 0);
      [left; reflexivity | vm_compute; reflexivity | vm_compute; reflexivity
      | vm_compute; reflexivity | vm_compute; reflexivity | right; reflexivity].
Defined.

(** ** The critical fetches *)

Lemma make_rpc_request_ok_answer cfg w urls method params tr result tr' :
  _make_rpc_request cfg w urls method params None None tr = (Ok result, tr') ->
  exists h u, In u urls /\ endpoint_fails method u (http w h u method params) = false.
Proof.
  unfold _make_rpc_request. intros H.
  destruct (attempt_loop_ok _ _ _ _ _ _ _ _ _ _ _ H) as (s & u & _ & Hu & _ & Hret).
  exists (tr ++ s), u. split; [exact Hu|]. unfold endpoint_fails. rewrite Hret.
  reflexivity.
Qed.

Lemma cli_command_ok w command_args : forall urls tr out tr',
  _execute_solana_cli_command w command_args urls tr = (Ok out, tr') ->
  exists h u, cli w h u command_args = CliStdout out.
Proof.
  induction urls as [|u urls IH]; intros tr out tr' H; simpl in H; [discriminate|].
  destruct (cli w tr u command_args) as [o|] eqn:Hcli.
  - injection H as <- _. exists tr, u. exact Hcli.
  - exact (IH _ _ _ H).
Qed.

(** The four fetches [fetch_core] cannot do without. *)
Lemma fetch_core_answers cfg w rpc_urls id tr c tr0 :
  fetch_core cfg w rpc_urls id tr = (Ok c, tr0) ->
  (forall method, In method critical_methods ->
     exists h u, In u rpc_urls
                 /\ endpoint_fails method u (http w h u method []) = false)
  /\ exists h u j,
       cli w h u ["validator-info"; "get"; "--output"; "json"] = CliStdout (Some j).
Proof.
  unfold fetch_core. intros H.
  apply bind_ok in H. destruct H as (va_json & t1 & Hva & H).
  apply bind_ok in H. destruct H as (va & t2 & _ & H).
  apply bind_ok in H. destruct H as (vi_json & t3 & Hvi & H).
  apply bind_ok in H. destruct H as (vi & t4 & _ & H).
  apply bind_ok in H. destruct H as (ei_json & t5 & Hei & H).
  apply bind_ok in H. destruct H as (ei & t6 & _ & H).
  apply bind_ok in H. destruct H as (stake_json & t7 & _ & H).
  apply bind_ok in H. destruct H as (stake_raw & t8 & _ & H).
  apply bind_ok in H. destruct H as (sm & t9 & _ & H).
  apply bind_ok in H. destruct H as (cn_json & t10 & Hcn & _).
  split.
  - intros method [<-|[<-|[<-|[]]]].
    + exact (make_rpc_request_ok_answer _ _ _ _ _ _ _ _ Hva).
    + exact (make_rpc_request_ok_answer _ _ _ _ _ _ _ _ Hei).
    + unfold get_cluster_nodes_rpc in Hcn.
      apply bind_ok in Hcn. destruct Hcn as (result & t & Hreq & _).
      exact (make_rpc_request_ok_answer _ _ _ _ _ _ _ _ Hreq).
  - unfold get_validator_info_cli in Hvi.
    apply bind_ok in Hvi. destruct Hvi as (output & t & Hexec & Hout).
    destruct (cli_command_ok _ _ _ _ _ _ Hexec) as (h & u & Hcli).
    destruct output as [j|]; [|discriminate].
    exists h, u, j. exact Hcli.
Qed.

(** X22.  The vote accounts, the epoch info, the cluster nodes and the
    validator info are critical: when one of the three requests fails on
    every endpoint, or [solana validator-info get] fails on every endpoint
    or prints what is not JSON, the run returns no record. *)
Theorem critical_fetch_failure_never_reports
    (cfg : Config) (w : World) (cluster : string) (tr : Trace)
    (rpc_urls : list string) :
  get_rpc_urls cfg cluster = Some rpc_urls ->
  (exists method, In method critical_methods
     /\ forall h u, In u rpc_urls ->
          endpoint_fails method u (http w h u method []) = true)
  \/ (forall h u,
        cli w h u ["validator-info"; "get"; "--output"; "json"] = CliFailed
        \/ cli w h u ["validator-info"; "get"; "--output"; "json"] = CliStdout None) ->
  forall r tr', process_validator_data cfg w cluster tr <> (Report r, tr').
Proof.
  intros Hurls Hdown r tr' Hrun.
  destruct (report_fields _ _ _ _ _ _ Hrun)
    as (urls & id & r0 & ei & tr1 & l & Hurls' & _ & Hg & _ & _).
  assert (urls = rpc_urls) by congruence. subst urls.
  destruct (gather_ok_fields _ _ _ _ _ _ _ _ _ Hg) as (c & tr0 & Hc & _).
  destruct (fetch_core_answers _ _ _ _ _ _ _ Hc) as [Hrpc (h & u & j & Hcli)].
  destruct Hdown as [(method & Hin & Hfail) | Hfail].
  - destruct (Hrpc method Hin) as (h' & u' & Hu' & Hok).
    rewrite (Hfail h' u' Hu') in Hok. discriminate.
  - destruct (Hfail h u) as [Hf|Hf]; rewrite Hf in Hcli; discriminate.
Qed.

(** With the validator info down the healthy cluster gives no record,
    although the name has a fallback. *)
Lemma critical_fetch_failure_never_reports_witness :
  (forall r tr',
     process_validator_data sample_config world_info_down "um" [] <> (Report r, tr'))
  /\ fst (process_validator_data sample_config world_info_down "um" []) = NoReport.
Proof.
  split; [|vm_compute; reflexivity].
  apply (critical_fetch_failure_never_reports sample_config world_info_down "um" []
           ["https://rpc-a"; "https://rpc-b"]).
  - reflexivity.
  - right. intros h u. left. reflexivity.
Defined.

(** * What a run may do *)

Lemma spends_nothing {A} P p s c (m : M A) :
  (forall tr, snd (m tr) = tr) -> spends P p s c m.
Proof.
  intros H tr. exists []. rewrite H, app_nil_r.
  repeat split; [constructor | apply Nat.le_0_l ..].
Qed.

Lemma spends_ret {A} P p s c (a : A) : spends P p s c (ret a).
Proof. apply spends_nothing. reflexivity. Qed.

Lemma spends_throw {A} P p s c e : spends P p s c (@throw A e).
Proof. apply spends_nothing. reflexivity. Qed.

Lemma spends_lift {A} P p s c (r : Res A) : spends P p s c (lift r).
Proof. apply spends_nothing. reflexivity. Qed.

Lemma spends_app P s1 s2 p1 q1 c1 p2 q2 c2 :
  Forall P s1 /\ (count_events is_post s1 <= p1)%nat
  /\ (count_events is_sleep s1 <= q1)%nat /\ (count_events is_cli s1 <= c1)%nat ->
  Forall P s2 /\ (count_events is_post s2 <= p2)%nat
  /\ (count_events is_sleep s2 <= q2)%nat /\ (count_events is_cli s2 <= c2)%nat ->
  Forall P (s1 ++ s2) /\ (count_events is_post (s1 ++ s2) <= p1 + p2)%nat
  /\ (count_events is_sleep (s1 ++ s2) <= q1 + q2)%nat
  /\ (count_events is_cli (s1 ++ s2) <= c1 + c2)%nat.
Proof.
  intros (HP1 & Hp1 & Hq1 & Hc1) (HP2 & Hp2 & Hq2 & Hc2).
  rewrite !count_events_app. split; [apply Forall_app; auto|]. lia.
Qed.

Lemma spends_weaken {A} P p s c p' s' c' (m : M A) :
  spends P p s c m -> (p <= p')%nat -> (s <= s')%nat -> (c <= c')%nat ->
  spends P p' s' c' m.
Proof.
  intros H Hp Hs Hc tr. destruct (H tr) as (t & Ht & HP & H1 & H2 & H3).
  exists t. repeat split; [exact Ht | exact HP | lia ..].
Qed.

(** The first step takes its share of the budget, the rest has what is
    left. *)
Lemma spends_bind {A B} P p1 s1 c1 p s c (m : M A) (k : A -> M B) :
  spends P p1 s1 c1 m ->
  (forall a, spends P (p - p1) (s - s1) (c - c1) (k a)) ->
  (p1 <= p)%nat -> (s1 <= s)%nat -> (c1 <= c)%nat ->
  spends P p s c (bind m k).
Proof.
  intros Hm Hk Hp Hs Hc tr. unfold bind.
  destruct (Hm tr) as (t & Ht & Hm').
  destruct (m tr) as [[a|e] tr1]; simpl in Ht; subst tr1.
  - destruct (Hk a (tr ++ t)) as (t' & Ht' & Hk').
    exists (t ++ t'). rewrite Ht', app_assoc. split; [reflexivity|].
    destruct (spends_app P t t' _ _ _ _ _ _ Hm' Hk') as (HP & H1 & H2 & H3).
    repeat split; [exact HP | lia ..].
  - exists t. split; [reflexivity|].
    destruct Hm' as (HP & H1 & H2 & H3). repeat split; [exact HP | lia ..].
Qed.

Lemma spends_catch_runtime {A} P p1 s1 c1 p s c (m : M A) h :
  spends P p1 s1 c1 m ->
  (forall x, spends P (p - p1) (s - s1) (c - c1) (h x)) ->
  (p1 <= p)%nat -> (s1 <= s)%nat -> (c1 <= c)%nat ->
  spends P p s c (catch_runtime m h).
Proof.
  intros Hm Hh Hp Hs Hc tr. unfold catch_runtime.
  destruct (Hm tr) as (t & Ht & Hm').
  assert (Hsame : exists s0, tr ++ t = tr ++ s0 /\ Forall P s0
            /\ (count_events is_post s0 <= p)%nat
            /\ (count_events is_sleep s0 <= s)%nat
            /\ (count_events is_cli s0 <= c)%nat).
  { exists t. split; [reflexivity|].
    destruct Hm' as (HP & H1 & H2 & H3). repeat split; [exact HP | lia ..]. }
  destruct (m tr) as [[a|e] tr1]; simpl in Ht; subst tr1; [exact Hsame|].
  destruct e as [x| | | | | |]; try exact Hsame.
  destruct (Hh x (tr ++ t)) as (t' & Ht' & Hh').
  exists (t ++ t'). rewrite Ht', app_assoc. split; [reflexivity|].
  destruct (spends_app P t t' _ _ _ _ _ _ Hm' Hh') as (HP & H1 & H2 & H3).
  repeat split; [exact HP | lia ..].
Qed.

Lemma spends_catch_all {A} P p1 s1 c1 p s c (m : M A) h :
  spends P p1 s1 c1 m ->
  (forall x, spends P (p - p1) (s - s1) (c - c1) (h x)) ->
  (p1 <= p)%nat -> (s1 <= s)%nat -> (c1 <= c)%nat ->
  spends P p s c (catch_all m h).
Proof.
  intros Hm Hh Hp Hs Hc tr. unfold catch_all.
  destruct (Hm tr) as (t & Ht & Hm').
  assert (Hsame : exists s0, tr ++ t = tr ++ s0 /\ Forall P s0
            /\ (count_events is_post s0 <= p)%nat
            /\ (count_events is_sleep s0 <= s)%nat
            /\ (count_events is_cli s0 <= c)%nat).
  { exists t. split; [reflexivity|].
    destruct Hm' as (HP & H1 & H2 & H3). repeat split; [exact HP | lia ..]. }
  destruct (m tr) as [[a|e] tr1]; simpl in Ht; subst tr1; [exact Hsame|].
  destruct e as [x| | | | | |]; try exact Hsame;
    match goal with
    | |- context [h ?e (tr ++ t)] =>
        destruct (Hh e (tr ++ t)) as (t' & Ht' & Hh');
        exists (t ++ t'); rewrite Ht', app_assoc; split; [reflexivity|];
        destruct (spends_app P t t' _ _ _ _ _ _ Hm' Hh') as (HP & H1 & H2 & H3);
        repeat split; [exact HP | lia ..]
    end.
Qed.

Section Budget.
Variables (cfg : Config) (w : World) (rpc_urls : list string).

Lemma try_urls_spends method params :
  In method read_methods ->
  forall us last tr, incl us rpc_urls ->
  exists s,
    snd (try_urls w method params us last tr) = tr ++ s
    /\ Forall (read_only_event cfg rpc_urls) s
    /\ (count_events is_post s <= List.length us)%nat
    /\ count_events is_sleep s = 0%nat
    /\ count_events is_cli s = 0%nat.
Proof.
  intros Hmethod. induction us as [|u us IH]; intros last tr Hincl; simpl.
  - exists []. rewrite app_nil_r. repeat split; [apply Forall_nil | cbn; lia].
  - assert (Hev : read_only_event cfg rpc_urls (EvPost u method params)).
    { split; [apply Hincl; left; reflexivity | exact Hmethod]. }
    destruct (rpc_attempt method u (http w tr u method params)) as [r|f|e].
    + exists [EvPost u method params]. split; [reflexivity|].
      split; [apply Forall_cons; [exact Hev | apply Forall_nil]|].
      cbn. repeat split; lia.
    + destruct (IH (dict_set u f last) (tr ++ [EvPost u method params]))
        as (s & Hs & HP & H1 & H2 & H3).
      { intros x Hx. apply Hincl. right. exact Hx. }
      exists (EvPost u method params :: s). rewrite Hs, <- app_assoc.
      split; [reflexivity|]. split; [constructor; assumption|].
      unfold count_events in *. cbn. repeat split; lia.
    + exists [EvPost u method params]. split; [reflexivity|].
      split; [apply Forall_cons; [exact Hev | apply Forall_nil]|].
      cbn. repeat split; lia.
Qed.

Lemma attempt_loop_spends method params (max_attempts : Z) :
  In method read_methods ->
  forall k i last tr,
    (k = 0)%nat \/ Z.of_nat (i + k) = max_attempts ->
    exists s,
      snd (attempt_loop w method params rpc_urls max_attempts
                        (get_rpc_retry_delay cfg) (seq i k) last tr) = tr ++ s
      /\ Forall (read_only_event cfg rpc_urls) s
      /\ (count_events is_post s <= List.length rpc_urls * k)%nat
      /\ (count_events is_sleep s <= k - 1)%nat
      /\ count_events is_cli s = 0%nat.
Proof.
  intros Hmethod. induction k as [|k IH]; intros i last tr Hk.
  - exists []. simpl. rewrite app_nil_r. repeat split; [apply Forall_nil | cbn; lia ..].
  - destruct Hk as [Hk|Hk]; [discriminate|].
    cbn [seq attempt_loop].
    destruct (try_urls_spends method params Hmethod rpc_urls last tr (incl_refl _))
      as (s & Hs & HP & H1 & H2 & H3).
    destruct (try_urls w method params rpc_urls last tr) as [[[r|] last1] tr1];
      simpl in Hs; subst tr1.
    + exists s. repeat split; [exact HP | nia | lia | lia].
    + destruct (Z.of_nat i <? max_attempts - 1) eqn:Hlt.
      * unfold sleep. destruct (get_rpc_retry_delay cfg <? 0).
        -- exists s. repeat split; [exact HP | nia | lia | lia].
        -- destruct (IH (S i) last1 ((tr ++ s) ++ [EvSleep (get_rpc_retry_delay cfg)]))
             as (s' & Hs' & HP' & H1' & H2' & H3'); [right; lia|].
           exists (s ++ EvSleep (get_rpc_retry_delay cfg) :: s').
           rewrite Hs', <- !app_assoc. split; [reflexivity|].
           split; [apply Forall_app; split; [exact HP|];
                   constructor; [reflexivity | exact HP']|].
           apply Z.ltb_lt in Hlt.
           rewrite !count_events_app.
           unfold count_events in *. cbn. repeat split; nia.
      * destruct (IH (S i) last1 (tr ++ s)) as (s' & Hs' & HP' & H1' & H2' & H3');
          [apply Z.ltb_ge in Hlt; left; lia|].
        exists (s ++ s'). rewrite Hs', app_assoc. split; [reflexivity|].
        split; [apply Forall_app; auto|].
        rewrite !count_events_app. repeat split; nia.
Qed.

Lemma make_rpc_request_spends method params p s c :
  In method read_methods ->
  ((request_posts cfg rpc_urls) <= p)%nat -> ((request_sleeps cfg) <= s)%nat ->
  spends (read_only_event cfg rpc_urls) p s c
         (_make_rpc_request cfg w rpc_urls method params None None).
Proof.
  intros Hmethod Hp Hs tr. unfold _make_rpc_request.
  destruct (attempt_loop_spends method params (get_rpc_max_retries cfg + 1) Hmethod
              (Z.to_nat (get_rpc_max_retries cfg + 1)) O [] tr)
    as (t & Ht & HP & H1 & H2 & H3).
  { destruct (Z.to_nat (get_rpc_max_retries cfg + 1)) eqn:Hn; [left; reflexivity|].
    right. lia. }
  exists t. unfold request_posts, request_sleeps in *.
  repeat split; [exact Ht | exact HP | lia ..].
Qed.

Lemma cli_spends command_args p s c :
  (command_args = ["validator-info"; "get"; "--output"; "json"]
   \/ exists validator_pubkey,
        command_args = ["stakes"; validator_pubkey; "--output"; "json"]) ->
  (List.length rpc_urls <= c)%nat ->
  spends (read_only_event cfg rpc_urls) p s c
         (_execute_solana_cli_command w command_args rpc_urls).
Proof.
  intros Hcmd Hc.
  assert (H : forall us tr, incl us rpc_urls ->
            exists t,
              snd (_execute_solana_cli_command w command_args us tr) = tr ++ t
              /\ Forall (read_only_event cfg rpc_urls) t
              /\ count_events is_post t = 0%nat
              /\ count_events is_sleep t = 0%nat
              /\ (count_events is_cli t <= List.length us)%nat).
  { induction us as [|u us IH]; intros tr Hincl; simpl.
    - exists []. rewrite app_nil_r. repeat split; [apply Forall_nil | cbn; lia].
    - assert (Hev : read_only_event cfg rpc_urls (EvCli u command_args)).
      { split; [apply Hincl; left; reflexivity | exact Hcmd]. }
      destruct (cli w tr u command_args).
      + exists [EvCli u command_args]. split; [reflexivity|].
        split; [apply Forall_cons; [exact Hev | apply Forall_nil]|].
        cbn. repeat split; lia.
      + destruct (IH (tr ++ [EvCli u command_args])) as (t & Ht & HP & H1 & H2 & H3).
        { intros x Hx. apply Hincl. right. exact Hx. }
        exists (EvCli u command_args :: t). rewrite Ht, <- app_assoc.
        split; [reflexivity|]. split; [constructor; assumption|].
        unfold count_events in *. cbn. repeat split; lia. }
  intros tr. destruct (H rpc_urls tr (incl_refl _)) as (t & Ht & HP & H1 & H2 & H3).
  exists t. repeat split; [exact Ht | exact HP | lia ..].
Qed.

Ltac in_read_methods := simpl; tauto.

(** A step that reads no endpoint. *)
Ltac free_step :=
  apply (spends_bind _ 0 0 0);
  [apply spends_lift | intros ? | apply Nat.le_0_l ..];
  rewrite ?Nat.sub_0_r.

Ltac spends_leaf :=
  first [apply spends_ret | apply spends_throw | apply spends_lift].

Lemma get_balance_rpc_spends pubkey p s c :
  ((request_posts cfg rpc_urls) <= p)%nat -> ((request_sleeps cfg) <= s)%nat ->
  spends (read_only_event cfg rpc_urls) p s c (get_balance_rpc cfg w rpc_urls pubkey).
Proof.
  intros Hp Hs. unfold get_balance_rpc.
  destruct (String.eqb pubkey ""); [apply spends_ret|].
  apply (spends_catch_runtime _ (request_posts cfg rpc_urls) (request_sleeps cfg) 0);
    [|intros ?; apply spends_ret | lia ..].
  apply (spends_bind _ (request_posts cfg rpc_urls) (request_sleeps cfg) 0);
    [apply make_rpc_request_spends; [in_read_methods | lia ..] | | lia ..].
  intros result. destruct result; try spends_leaf.
  destruct (dict_get "value" _) as [[]|]; spends_leaf.
Qed.

Lemma fetch_core_spends id :
  spends (read_only_event cfg rpc_urls)
         (3 * (request_posts cfg rpc_urls)) (3 * (request_sleeps cfg)) (2 * List.length rpc_urls)
         (fetch_core cfg w rpc_urls id).
Proof.
  unfold fetch_core, get_vote_accounts_rpc, get_validator_info_cli,
    get_epoch_info_rpc, _get_validator_stake_info_cli, get_cluster_nodes_rpc.
  apply (spends_bind _ (request_posts cfg rpc_urls) (request_sleeps cfg) 0);
    [apply make_rpc_request_spends; [in_read_methods | lia ..] | | lia ..].
  intros va_json. free_step.
  apply (spends_bind _ 0 0 (List.length rpc_urls)); [| | lia ..].
  { apply (spends_bind _ 0 0 (List.length rpc_urls));
      [apply cli_spends; [left; reflexivity | lia] | | lia ..].
    intros output. destruct output; spends_leaf. }
  intros vi_json. free_step.
  apply (spends_bind _ (request_posts cfg rpc_urls) (request_sleeps cfg) 0);
    [apply make_rpc_request_spends; [in_read_methods | lia ..] | | lia ..].
  intros ei_json. free_step.
  apply (spends_bind _ 0 0 (List.length rpc_urls)); [| | lia ..].
  { apply (spends_catch_all _ 0 0 (List.length rpc_urls));
      [|intros ?; apply spends_ret | lia ..].
    apply (spends_bind _ 0 0 (List.length rpc_urls));
      [apply cli_spends; [right; eexists; reflexivity | lia] | | lia ..].
    intros output. destruct output; spends_leaf. }
  intros stake_json. free_step. free_step.
  apply (spends_bind _ (request_posts cfg rpc_urls) (request_sleeps cfg) 0); [| | lia ..].
  { apply (spends_bind _ (request_posts cfg rpc_urls) (request_sleeps cfg) 0);
      [apply make_rpc_request_spends; [in_read_methods | lia ..] | | lia ..].
    intros result. destruct result; spends_leaf. }
  intros cn_json. free_step. apply spends_ret.
Qed.

Lemma fetch_balances_spends identity vote_account :
  spends (read_only_event cfg rpc_urls) (2 * (request_posts cfg rpc_urls)) (2 * (request_sleeps cfg)) 0
         (fetch_balances cfg w rpc_urls identity vote_account).
Proof.
  unfold fetch_balances.
  apply (spends_bind _ (request_posts cfg rpc_urls) (request_sleeps cfg) 0); [| | lia ..].
  { destruct (String.eqb identity "N/A");
      [apply spends_ret | apply get_balance_rpc_spends; lia]. }
  intros identity_balance_lamports.
  apply (spends_bind _ (request_posts cfg rpc_urls) (request_sleeps cfg) 0); [| | lia ..].
  { destruct (String.eqb vote_account "N/A");
      [apply spends_ret | apply get_balance_rpc_spends; lia]. }
  intros vote_account_balance_lamports. apply spends_ret.
Qed.

Lemma calculate_epoch_progress_spends ei :
  spends (read_only_event cfg rpc_urls) (request_posts cfg rpc_urls) (request_sleeps cfg) 0
         (_calculate_epoch_progress cfg w ei rpc_urls).
Proof.
  unfold _calculate_epoch_progress, get_recent_performance_samples_rpc.
  destruct (slotIndex ei) as [slot_index|]; [|apply spends_ret].
  destruct (slotsInEpoch ei) as [slots_in_epoch|]; [|apply spends_ret].
  destruct (slots_in_epoch =? 0); [apply spends_ret|].
  free_step.
  apply (spends_bind _ (request_posts cfg rpc_urls) (request_sleeps cfg) 0); [| | lia ..].
  { apply (spends_bind _ (request_posts cfg rpc_urls) (request_sleeps cfg) 0);
      [apply make_rpc_request_spends; [in_read_methods | lia ..] | | lia ..].
    intros result. destruct result; spends_leaf. }
  intros raw. free_step. free_step. free_step. free_step. apply spends_ret.
Qed.

Lemma resolve_leader_slots_spends identity ei :
  spends (read_only_event cfg rpc_urls) (2 * (request_posts cfg rpc_urls)) (2 * (request_sleeps cfg)) 0
         (resolve_leader_slots cfg w rpc_urls identity ei).
Proof.
  unfold resolve_leader_slots, get_leader_schedule_rpc, get_block_production_rpc.
  destruct (String.eqb identity "N/A"); [apply spends_ret|].
  apply (spends_catch_runtime _ (2 * (request_posts cfg rpc_urls)) (2 * (request_sleeps cfg)) 0);
    [|intros ?; apply spends_ret | lia ..].
  apply (spends_bind _ (request_posts cfg rpc_urls) (request_sleeps cfg) 0); [| | lia ..].
  { apply (spends_bind _ (request_posts cfg rpc_urls) (request_sleeps cfg) 0);
      [apply make_rpc_request_spends; [in_read_methods | lia ..] | | lia ..].
    intros result. destruct result; spends_leaf. }
  intros leader_schedule_data. free_step. cbv zeta.
  destruct (len _ >? 0); [|apply spends_ret].
  destruct (_ && _); [|apply spends_ret].
  apply (spends_catch_runtime _ (request_posts cfg rpc_urls) (request_sleeps cfg) 0);
    [|intros ?; apply spends_ret | lia ..].
  apply (spends_bind _ (request_posts cfg rpc_urls) (request_sleeps cfg) 0); [| | lia ..].
  { apply (spends_bind _ (request_posts cfg rpc_urls) (request_sleeps cfg) 0);
      [apply make_rpc_request_spends; [in_read_methods | lia ..] | | lia ..].
    intros result. destruct result; spends_leaf. }
  intros block_production_info. free_step.
  match goal with |- spends _ _ _ _ (match ?x with _ => _ end) =>
    destruct x as [[|assigned [|produced [|extra rest]]]|] end; try apply spends_ret.
  destruct (assigned >? 0); [|apply spends_ret].
  free_step. apply spends_ret.
Qed.

Lemma aggregate_spends cluster id :
  spends (read_only_event cfg rpc_urls)
         (8 * (request_posts cfg rpc_urls)) (8 * (request_sleeps cfg)) (2 * List.length rpc_urls)
         (aggregate cfg w cluster rpc_urls id).
Proof.
  unfold aggregate.
  apply (spends_bind _ (6 * (request_posts cfg rpc_urls)) (6 * (request_sleeps cfg))
                     (2 * List.length rpc_urls)); [| | lia ..].
  { unfold gather.
    apply (spends_bind _ (3 * (request_posts cfg rpc_urls)) (3 * (request_sleeps cfg))
                       (2 * List.length rpc_urls));
      [apply fetch_core_spends | | lia ..].
    intros c0. destruct (node_details _ _) as [ver ip].
    apply (spends_bind _ (2 * (request_posts cfg rpc_urls)) (2 * (request_sleeps cfg)) 0);
      [apply fetch_balances_spends | | lia ..].
    intros balances. free_step. free_step. free_step.
    apply (spends_bind _ (request_posts cfg rpc_urls) (request_sleeps cfg) 0);
      [apply calculate_epoch_progress_spends | | lia ..].
    intros progress. apply spends_ret. }
  intros p.
  apply (spends_bind _ (2 * (request_posts cfg rpc_urls)) (2 * (request_sleeps cfg)) 0);
    [apply resolve_leader_slots_spends | | lia ..].
  intros leader. apply spends_ret.
Qed.

End Budget.

(** The events of a run, whatever it ends in. *)
Lemma process_validator_data_spends cfg w cluster tr :
  let rpc_urls := default [] (get_rpc_urls cfg cluster) in
  exists s,
    snd (process_validator_data cfg w cluster tr) = tr ++ s
    /\ Forall (read_only_event cfg rpc_urls) s
    /\ (count_events is_post s <= 8 * request_posts cfg rpc_urls)%nat
    /\ (count_events is_sleep s <= 8 * request_sleeps cfg)%nat
    /\ (count_events is_cli s <= 2 * List.length rpc_urls)%nat.
Proof.
  intros rpc_urls. subst rpc_urls. unfold process_validator_data.
  assert (Hnone : exists s,
            tr = tr ++ s
            /\ Forall (read_only_event cfg (default [] (get_rpc_urls cfg cluster))) s
            /\ (count_events is_post s
                <= 8 * request_posts cfg (default [] (get_rpc_urls cfg cluster)))%nat
            /\ (count_events is_sleep s <= 8 * request_sleeps cfg)%nat
            /\ (count_events is_cli s
                <= 2 * List.length (default [] (get_rpc_urls cfg cluster)))%nat).
  { exists []. rewrite app_nil_r. repeat split; [constructor | apply Nat.le_0_l ..]. }
  destruct (get_rpc_urls cfg cluster) as [urls|]; [|exact Hnone].
  destruct (get_validator_identity cfg cluster) as [id|]; [|exact Hnone].
  destruct (is_empty urls); [exact Hnone|]. cbn [default].
  destruct (aggregate_spends cfg w urls cluster id tr) as (s & Hs & H).
  exists s. split; [|exact H].
  destruct (aggregate cfg w cluster urls id tr) as [[r|e] tr1]; simpl in Hs |- *;
    [exact Hs|].
  destruct e; exact Hs.
Qed.

(** X23.  A run only reads: every event it adds to the trace is a post of
    one of the seven query methods to a configured endpoint, a sleep of
    the configured delay, or a [validator-info get] or [stakes] call of
    the CLI against a configured endpoint, whatever the run ends in. *)
Theorem run_only_reads
    (cfg : Config) (w : World) (cluster : string) (tr : Trace) :
  exists s,
    snd (process_validator_data cfg w cluster tr) = tr ++ s
    /\ Forall (read_only_event cfg (default [] (get_rpc_urls cfg cluster))) s.
Proof.
  destruct (process_validator_data_spends cfg w cluster tr) as (s & Hs & HP & _).
  exists s. split; assumption.
Qed.

(** X24.  With [n] endpoints and [A = retries + 1] attempts a request, a
    run makes at most [8 * n * A] posts, [8 * (A - 1)] sleeps and [2 * n]
    CLI calls, whatever the endpoints answer. *)
Theorem run_request_budget
    (cfg : Config) (w : World) (cluster : string) (tr : Trace) :
  let n := List.length (default [] (get_rpc_urls cfg cluster)) in
  let A := Z.to_nat (get_rpc_max_retries cfg + 1) in
  exists s,
    snd (process_validator_data cfg w cluster tr) = tr ++ s
    /\ (count_events is_post s <= 8 * (n * A))%nat
    /\ (count_events is_sleep s <= 8 * (A - 1))%nat
    /\ (count_events is_cli s <= 2 * n)%nat.
Proof.
  intros n A.
  destruct (process_validator_data_spends cfg w cluster tr)
    as (s & Hs & _ & H1 & H2 & H3).
  exists s. repeat split; assumption.
Qed.
